(** * LmhpRemoteMcastSetup: the remote multicast setup package

    A shallow embedding of
    [src/apps/LoRaMac/common/LmHandler/packages/LmhpRemoteMcastSetup.c]:
    the command decode loop of [LmhpRemoteMcastSetupOnMcpsIndication], the
    module's session table [McSessionData], and the two timer callbacks
    [OnSessionStartTimer] and [OnSessionStopTimer].

    Bytes and machine integers are [Z] with their wrap-around written out.
    The MAC layer, the system time and the timers are outside the file: the
    MAC and the clock are an interface ([Platform]) over an abstract world,
    and every call to a timer or to a handler callback is recorded, in
    order, in the machine's list of [calls]. *)

From stdpp Require Import base numbers list relations.

Local Open Scope Z_scope.

(** ** Fixed-width integers *)

(** Conversion to [uint8_t], [uint32_t] and [int32_t]. *)
Definition uint8_t (x : Z) : Z := x mod 2 ^ 8.
Definition uint32_t (x : Z) : Z := x mod 2 ^ 32.
Definition int32_t (x : Z) : Z := (x + 2 ^ 31) mod 2 ^ 32 - 2 ^ 31.

(** ** Constants *)

Definition REMOTE_MCAST_SETUP_PORT : Z := 200.
Definition REMOTE_MCAST_SETUP_ID : Z := 2.
Definition REMOTE_MCAST_SETUP_VERSION : Z := 1.

(** Modelled from the spec: [LORAMAC_MAX_MC_CTX] is declared in the MAC's
    header, which is not part of the file; the specification fixes the
    number of multicast group slots to exactly 4 (indices 0 to 3), and the
    source reads [MulticastChannelList[0]] to [MulticastChannelList[3]]. *)
Definition LORAMAC_MAX_MC_CTX : Z := 4.

(** ** Enumerations *)

Inductive LmhpRemoteMcastSetupMoteCmd_t :=
  | REMOTE_MCAST_SETUP_PKG_VERSION_ANS
  | REMOTE_MCAST_SETUP_MC_GROUP_STATUS_ANS
  | REMOTE_MCAST_SETUP_MC_GROUP_SETUP_ANS
  | REMOTE_MCAST_SETUP_MC_GROUP_DELETE_ANS
  | REMOTE_MCAST_SETUP_MC_GROUP_CLASS_C_SESSION_ANS
  | REMOTE_MCAST_SETUP_MC_GROUP_CLASS_B_SESSION_ANS.

Definition MoteCmd_value (c : LmhpRemoteMcastSetupMoteCmd_t) : Z :=
  match c with
  | REMOTE_MCAST_SETUP_PKG_VERSION_ANS => 0x00
  | REMOTE_MCAST_SETUP_MC_GROUP_STATUS_ANS => 0x01
  | REMOTE_MCAST_SETUP_MC_GROUP_SETUP_ANS => 0x02
  | REMOTE_MCAST_SETUP_MC_GROUP_DELETE_ANS => 0x03
  | REMOTE_MCAST_SETUP_MC_GROUP_CLASS_C_SESSION_ANS => 0x04
  | REMOTE_MCAST_SETUP_MC_GROUP_CLASS_B_SESSION_ANS => 0x05
  end.

Inductive LmhpRemoteMcastSetupSrvCmd_t :=
  | REMOTE_MCAST_SETUP_PKG_VERSION_REQ
  | REMOTE_MCAST_SETUP_MC_GROUP_STATUS_REQ
  | REMOTE_MCAST_SETUP_MC_GROUP_SETUP_REQ
  | REMOTE_MCAST_SETUP_MC_GROUP_DELETE_REQ
  | REMOTE_MCAST_SETUP_MC_GROUP_CLASS_C_SESSION_REQ
  | REMOTE_MCAST_SETUP_MC_GROUP_CLASS_B_SESSION_REQ.


(** The case labels of the [switch]: [None] is its [default] branch. *)
Definition SrvCmd_of_byte (b : Z) : option LmhpRemoteMcastSetupSrvCmd_t :=
  if b =? 0x00 then Some REMOTE_MCAST_SETUP_PKG_VERSION_REQ
  else if b =? 0x01 then Some REMOTE_MCAST_SETUP_MC_GROUP_STATUS_REQ
  else if b =? 0x02 then Some REMOTE_MCAST_SETUP_MC_GROUP_SETUP_REQ
  else if b =? 0x03 then Some REMOTE_MCAST_SETUP_MC_GROUP_DELETE_REQ
  else if b =? 0x04 then Some REMOTE_MCAST_SETUP_MC_GROUP_CLASS_C_SESSION_REQ
  else if b =? 0x05 then Some REMOTE_MCAST_SETUP_MC_GROUP_CLASS_B_SESSION_REQ
  else None.

Inductive SessionState_t := SESSION_STOPED | SESSION_STARTED.

Inductive DeviceClass_t := CLASS_A | CLASS_B | CLASS_C.

(** The source only compares a MAC status with [LORAMAC_STATUS_OK]; the
    other status codes are one constructor. *)
Inductive LoRaMacStatus_t := LORAMAC_STATUS_OK | LORAMAC_STATUS_NOT_OK.

Inductive LmHandlerMsgTypes_t :=
  | LORAMAC_HANDLER_UNCONFIRMED_MSG
  | LORAMAC_HANDLER_CONFIRMED_MSG.

(** ** Structures *)

(** [IdHeader] is a union of the byte [Value] and the bit-fields
    [McGroupId:2; RFU:6]; the record keeps the byte, and [McGroupId] reads
    its two low bits. *)
Record McGroupData_t := {
  IdHeader_Value : Z;
  McAddr : Z;
  McKeyEncrypted : list Z;
  McFCountMin : Z;
  McFCountMax : Z
}.

Definition McGroupId (g : McGroupData_t) : Z := Z.land (IdHeader_Value g) 0x03.

(** The [ClassC] member of the union [McRxParams_t]. *)
Record McRxParams_t := {
  Frequency : Z;
  Datarate : Z
}.

Record McSessionData_t := {
  McGroupData : McGroupData_t;
  SessionState : SessionState_t;
  SessionTime : Z;
  SessionTimeout : Z;
  RxParams : McRxParams_t
}.

Record McChannelParams_t := {
  DevClass : DeviceClass_t;
  IsEnabled : bool;
  GroupID : Z;
  Address : Z;
  McKeyE : list Z;
  FCountMin : Z;
  FCountMax : Z;
  ChannelRxParams : McRxParams_t
}.

Record SysTime_t := {
  Seconds : Z;
  SubSeconds : Z
}.

(** The received frame: [Buffer] is the memory behind the pointer,
    [BufferSize] the number of bytes of it the frame holds. *)
Record McpsIndication_t := {
  Buffer : list Z;
  BufferSize : Z
}.

(** [AppBuffer] is the content of the shared answer buffer at the time of
    the call, cut at [AppBufferSize]. *)
Record LmHandlerAppData_t := {
  AppBuffer : list Z;
  AppBufferSize : Z;
  Port : Z
}.

(** The bit-fields of [TMcReqGroupMask] and [TMcGroupStatusAns], in the
    order of their declaration. *)
Record TMcReqGroupMask := {
  ReqGroupMask4 : bool;
  ReqGroupMask3 : bool;
  ReqGroupMask2 : bool;
  ReqGroupMask1 : bool
}.

Record TMcGroupStatusAns := {
  AnsGroupMask4 : bool;
  AnsGroupMask3 : bool;
  AnsGroupMask2 : bool;
  AnsGroupMask1 : bool;
  NbTotalGroups : Z;
  rfu : Z
}.

(** Bit-fields are allocated from the least significant bit of the byte,
    first declared first (the layout of the specification's table:
    "[AnsMask4, AnsMask3, AnsMask2, AnsMask1, NbTotalGroups (3 bits), rfu],
    little-endian bit order within the byte"). *)
Definition TMcReqGroupMask_of_byte (b : Z) : TMcReqGroupMask :=
  {| ReqGroupMask4 := Z.testbit b 0;
     ReqGroupMask3 := Z.testbit b 1;
     ReqGroupMask2 := Z.testbit b 2;
     ReqGroupMask1 := Z.testbit b 3 |}.

Definition TMcGroupStatusAns_to_byte (a : TMcGroupStatusAns) : Z :=
  Z.b2z (AnsGroupMask4 a)
  + 2 * Z.b2z (AnsGroupMask3 a)
  + 4 * Z.b2z (AnsGroupMask2 a)
  + 8 * Z.b2z (AnsGroupMask1 a)
  + 16 * (NbTotalGroups a mod 8)
  + 128 * (rfu a mod 2).

(** ** The platform: MAC layer and system time *)

(** [LoRaMacMcChannelSetupRxParams] takes the value of [*status] before the
    call and returns its value after it; [MulticastChannelList] is the
    channel list of the MAC's context as [MIB_NVM_CTXS] gives it. *)
Class Platform (W : Type) := {
  UNIX_GPS_EPOCH_OFFSET : Z;
  LoRaMacMcChannelSetup : McChannelParams_t -> W -> LoRaMacStatus_t * W;
  LoRaMacMcChannelDelete : Z -> W -> LoRaMacStatus_t * W;
  LoRaMacMcChannelSetupRxParams :
    Z -> McRxParams_t -> Z -> W -> LoRaMacStatus_t * Z * W;
  MulticastChannelList : W -> nat -> McChannelParams_t;
  SysTimeGet : W -> SysTime_t
}.

(** ** Calls to the timers and to the handler *)

Inductive TimerEvent_t := SessionStartTimer | SessionStopTimer.

Inductive call :=
  | TimerSetValue (obj : TimerEvent_t) (value : Z)
  | TimerStart (obj : TimerEvent_t)
  | TimerStop (obj : TimerEvent_t)
  | LmHandlerRequestClass (newClass : DeviceClass_t)
  | OnSendRequest (appData : LmHandlerAppData_t)
                  (isTxConfirmed : LmHandlerMsgTypes_t).

(** ** The machine and its monad *)

(** A run stops at an access outside the memory of a buffer or of the
    session table ([OutOfBounds]), or when the decode loop has not finished
    within the given number of iterations ([OutOfFuel]). *)
Inductive error := OutOfBounds | OutOfFuel.

Section Package.

Context {W : Type} {PF : Platform W}.

(** The locals [cmdIndex] and [dataBufferIndex] of the indication handler,
    the answer buffer [LmhpRemoteMcastSetupState.DataBuffer] (the list is
    the memory the host gave at initialisation), the global table
    [McSessionData], the world behind the platform and the calls made so
    far, oldest first. *)
Record machine := {
  cmdIndex : Z;
  dataBufferIndex : Z;
  DataBuffer : list Z;
  McSessionData : list McSessionData_t;
  world : W;
  calls : list call
}.

Definition set_cmdIndex (v : Z) (m : machine) : machine :=
  {| cmdIndex := v; dataBufferIndex := dataBufferIndex m;
     DataBuffer := DataBuffer m; McSessionData := McSessionData m;
     world := world m; calls := calls m |}.

Definition set_dataBufferIndex (v : Z) (m : machine) : machine :=
  {| cmdIndex := cmdIndex m; dataBufferIndex := v;
     DataBuffer := DataBuffer m; McSessionData := McSessionData m;
     world := world m; calls := calls m |}.

Definition set_DataBuffer (v : list Z) (m : machine) : machine :=
  {| cmdIndex := cmdIndex m; dataBufferIndex := dataBufferIndex m;
     DataBuffer := v; McSessionData := McSessionData m;
     world := world m; calls := calls m |}.

Definition set_McSessionData (v : list McSessionData_t) (m : machine) : machine :=
  {| cmdIndex := cmdIndex m; dataBufferIndex := dataBufferIndex m;
     DataBuffer := DataBuffer m; McSessionData := v;
     world := world m; calls := calls m |}.

Definition set_world (v : W) (m : machine) : machine :=
  {| cmdIndex := cmdIndex m; dataBufferIndex := dataBufferIndex m;
     DataBuffer := DataBuffer m; McSessionData := McSessionData m;
     world := v; calls := calls m |}.

Definition set_calls (v : list call) (m : machine) : machine :=
  {| cmdIndex := cmdIndex m; dataBufferIndex := dataBufferIndex m;
     DataBuffer := DataBuffer m; McSessionData := McSessionData m;
     world := world m; calls := v |}.

Inductive result (A : Type) :=
  | Ok (a : A) (m : machine)
  | Fault (e : error).
Global Arguments Ok {A} a m.
Global Arguments Fault {A} e.

Definition M (A : Type) : Type := machine -> result A.

Definition ret {A : Type} (a : A) : M A := fun m => Ok a m.

Definition bind {A B : Type} (c : M A) (k : A -> M B) : M B :=
  fun m => match c m with
           | Ok a m' => k a m'
           | Fault e => Fault e
           end.

Notation "x <- c ; k" := (bind c (fun x => k))
  (at level 20, c at level 100, k at level 200, only parsing).
Notation "c >> k" := (bind c (fun _ => k))
  (at level 100, k at level 200, only parsing, right associativity).

(** [mcpsIndication->Buffer[cmdIndex++]], with [cmdIndex] a [uint8_t]. *)
Definition next_byte (ind : McpsIndication_t) : M Z := fun m =>
  match Buffer ind !! Z.to_nat (cmdIndex m) with
  | Some b => Ok b (set_cmdIndex (uint8_t (cmdIndex m + 1)) m)
  | None => Fault OutOfBounds
  end.

(** [LmhpRemoteMcastSetupState.DataBuffer[dataBufferIndex++] = v], with
    [dataBufferIndex] a [uint8_t] and the buffer one of [uint8_t]. *)
Definition put (v : Z) : M unit := fun m =>
  match DataBuffer m !! Z.to_nat (dataBufferIndex m) with
  | Some _ =>
      Ok tt (set_dataBufferIndex (uint8_t (dataBufferIndex m + 1))
               (set_DataBuffer
                  (<[Z.to_nat (dataBufferIndex m) := uint8_t v]> (DataBuffer m)) m))
  | None => Fault OutOfBounds
  end.

(** [McSessionData[id]], read and updated in place. *)
Definition get_session (id : Z) : M McSessionData_t := fun m =>
  match McSessionData m !! Z.to_nat id with
  | Some r => Ok r m
  | None => Fault OutOfBounds
  end.

Definition modify_session (id : Z) (f : McSessionData_t -> McSessionData_t)
  : M unit := fun m =>
  match McSessionData m !! Z.to_nat id with
  | Some r => Ok tt (set_McSessionData (<[Z.to_nat id := f r]> (McSessionData m)) m)
  | None => Fault OutOfBounds
  end.

(** A call into the platform, and a recorded call. *)
Definition platform {A : Type} (f : W -> A * W) : M A := fun m =>
  let (a, w) := f (world m) in Ok a (set_world w m).

Definition get_world : M W := fun m => Ok (world m) m.

Definition emit (c : call) : M unit := fun m =>
  Ok tt (set_calls (calls m ++ [c]) m).

Fixpoint for_each {A : Type} (l : list A) (body : A -> M unit) : M unit :=
  match l with
  | [] => ret tt
  | x :: l' => body x >> for_each l' body
  end.

(** ** Field updates of the session table *)

Definition with_McGroupData (f : McGroupData_t -> McGroupData_t)
    (r : McSessionData_t) : McSessionData_t :=
  {| McGroupData := f (McGroupData r); SessionState := SessionState r;
     SessionTime := SessionTime r; SessionTimeout := SessionTimeout r;
     RxParams := RxParams r |}.

Definition with_SessionTime (f : Z -> Z) (r : McSessionData_t) : McSessionData_t :=
  {| McGroupData := McGroupData r; SessionState := SessionState r;
     SessionTime := f (SessionTime r); SessionTimeout := SessionTimeout r;
     RxParams := RxParams r |}.

Definition with_SessionTimeout (v : Z) (r : McSessionData_t) : McSessionData_t :=
  {| McGroupData := McGroupData r; SessionState := SessionState r;
     SessionTime := SessionTime r; SessionTimeout := v;
     RxParams := RxParams r |}.

Definition with_RxParams (f : McRxParams_t -> McRxParams_t)
    (r : McSessionData_t) : McSessionData_t :=
  {| McGroupData := McGroupData r; SessionState := SessionState r;
     SessionTime := SessionTime r; SessionTimeout := SessionTimeout r;
     RxParams := f (RxParams r) |}.

Definition with_Frequency (f : Z -> Z) (p : McRxParams_t) : McRxParams_t :=
  {| Frequency := f (Frequency p); Datarate := Datarate p |}.

Definition with_Datarate (v : Z) (p : McRxParams_t) : McRxParams_t :=
  {| Frequency := Frequency p; Datarate := v |}.

Definition with_IdHeader_Value (v : Z) (g : McGroupData_t) : McGroupData_t :=
  {| IdHeader_Value := v; McAddr := McAddr g;
     McKeyEncrypted := McKeyEncrypted g;
     McFCountMin := McFCountMin g; McFCountMax := McFCountMax g |}.

Definition with_McAddr (f : Z -> Z) (g : McGroupData_t) : McGroupData_t :=
  {| IdHeader_Value := IdHeader_Value g; McAddr := f (McAddr g);
     McKeyEncrypted := McKeyEncrypted g;
     McFCountMin := McFCountMin g; McFCountMax := McFCountMax g |}.

Definition with_McKeyEncrypted (f : list Z -> list Z) (g : McGroupData_t)
  : McGroupData_t :=
  {| IdHeader_Value := IdHeader_Value g; McAddr := McAddr g;
     McKeyEncrypted := f (McKeyEncrypted g);
     McFCountMin := McFCountMin g; McFCountMax := McFCountMax g |}.

Definition with_McFCountMin (f : Z -> Z) (g : McGroupData_t) : McGroupData_t :=
  {| IdHeader_Value := IdHeader_Value g; McAddr := McAddr g;
     McKeyEncrypted := McKeyEncrypted g;
     McFCountMin := f (McFCountMin g); McFCountMax := McFCountMax g |}.

Definition with_McFCountMax (f : Z -> Z) (g : McGroupData_t) : McGroupData_t :=
  {| IdHeader_Value := IdHeader_Value g; McAddr := McAddr g;
     McKeyEncrypted := McKeyEncrypted g;
     McFCountMin := McFCountMin g; McFCountMax := f (McFCountMax g) |}.

(** [x = (b << k) & mask] and [x += (b << k) & mask] on a [uint32_t]. *)
Definition shl_mask (b k mask : Z) : Z := Z.land (Z.shiftl b k) mask.

Definition assign (b k mask : Z) (_ : Z) : Z := uint32_t (shl_mask b k mask).
Definition add_assign (b k mask : Z) (x : Z) : Z := uint32_t (x + shl_mask b k mask).
Definition or_assign (b k mask : Z) (x : Z) : Z := uint32_t (Z.lor x (shl_mask b k mask)).

Definition gets {A : Type} (f : machine -> A) : M A := fun m => Ok (f m) m.

Definition when (b : bool) (c : M unit) : M unit := if b then c else ret tt.

(** ** The commands *)

(** [REMOTE_MCAST_SETUP_PKG_VERSION_REQ]. *)
Definition PackageVersion : M unit :=
  put (MoteCmd_value REMOTE_MCAST_SETUP_PKG_VERSION_ANS) >>
  put REMOTE_MCAST_SETUP_ID >>
  put REMOTE_MCAST_SETUP_VERSION.

(** The five bytes written for one group of the status answer: its
    [GroupID] and its [Address], low byte first. *)
Definition put_group (c : McChannelParams_t) : M unit :=
  put (GroupID c) >>
  put (Z.land (Z.shiftr (Address c) 0) 0xFF) >>
  put (Z.land (Z.shiftr (Address c) 8) 0xFF) >>
  put (Z.land (Z.shiftr (Address c) 16) 0xFF) >>
  put (Z.land (Z.shiftr (Address c) 24) 0xFF).

(** [StatusAns] as the source leaves it before it writes the answer: the
    mask bits of the request, each cleared when the address of its channel
    is 0. *)
Definition GroupStatusAns (Ctx : nat -> McChannelParams_t)
    (ReqGroupMask : TMcReqGroupMask) : TMcGroupStatusAns :=
  let unless_unset (i : nat) (bit : bool) :=
    if Address (Ctx i) =? 0 then false else bit in
  {| rfu := 0;
     NbTotalGroups := LORAMAC_MAX_MC_CTX;
     AnsGroupMask1 := unless_unset 0%nat (ReqGroupMask1 ReqGroupMask);
     AnsGroupMask2 := unless_unset 1%nat (ReqGroupMask2 ReqGroupMask);
     AnsGroupMask3 := unless_unset 2%nat (ReqGroupMask3 ReqGroupMask);
     AnsGroupMask4 := unless_unset 3%nat (ReqGroupMask4 ReqGroupMask) |}.

(** [REMOTE_MCAST_SETUP_MC_GROUP_STATUS_REQ]. *)
Definition GroupStatus (ind : McpsIndication_t) : M unit :=
  b <- next_byte ind;
  let ReqGroupMask := TMcReqGroupMask_of_byte b in
  w <- gets world;
  let Ctx := MulticastChannelList w in
  let StatusAns := GroupStatusAns Ctx ReqGroupMask in
  put (MoteCmd_value REMOTE_MCAST_SETUP_MC_GROUP_STATUS_ANS) >>
  put (TMcGroupStatusAns_to_byte StatusAns) >>
  when (AnsGroupMask1 StatusAns) (put_group (Ctx 0%nat)) >>
  when (AnsGroupMask2 StatusAns) (put_group (Ctx 1%nat)) >>
  when (AnsGroupMask3 StatusAns) (put_group (Ctx 2%nat)) >>
  when (AnsGroupMask4 StatusAns) (put_group (Ctx 3%nat)).

(** [REMOTE_MCAST_SETUP_MC_GROUP_SETUP_REQ]. *)
Definition GroupSetup (ind : McpsIndication_t) : M unit :=
  id <- next_byte ind;
  if LORAMAC_MAX_MC_CTX <=? id then ret tt
  else
    let group f := modify_session id (with_McGroupData f) in
    group (with_IdHeader_Value id) >>
    b <- next_byte ind; group (with_McAddr (assign b 0 0x000000FF)) >>
    b <- next_byte ind; group (with_McAddr (add_assign b 8 0x0000FF00)) >>
    b <- next_byte ind; group (with_McAddr (add_assign b 16 0x00FF0000)) >>
    b <- next_byte ind; group (with_McAddr (add_assign b 24 0xFF000000)) >>
    for_each (seq 0 16) (fun i =>
      b <- next_byte ind; group (with_McKeyEncrypted (fun k => <[i := b]> k))) >>
    b <- next_byte ind; group (with_McFCountMin (assign b 0 0x000000FF)) >>
    b <- next_byte ind; group (with_McFCountMin (add_assign b 8 0x0000FF00)) >>
    b <- next_byte ind; group (with_McFCountMin (add_assign b 16 0x00FF0000)) >>
    b <- next_byte ind; group (with_McFCountMin (add_assign b 24 0xFF000000)) >>
    b <- next_byte ind; group (with_McFCountMax (assign b 0 0x000000FF)) >>
    b <- next_byte ind; group (with_McFCountMax (add_assign b 8 0x0000FF00)) >>
    b <- next_byte ind; group (with_McFCountMax (add_assign b 16 0x00FF0000)) >>
    b <- next_byte ind; group (with_McFCountMax (add_assign b 24 0xFF000000)) >>
    r <- get_session id;
    let channel :=
      {| DevClass := CLASS_C;
         IsEnabled := true;
         GroupID := McGroupId (McGroupData r);
         Address := McAddr (McGroupData r);
         McKeyE := McKeyEncrypted (McGroupData r);
         FCountMin := McFCountMin (McGroupData r);
         FCountMax := McFCountMax (McGroupData r);
         ChannelRxParams := {| Frequency := 0; Datarate := 0 |} |} in
    st <- platform (LoRaMacMcChannelSetup channel);
    let idError := match st with LORAMAC_STATUS_OK => 0x00 | _ => 0x01 end in
    put (MoteCmd_value REMOTE_MCAST_SETUP_MC_GROUP_SETUP_ANS) >>
    r <- get_session id;
    put (Z.lor (Z.shiftl idError 2) (McGroupId (McGroupData r))).

(** [REMOTE_MCAST_SETUP_MC_GROUP_DELETE_REQ]. *)
Definition GroupDelete (ind : McpsIndication_t) : M unit :=
  b <- next_byte ind;
  let id := Z.land b 0x03 in
  put (MoteCmd_value REMOTE_MCAST_SETUP_MC_GROUP_DELETE_ANS) >>
  st <- platform (LoRaMacMcChannelDelete id);
  let status :=
    match st with LORAMAC_STATUS_OK => id | _ => Z.lor id 0x04 end in
  put status.

(** [REMOTE_MCAST_SETUP_MC_GROUP_CLASS_C_SESSION_REQ]. The product
    [timeToSessionStart * 1000] is an [int] given to a [uint32_t]
    parameter. *)
Definition ClassCSession (ind : McpsIndication_t) : M unit :=
  b <- next_byte ind;
  let id := Z.land b 0x03 in
  b <- next_byte ind; modify_session id (with_SessionTime (assign b 0 0x000000FF)) >>
  b <- next_byte ind; modify_session id (with_SessionTime (add_assign b 8 0x0000FF00)) >>
  b <- next_byte ind; modify_session id (with_SessionTime (add_assign b 16 0x00FF0000)) >>
  b <- next_byte ind; modify_session id (with_SessionTime (add_assign b 24 0xFF000000)) >>
  modify_session id (with_SessionTime (fun t => uint32_t (t + UNIX_GPS_EPOCH_OFFSET))) >>
  b <- next_byte ind; modify_session id (with_SessionTimeout (Z.land b 0x0F)) >>
  b <- next_byte ind;
  modify_session id (with_RxParams (with_Frequency (assign b 0 0x000000FF))) >>
  b <- next_byte ind;
  modify_session id (with_RxParams (with_Frequency (or_assign b 8 0x0000FF00))) >>
  b <- next_byte ind;
  modify_session id (with_RxParams (with_Frequency (or_assign b 16 0x00FF0000))) >>
  modify_session id (with_RxParams (with_Frequency (fun f => uint32_t (f * 100)))) >>
  b <- next_byte ind; modify_session id (with_RxParams (with_Datarate b)) >>
  put (MoteCmd_value REMOTE_MCAST_SETUP_MC_GROUP_CLASS_C_SESSION_ANS) >>
  r <- get_session id;
  res <- platform (LoRaMacMcChannelSetupRxParams id (RxParams r) 0x00);
  let status := uint8_t (snd res) in
  match fst res with
  | LORAMAC_STATUS_OK =>
      curTime <- gets (fun m => SysTimeGet (world m));
      r <- get_session id;
      let timeToSessionStart := int32_t (SessionTime r - Seconds curTime) in
      if 0 <? timeToSessionStart then
        emit (TimerSetValue SessionStartTimer (uint32_t (timeToSessionStart * 1000))) >>
        emit (TimerStart SessionStartTimer) >>
        put status >>
        put (Z.land (Z.shiftr timeToSessionStart 0) 0xFF) >>
        put (Z.land (Z.shiftr timeToSessionStart 8) 0xFF) >>
        put (Z.land (Z.shiftr timeToSessionStart 16) 0xFF)
      else
        put (Z.lor status 0x10)
  | _ => put status
  end.

(** The body of the [while] loop: the [switch] on the byte at [cmdIndex]. *)
Definition process_command (ind : McpsIndication_t) : M unit :=
  op <- next_byte ind;
  match SrvCmd_of_byte op with
  | Some REMOTE_MCAST_SETUP_PKG_VERSION_REQ => PackageVersion
  | Some REMOTE_MCAST_SETUP_MC_GROUP_STATUS_REQ => GroupStatus ind
  | Some REMOTE_MCAST_SETUP_MC_GROUP_SETUP_REQ => GroupSetup ind
  | Some REMOTE_MCAST_SETUP_MC_GROUP_DELETE_REQ => GroupDelete ind
  | Some REMOTE_MCAST_SETUP_MC_GROUP_CLASS_C_SESSION_REQ => ClassCSession ind
  | Some REMOTE_MCAST_SETUP_MC_GROUP_CLASS_B_SESSION_REQ => ret tt
  | None => ret tt
  end.

(** [while( cmdIndex < mcpsIndication->BufferSize )]. The index is a
    [uint8_t] and wraps, so the loop of the source need not end: the
    embedding counts its iterations. *)
Fixpoint decode_loop (fuel : nat) (ind : McpsIndication_t) : M unit := fun m =>
  if cmdIndex m <? BufferSize ind then
    match fuel with
    | O => Fault OutOfFuel
    | S fuel' => (process_command ind >> decode_loop fuel' ind) m
    end
  else Ok tt m.

(** The indication handler: the loop, then the answer sent when
    [dataBufferIndex != 0]. The debug prints that follow are left out. *)
Definition LmhpRemoteMcastSetupOnMcpsIndication (fuel : nat)
    (mcpsIndication : McpsIndication_t) : M unit :=
  (fun m => Ok tt (set_dataBufferIndex 0 (set_cmdIndex 0 m))) >>
  decode_loop fuel mcpsIndication >>
  n <- gets dataBufferIndex;
  if n =? 0 then ret tt
  else
    buf <- gets DataBuffer;
    emit (OnSendRequest
            {| AppBuffer := take (Z.to_nat n) buf;
               AppBufferSize := n;
               Port := REMOTE_MCAST_SETUP_PORT |}
            LORAMAC_HANDLER_UNCONFIRMED_MSG).

(** ** The timer callbacks *)

Definition OnSessionStartTimer : M unit :=
  emit (TimerStop SessionStartTimer) >>
  emit (LmHandlerRequestClass CLASS_C) >>
  r <- get_session 0;
  emit (TimerSetValue SessionStopTimer
          (uint32_t (Z.shiftl 1 (SessionTimeout r) * 1000))) >>
  emit (TimerStart SessionStopTimer).

Definition OnSessionStopTimer : M unit :=
  emit (TimerStop SessionStopTimer) >>
  emit (LmHandlerRequestClass CLASS_A).

End Package.

(** ** Notions used to state the properties *)

(** A little-endian value of four and of three bytes. *)
Definition le32 (b0 b1 b2 b3 : Z) : Z :=
  b0 + b1 * 2 ^ 8 + b2 * 2 ^ 16 + b3 * 2 ^ 24.

Definition le24 (b0 b1 b2 : Z) : Z := b0 + b1 * 2 ^ 8 + b2 * 2 ^ 16.

Definition is_byte (b : Z) : Prop := 0 <= b < 256.

(** The session table as the C globals have it: [LORAMAC_MAX_MC_CTX]
    records, each with a key of 16 bytes. *)
Definition table_wf (t : list McSessionData_t) : Prop :=
  length t = Z.to_nat LORAMAC_MAX_MC_CTX /\
  Forall (fun r => length (McKeyEncrypted (McGroupData r)) = 16%nat) t.

(** The specification's [isConfigured(slot)]: true iff the address of the
    slot is not the sentinel 0.  The source has no function of this name;
    its own test, in the group status command, is [Address == 0] on the
    channel list of the MAC. *)
Definition isConfigured (t : list McSessionData_t) (slot : Z) : bool :=
  match t !! Z.to_nat slot with
  | Some r => negb (McAddr (McGroupData r) =? 0)
  | None => false
  end.

Section Outcome.

Context {W : Type} {PF : Platform W}.

(** What the class C session command leaves behind: the record of its
    slot, the bytes of its answer and the calls to the start timer, from the
    bytes of the request, the result [st] and [status] of
    [LoRaMacMcChannelSetupRxParams] and the time to the start of the
    session [tts]. *)
Definition ClassC_record (r0 : McSessionData_t)
    (t0 t1 t2 t3 to f0 f1 f2 dr : Z) : McSessionData_t :=
  {| McGroupData := McGroupData r0;
     SessionState := SessionState r0;
     SessionTime := uint32_t (le32 t0 t1 t2 t3 + UNIX_GPS_EPOCH_OFFSET);
     SessionTimeout := Z.land to 0x0F;
     RxParams := {| Frequency := le24 f0 f1 f2 * 100; Datarate := dr |} |}.

Definition ClassC_answer (st : LoRaMacStatus_t) (status tts : Z) : list Z :=
  match st with
  | LORAMAC_STATUS_OK =>
      if 0 <? tts then
        [0x04; uint8_t status; Z.land (Z.shiftr tts 0) 0xFF;
         Z.land (Z.shiftr tts 8) 0xFF; Z.land (Z.shiftr tts 16) 0xFF]
      else [0x04; uint8_t (Z.lor (uint8_t status) 0x10)]
  | _ => [0x04; uint8_t status]
  end.

Definition ClassC_calls (st : LoRaMacStatus_t) (tts : Z) : list call :=
  match st with
  | LORAMAC_STATUS_OK =>
      if 0 <? tts then
        [TimerSetValue SessionStartTimer (uint32_t (tts * 1000));
         TimerStart SessionStartTimer]
      else []
  | _ => []
  end.

(** What the group setup command leaves in its slot, what it gives to the
    MAC and the second byte of its answer. *)
Definition GroupSetup_record (r0 : McSessionData_t) (id : Z)
    (a0 a1 a2 a3 : Z) (key : list Z) (n0 n1 n2 n3 x0 x1 x2 x3 : Z)
  : McSessionData_t :=
  {| McGroupData :=
       {| IdHeader_Value := id;
          McAddr := le32 a0 a1 a2 a3;
          McKeyEncrypted := key;
          McFCountMin := le32 n0 n1 n2 n3;
          McFCountMax := le32 x0 x1 x2 x3 |};
     SessionState := SessionState r0;
     SessionTime := SessionTime r0;
     SessionTimeout := SessionTimeout r0;
     RxParams := RxParams r0 |}.

Definition GroupSetup_channel (id : Z) (a0 a1 a2 a3 : Z) (key : list Z)
    (n0 n1 n2 n3 x0 x1 x2 x3 : Z) : McChannelParams_t :=
  {| DevClass := CLASS_C;
     IsEnabled := true;
     GroupID := id;
     Address := le32 a0 a1 a2 a3;
     McKeyE := key;
     FCountMin := le32 n0 n1 n2 n3;
     FCountMax := le32 x0 x1 x2 x3;
     ChannelRxParams := {| Frequency := 0; Datarate := 0 |} |}.

Definition GroupSetup_status (st : LoRaMacStatus_t) (id : Z) : Z :=
  match st with
  | LORAMAC_STATUS_OK => id
  | _ => Z.lor 0x04 id
  end.

(** The five bytes of one group in the answer to a group status request. *)
Definition group_bytes (c : McChannelParams_t) : list Z :=
  [uint8_t (GroupID c);
   Z.land (Z.shiftr (Address c) 0) 0xFF;
   Z.land (Z.shiftr (Address c) 8) 0xFF;
   Z.land (Z.shiftr (Address c) 16) 0xFF;
   Z.land (Z.shiftr (Address c) 24) 0xFF].

(** The machine [c] leaves behind, or [m] itself when [c] stops. *)
Definition after (c : M (W:=W) unit) (m : machine) : machine :=
  match c m with
  | Ok _ m' => m'
  | Fault _ => m
  end.

(** The session states of the table, slot by slot. *)
Definition session_states (m : machine (W:=W)) : list SessionState_t :=
  SessionState <$> McSessionData m.

(** The answer buffer is a [uint8_t] array of at most 255 bytes, and
    [dataBufferIndex] is inside it. *)
Definition buffer_ok (m : machine (W:=W)) : Prop :=
  0 <= dataBufferIndex m /\
  (Z.to_nat (dataBufferIndex m) <= length (DataBuffer m) <= 255)%nat.

(** From [m] to [m'] the bytes [ans] were written at [dataBufferIndex],
    and nothing else of the buffer changed. *)
Definition appended (ans : list Z) (m m' : machine (W:=W)) : Prop :=
  let i := Z.to_nat (dataBufferIndex m) in
  dataBufferIndex m' = dataBufferIndex m + Z.of_nat (length ans) /\
  DataBuffer m' = take i (DataBuffer m) ++ ans ++ drop (i + length ans) (DataBuffer m) /\
  (i + length ans <= length (DataBuffer m))%nat.

(** A computation that returns leaves the session states as they were and
    appends an answer of shape [P]. *)
Definition effect {A : Type} (c : M (W:=W) A) (P : A -> list Z -> Prop) : Prop :=
  forall m a m', c m = Ok a m' ->
    session_states m' = session_states m /\
    (buffer_ok m -> exists ans, appended ans m m' /\ P a ans).

(** What can happen to the package: an indication is handled, one of the
    two timers fires, or the world outside moves on. *)
Inductive package_step : machine (W:=W) -> machine (W:=W) -> Prop :=
  | indication_step fuel ind m m' :
      LmhpRemoteMcastSetupOnMcpsIndication fuel ind m = Ok tt m' ->
      package_step m m'
  | start_timer_step m m' :
      OnSessionStartTimer m = Ok tt m' -> package_step m m'
  | stop_timer_step m m' :
      OnSessionStopTimer m = Ok tt m' -> package_step m m'
  | world_step m w :
      package_step m (set_world w m).

End Outcome.


(** ** A scripted platform, to run the handlers on concrete inputs *)

Module Bench.

(** Modelled from the spec: the MAC layer and the system time are outside
    the file; this double follows their interface in the specification
    (configure a channel, delete a channel, configure the receive
    parameters, the channel list of the MAC's context, the current GPS
    time). Every request answers [mac_status]; a channel setup that
    succeeds stores the channel in the slot of its group and a delete that
    succeeds empties the slot; [rx_status] is what
    [LoRaMacMcChannelSetupRxParams] writes to [*status]; [now] is the
    clock. *)
Record script := {
  channels : list McChannelParams_t;
  now : Z;
  mac_status : LoRaMacStatus_t;
  rx_status : Z
}.

Definition no_channel : McChannelParams_t :=
  {| DevClass := CLASS_A; IsEnabled := false; GroupID := 0; Address := 0;
     McKeyE := replicate 16 0; FCountMin := 0; FCountMax := 0;
     ChannelRxParams := {| Frequency := 0; Datarate := 0 |} |}.

Definition store_channel (slot : Z) (c : McChannelParams_t) (w : script)
  : LoRaMacStatus_t * script :=
  match mac_status w with
  | LORAMAC_STATUS_OK =>
      (LORAMAC_STATUS_OK,
       {| channels := <[Z.to_nat slot := c]> (channels w); now := now w;
          mac_status := mac_status w; rx_status := rx_status w |})
  | st => (st, w)
  end.

#[global] Instance scripted : Platform script := {|
  UNIX_GPS_EPOCH_OFFSET := 315964800;
  LoRaMacMcChannelSetup := fun c w => store_channel (GroupID c) c w;
  LoRaMacMcChannelDelete := fun id w => store_channel id no_channel w;
  LoRaMacMcChannelSetupRxParams := fun _ _ _ w => (mac_status w, rx_status w, w);
  MulticastChannelList := fun w i => default no_channel (channels w !! i);
  SysTimeGet := fun w => {| Seconds := now w; SubSeconds := 0 |}
|}.

(** The zero-initialised globals. *)
Definition zero_session : McSessionData_t :=
  {| McGroupData :=
       {| IdHeader_Value := 0; McAddr := 0; McKeyEncrypted := replicate 16 0;
          McFCountMin := 0; McFCountMax := 0 |};
     SessionState := SESSION_STOPED;
     SessionTime := 0;
     SessionTimeout := 0;
     RxParams := {| Frequency := 0; Datarate := 0 |} |}.

Definition boot (w : script) : machine :=
  {| cmdIndex := 0; dataBufferIndex := 0;
     DataBuffer := replicate 242 0;
     McSessionData := replicate 4 zero_session;
     world := w; calls := [] |}.

(** The world at GPS time [t], with no group set up in the MAC. *)
Definition script_at (t : Z) (st : LoRaMacStatus_t) (rx : Z) : script :=
  {| channels := replicate 4 no_channel; now := t;
     mac_status := st; rx_status := rx |}.

(** The answer bytes written so far. *)
Definition answer (m : machine (W := script)) : list Z :=
  take (Z.to_nat (dataBufferIndex m)) (DataBuffer m).

End Bench.

(** ** Frames and machines for the concrete runs *)

(** The machine after start-up, at GPS time 1000000000, with a MAC that
    accepts every request. *)
Definition booted : machine :=
  Bench.boot (Bench.script_at 1000000000 LORAMAC_STATUS_OK 0).

(** The same machine with a MAC that refuses every request and writes 0x1D
    to the status of the receive parameters. *)
Definition booted_refusing : machine :=
  Bench.boot (Bench.script_at 1000000000 LORAMAC_STATUS_NOT_OK 0x1D).

(** The same machine with groups 0 and 2 set up in the MAC and groups 1
    and 3 not. *)
Definition groups_0_and_2 : Bench.script :=
  {| Bench.channels :=
       [ {| DevClass := CLASS_C; IsEnabled := true; GroupID := 0;
            Address := 0x11223344; McKeyE := replicate 16 0;
            FCountMin := 0; FCountMax := 65535;
            ChannelRxParams := {| Frequency := 0; Datarate := 0 |} |};
         Bench.no_channel;
         {| DevClass := CLASS_C; IsEnabled := true; GroupID := 2;
            Address := 0x55667788; McKeyE := replicate 16 0;
            FCountMin := 0; FCountMax := 65535;
            ChannelRxParams := {| Frequency := 0; Datarate := 0 |} |};
         Bench.no_channel ];
     Bench.now := 1000000000;
     Bench.mac_status := LORAMAC_STATUS_OK;
     Bench.rx_status := 0 |}.

(** A group status request with the request mask 1111. *)
Definition status_request_all : McpsIndication_t :=
  {| Buffer := [0x01; 0x0F]; BufferSize := 2 |}.

(** Group setup requests with the key 1, 2, ..., 16 and the frame counter
    bounds 0 and 65535. *)
Definition setup_key : list Z :=
  [1; 2; 3; 4; 5; 6; 7; 8; 9; 10; 11; 12; 13; 14; 15; 16].

Definition setup_command (id a0 a1 a2 a3 : Z) : list Z :=
  0x02 :: id :: a0 :: a1 :: a2 :: a3
    :: setup_key ++ [0; 0; 0; 0; 0xFF; 0xFF; 0; 0].

(** Group 1 with the address 0x11223344, and group 1 with the address 0. *)
Definition setup_request : McpsIndication_t :=
  {| Buffer := setup_command 1 0x44 0x33 0x22 0x11; BufferSize := 30 |}.

Definition setup_request_address_0 : McpsIndication_t :=
  {| Buffer := setup_command 1 0 0 0 0; BufferSize := 30 |}.

(** One frame that sets up group 0 (address 0x11223344) and group 2
    (address 0x55667788) and then asks for the status of all groups. *)
Definition setup_0_and_2_then_status : McpsIndication_t :=
  {| Buffer := setup_command 0 0x44 0x33 0x22 0x11
               ++ setup_command 2 0x88 0x77 0x66 0x55
               ++ [0x01; 0x0F];
     BufferSize := 62 |}.

(** A group setup request of 30 bytes for the reserved group 4, with the
    address 0x00000104 and every byte of the key and of the frame counter
    bounds 0xAA. *)
Definition setup_request_group_4 : McpsIndication_t :=
  {| Buffer := 0x02 :: 4 :: 0x04 :: 0x01 :: 0x00 :: 0x00
                 :: replicate 16 0xAA ++ replicate 8 0xAA;
     BufferSize := 30 |}.

(** A class C session request for group 1: Unix start time 684035250
    (GPS 1000000050), timeout exponent 5, 869.525 MHz, data rate 0. *)
Definition session_request_future : McpsIndication_t :=
  {| Buffer := [0x04; 1; 178; 140; 197; 40; 5; 210; 173; 132; 0];
     BufferSize := 11 |}.

(** The same request with the Unix start time 684035150 (GPS 999999950). *)
Definition session_request_past : McpsIndication_t :=
  {| Buffer := [0x04; 1; 78; 140; 197; 40; 5; 210; 173; 132; 0];
     BufferSize := 11 |}.

(** ** Further notions *)

(** The calls a class C session request makes to arm the start timer. *)
Definition start_timer_call (c : call) : Prop :=
  match c with
  | TimerSetValue SessionStartTimer _ => True
  | TimerStart SessionStartTimer => True
  | _ => False
  end.

(** The timeout exponent of every record is one of four bits. *)
Definition timeouts_ok (t : list McSessionData_t) : Prop :=
  Forall (fun r => 0 <= SessionTimeout r <= 15) t.

(** The number of bytes of the frame a command takes, from its opcode
    [op] and the byte [next] that follows it: the group setup request
    takes 30 bytes for a group below [LORAMAC_MAX_MC_CTX] and 2 bytes
    otherwise. *)
Definition command_size (op next : Z) : Z :=
  match SrvCmd_of_byte op with
  | Some REMOTE_MCAST_SETUP_PKG_VERSION_REQ => 1
  | Some REMOTE_MCAST_SETUP_MC_GROUP_STATUS_REQ => 2
  | Some REMOTE_MCAST_SETUP_MC_GROUP_SETUP_REQ =>
      if LORAMAC_MAX_MC_CTX <=? next then 2 else 30
  | Some REMOTE_MCAST_SETUP_MC_GROUP_DELETE_REQ => 2
  | Some REMOTE_MCAST_SETUP_MC_GROUP_CLASS_C_SESSION_REQ => 11
  | Some REMOTE_MCAST_SETUP_MC_GROUP_CLASS_B_SESSION_REQ => 1
  | None => 1
  end.

(** ** The package object and its initialisation *)

(** The table [LmhpRemoteMcastSetupPackage], which
    [LmhpRemoteMcastSetupPackageFactory] returns, binds the port
    [REMOTE_MCAST_SETUP_PORT] and the functions below to the hooks of the
    handler; the embedding calls the functions themselves. *)

(** [LmhpRemoteMcastSetupState]. Its fourth member, the pointer
    [DataBuffer], is the machine's [DataBuffer]: the memory behind the
    pointer, which is no memory at all, the empty list, while the pointer
    is [NULL]. *)
Record LmhpRemoteMcastSetupState_t := {
  Initialized : bool;
  IsRunning : bool;
  DataBufferMaxSize : Z
}.

Section PackageObject.

Context {W : Type} {PF : Platform W}.

(** The statics of the file: [LmhpRemoteMcastSetupState], the callbacks
    that [TimerInit] has bound to the two timers (oldest first), and the
    globals the handlers work on. *)
Record package := {
  LmhpRemoteMcastSetupState : LmhpRemoteMcastSetupState_t;
  TimerInit : list (TimerEvent_t * M (W:=W) unit);
  globals : machine (W:=W)
}.

(** The statics before any call: [Initialized] and [IsRunning] are
    [false] by their initialiser, everything else is zero; the two indices
    are locals of the handler, which sets them when it starts. *)
Definition package_static (w : W) : package :=
  {| LmhpRemoteMcastSetupState :=
       {| Initialized := false; IsRunning := false; DataBufferMaxSize := 0 |};
     TimerInit := [];
     globals :=
       {| cmdIndex := 0; dataBufferIndex := 0; DataBuffer := [];
          McSessionData :=
            replicate (Z.to_nat LORAMAC_MAX_MC_CTX) Bench.zero_session;
          world := w; calls := [] |} |}.

(** [LmhpRemoteMcastSetupInit]; [params] is not used. [dataBuffer] is
    [None] for [NULL] and the memory behind the pointer otherwise. *)
Definition LmhpRemoteMcastSetupInit (dataBuffer : option (list Z))
    (dataBufferMaxSize : Z) (p : package) : package :=
  match dataBuffer with
  | Some buffer =>
      {| LmhpRemoteMcastSetupState :=
           {| Initialized := true; IsRunning := true;
              DataBufferMaxSize := uint8_t dataBufferMaxSize |};
         TimerInit := TimerInit p ++
                      [(SessionStartTimer, OnSessionStartTimer);
                       (SessionStopTimer, OnSessionStopTimer)];
         globals := set_DataBuffer buffer (globals p) |}
  | None =>
      {| LmhpRemoteMcastSetupState :=
           {| Initialized := false; IsRunning := false;
              DataBufferMaxSize :=
                DataBufferMaxSize (LmhpRemoteMcastSetupState p) |};
         TimerInit := TimerInit p;
         globals := globals p |}
  end.

Definition LmhpRemoteMcastSetupIsInitialized (p : package) : bool :=
  Initialized (LmhpRemoteMcastSetupState p).

Definition LmhpRemoteMcastSetupIsRunning (p : package) : bool :=
  if negb (Initialized (LmhpRemoteMcastSetupState p)) then false
  else IsRunning (LmhpRemoteMcastSetupState p).

(** [LmhpRemoteMcastSetupProcess]: its body is a comment. *)
Definition LmhpRemoteMcastSetupProcess (p : package) : package := p.

Definition set_globals (g : machine (W:=W)) (p : package) : package :=
  {| LmhpRemoteMcastSetupState := LmhpRemoteMcastSetupState p;
     TimerInit := TimerInit p;
     globals := g |}.

(** What a host can do with the package: initialise it, with a buffer or
    with [NULL], let it process its events, and whatever happens to its
    globals (an indication, a timer, the world). *)
Inductive host_step : package -> package -> Prop :=
  | host_Init dataBuffer dataBufferMaxSize p :
      host_step p (LmhpRemoteMcastSetupInit dataBuffer dataBufferMaxSize p)
  | host_Process p :
      host_step p (LmhpRemoteMcastSetupProcess p)
  | host_globals p g :
      package_step (globals p) g -> host_step p (set_globals g p).

(** What holds of the statics after every step of the host. *)
Definition host_invariant (p : package) : Prop :=
  IsRunning (LmhpRemoteMcastSetupState p)
  = Initialized (LmhpRemoteMcastSetupState p) /\
  (Initialized (LmhpRemoteMcastSetupState p) = true ->
   In (SessionStartTimer, OnSessionStartTimer) (TimerInit p) /\
   In (SessionStopTimer, OnSessionStopTimer) (TimerInit p)) /\
  0 <= DataBufferMaxSize (LmhpRemoteMcastSetupState p) <= 255 /\
  table_wf (McSessionData (globals p)) /\
  timeouts_ok (McSessionData (globals p)).

End PackageObject.

(** ** What a computation keeps *)

Section Keeps.

Context {W : Type} {PF : Platform W}.

(** From [m] to [m']: the calls made are all [allowed]; the answer buffer
    has the size it had, and without a buffer nothing was written; a
    session table of [LORAMAC_MAX_MC_CTX] records with keys of 16 bytes is
    still one, and timeouts of four bits are still of four bits. *)
Definition quiet (allowed : call -> Prop) (m m' : machine (W:=W)) : Prop :=
  (exists l, calls m' = calls m ++ l /\ Forall allowed l) /\
  length (DataBuffer m') = length (DataBuffer m) /\
  (DataBuffer m = [] -> dataBufferIndex m' = dataBufferIndex m) /\
  (table_wf (McSessionData m) -> table_wf (McSessionData m')) /\
  (timeouts_ok (McSessionData m) -> timeouts_ok (McSessionData m')).

(** A computation that returns is [quiet], and one that stops has stopped
    at an access out of bounds. *)
Definition keeps {A : Type} (allowed : call -> Prop) (c : M (W:=W) A) : Prop :=
  forall m,
    match c m with
    | Ok _ m' => quiet allowed m m'
    | Fault e => e = OutOfBounds
    end.

(** A computation that returns has moved [cmdIndex] forward by [k]. *)
Definition advances {A : Type} (k : Z) (c : M (W:=W) A) : Prop :=
  0 <= k /\
  forall m a m',
    0 <= cmdIndex m -> c m = Ok a m' -> cmdIndex m' = cmdIndex m + k.

End Keeps.

(** ** Frames of well-formed requests *)

(** The requests of the package as the handler decodes them, each with
    the bytes that follow its opcode, and a byte that is no request the
    handler answers ([OtherByte]: the class B session request and every
    byte that is no opcode). *)
Inductive request :=
  | PackageVersionReq
  | GroupStatusReq (req : Z)
  | GroupSetupReq (id a0 a1 a2 a3 : Z) (key : list Z)
                  (n0 n1 n2 n3 x0 x1 x2 x3 : Z)
  | GroupDeleteReq (idb : Z)
  | ClassCSessionReq (idb t0 t1 t2 t3 to f0 f1 f2 dr : Z)
  | OtherByte (b : Z).



(** The answer to a group status request [req] when the channel list of
    the MAC is [Ctx]. *)
Definition GroupStatus_asked (Ctx : nat -> McChannelParams_t) (req : Z)
    (i : nat) : bool :=
  Z.testbit req (3 - Z.of_nat i) && negb (Address (Ctx i) =? 0).

Definition GroupStatus_group (Ctx : nat -> McChannelParams_t) (req : Z)
    (i : nat) : list Z :=
  if GroupStatus_asked Ctx req i then group_bytes (Ctx i) else [].

Definition GroupStatus_answer (Ctx : nat -> McChannelParams_t) (req : Z)
  : list Z :=
  [0x01; 64 + 8 * Z.b2z (GroupStatus_asked Ctx req 0)
            + 4 * Z.b2z (GroupStatus_asked Ctx req 1)
            + 2 * Z.b2z (GroupStatus_asked Ctx req 2)
            + Z.b2z (GroupStatus_asked Ctx req 3)]
  ++ GroupStatus_group Ctx req 0 ++ GroupStatus_group Ctx req 1
  ++ GroupStatus_group Ctx req 2 ++ GroupStatus_group Ctx req 3.

Section Requests.

Context {W : Type} {PF : Platform W}.

(** What a request leaves behind: the bytes of its answer, the session
    table, the world and the calls made. *)
Record outcome := {
  answer_bytes : list Z;
  table_after : list McSessionData_t;
  world_after : W;
  calls_made : list call
}.

(** One request, on the session table [t] and the world [w]. *)
Definition run (c : request) (t : list McSessionData_t) (w : W) : outcome :=
  match c with
  | PackageVersionReq =>
      {| answer_bytes := [0x00; REMOTE_MCAST_SETUP_ID; REMOTE_MCAST_SETUP_VERSION];
         table_after := t; world_after := w; calls_made := [] |}
  | GroupStatusReq req =>
      {| answer_bytes := GroupStatus_answer (MulticastChannelList w) req;
         table_after := t; world_after := w; calls_made := [] |}
  | GroupSetupReq id a0 a1 a2 a3 key n0 n1 n2 n3 x0 x1 x2 x3 =>
      let res :=
        LoRaMacMcChannelSetup
          (GroupSetup_channel id a0 a1 a2 a3 key n0 n1 n2 n3 x0 x1 x2 x3) w in
      {| answer_bytes := [0x02; GroupSetup_status (fst res) id];
         table_after :=
           alter (fun r0 => GroupSetup_record r0 id a0 a1 a2 a3 key
                              n0 n1 n2 n3 x0 x1 x2 x3) (Z.to_nat id) t;
         world_after := snd res; calls_made := [] |}
  | GroupDeleteReq idb =>
      let id := Z.land idb 0x03 in
      let res := LoRaMacMcChannelDelete id w in
      {| answer_bytes :=
           [0x03; match fst res with
                  | LORAMAC_STATUS_OK => id
                  | LORAMAC_STATUS_NOT_OK => id + 4
                  end];
         table_after := t; world_after := snd res; calls_made := [] |}
  | ClassCSessionReq idb t0 t1 t2 t3 to f0 f1 f2 dr =>
      let id := Z.land idb 0x03 in
      let res :=
        LoRaMacMcChannelSetupRxParams id
          {| Frequency := le24 f0 f1 f2 * 100; Datarate := dr |} 0x00 w in
      let tts :=
        int32_t (uint32_t (le32 t0 t1 t2 t3 + UNIX_GPS_EPOCH_OFFSET)
                 - Seconds (SysTimeGet (snd res))) in
      {| answer_bytes := ClassC_answer (fst (fst res)) (snd (fst res)) tts;
         table_after :=
           alter (fun r0 => ClassC_record r0 t0 t1 t2 t3 to f0 f1 f2 dr)
                 (Z.to_nat id) t;
         world_after := snd res;
         calls_made := ClassC_calls (fst (fst res)) tts |}
  | OtherByte _ =>
      {| answer_bytes := []; table_after := t; world_after := w;
         calls_made := [] |}
  end.


End Requests.

(** ** Frames for further runs *)

(** A frame of 255 bytes in a memory of 256: 254 class B session requests,
    the opcode of a group setup request as the last byte of the frame, and
    the reserved group 4 in the byte behind the frame. *)
Definition frame_wrapping : McpsIndication_t :=
  {| Buffer := replicate 254 0x05 ++ [0x02; 4]; BufferSize := 255 |}.

(** [n] package version requests. *)
Definition version_requests (n : nat) : McpsIndication_t :=
  {| Buffer := replicate n 0x00; BufferSize := Z.of_nat n |}.

(** A group delete request for the group byte 7. *)
Definition delete_request_7 : McpsIndication_t :=
  {| Buffer := [0x03; 7]; BufferSize := 2 |}.

(** The group setup request for group 1 with the address 0x11223344,
    announced as a frame of one byte. *)
Definition setup_request_size_1 : McpsIndication_t :=
  {| Buffer := setup_command 1 0x44 0x33 0x22 0x11; BufferSize := 1 |}.

(** One frame that sets up group 1 with the address 0x11223344 and asks
    for the status of group 1. *)
Definition setup_1_then_status : McpsIndication_t :=
  {| Buffer := setup_command 1 0x44 0x33 0x22 0x11 ++ [0x01; 0x04];
     BufferSize := 32 |}.

(** Three bytes that are no request, among them the class B session
    request. *)
Definition frame_unknown : McpsIndication_t :=
  {| Buffer := [0x05; 0x80; 0xFF]; BufferSize := 3 |}.

(** A group status request for the groups 0 and 1 (bits 3 and 2 of the
    request mask), with a bit of the reserved half of the byte set. *)
Definition status_request_0_and_1 : McpsIndication_t :=
  {| Buffer := [0x01; 0x8C]; BufferSize := 2 |}.

(** A class C session request for group 0: Unix start time 684038800
    (GPS 1000003600), timeout exponent 9, 869.525 MHz, data rate 0. *)
Definition session_request_in_an_hour : McpsIndication_t :=
  {| Buffer := [0x04; 0; 144; 154; 197; 40; 9; 210; 173; 132; 0];
     BufferSize := 11 |}.

(** The statics of the file with the world of the machine after start-up,
    and the package initialised with a buffer of 242 bytes. *)
Definition package_booted : package :=
  LmhpRemoteMcastSetupInit (Some (replicate 242 0)) 242
    (package_static (Bench.script_at 1000000000 LORAMAC_STATUS_OK 0)).



(** ** Arithmetic of the fixed-width integers *)

Lemma uint8_t_small x : 0 <= x < 256 -> uint8_t x = x.
Proof. intros. unfold uint8_t. apply Z.mod_small. lia. Qed.

Lemma uint32_t_small x : 0 <= x < 2 ^ 32 -> uint32_t x = x.
Proof. intros. unfold uint32_t. apply Z.mod_small. lia. Qed.

Lemma uint8_t_range x : 0 <= uint8_t x < 256.
Proof. unfold uint8_t. apply Z.mod_pos_bound. lia. Qed.

Lemma uint8_t_idem x : uint8_t (uint8_t x) = uint8_t x.
Proof. apply uint8_t_small, uint8_t_range. Qed.

Lemma int32_t_small x : - 2 ^ 31 <= x < 2 ^ 31 -> int32_t x = x.
Proof. intros. unfold int32_t. rewrite Z.mod_small; lia. Qed.

Lemma int32_t_shift x k : int32_t (x + k * 2 ^ 32) = int32_t x.
Proof.
  unfold int32_t. f_equal.
  replace (x + k * 2 ^ 32 + 2 ^ 31) with (x + 2 ^ 31 + k * 2 ^ 32) by lia.
  apply Z_mod_plus_full.
Qed.

Lemma int32_t_uint32_t_sub x y : int32_t (uint32_t x - y) = int32_t (x - y).
Proof.
  unfold uint32_t. rewrite (Z.mod_eq x (2 ^ 32)) by lia.
  replace (x - 2 ^ 32 * (x / 2 ^ 32) - y) with (x - y + (- (x / 2 ^ 32)) * 2 ^ 32) by lia.
  apply int32_t_shift.
Qed.

Lemma land_byte_range x : 0 <= Z.land x 0xFF < 256.
Proof.
  change 255 with (Z.ones 8). rewrite Z.land_ones by lia.
  apply Z.mod_pos_bound. lia.
Qed.

Lemma uint8_t_land_byte x : uint8_t (Z.land x 0xFF) = Z.land x 0xFF.
Proof. apply uint8_t_small, land_byte_range. Qed.

Lemma land_3_range x : 0 <= Z.land x 0x03 < 4.
Proof.
  change 3 with (Z.ones 2). rewrite Z.land_ones by lia.
  apply Z.mod_pos_bound. lia.
Qed.

Lemma land_15_range x : 0 <= Z.land x 0x0F < 16.
Proof.
  change 15 with (Z.ones 4). rewrite Z.land_ones by lia.
  apply Z.mod_pos_bound. lia.
Qed.

Lemma land_3_small x : 0 <= x < 4 -> Z.land x 0x03 = x.
Proof.
  intros. change 3 with (Z.ones 2). rewrite Z.land_ones by lia.
  apply Z.mod_small. lia.
Qed.

(** [(b << k) & (0xFF << k)] moves the byte [b] to bit [k]. *)
Lemma shl_mask_byte b k :
  is_byte b -> 0 <= k -> shl_mask b k (Z.shiftl 0xFF k) = b * 2 ^ k.
Proof.
  intros Hb Hk. unfold shl_mask.
  rewrite <- Z.shiftl_land.
  change 255 with (Z.ones 8). rewrite Z.land_ones by lia.
  rewrite Z.mod_small by (unfold is_byte in Hb; lia).
  apply Z.shiftl_mul_pow2. lia.
Qed.

Lemma lor_disjoint a b k :
  0 <= k -> 0 <= a < 2 ^ k -> Z.lor a (b * 2 ^ k) = a + b * 2 ^ k.
Proof.
  intros Hk Ha. symmetry. apply Z.add_nocarry_lor.
  apply Z.bits_inj'. intros n Hn.
  rewrite Z.land_spec, Z.bits_0.
  destruct (Z.lt_ge_cases n k).
  - rewrite Z.mul_pow2_bits_low by lia. apply andb_false_r.
  - destruct (Z.eq_dec a 0) as [->|]. { now rewrite Z.bits_0. }
    rewrite (Z.bits_above_log2 a n); [reflexivity|lia|].
    apply Z.log2_lt_pow2; try lia.
    apply Z.lt_le_trans with (2 ^ k); try lia. apply Z.pow_le_mono_r; lia.
Qed.

(** The four [=]/[+=] statements of the source read a little-endian
    32-bit value. *)
Lemma decode_le32 b0 b1 b2 b3 x :
  is_byte b0 -> is_byte b1 -> is_byte b2 -> is_byte b3 ->
  add_assign b3 24 0xFF000000 (add_assign b2 16 0x00FF0000
    (add_assign b1 8 0x0000FF00 (assign b0 0 0x000000FF x))) = le32 b0 b1 b2 b3.
Proof.
  unfold add_assign, assign, le32. intros H0 H1 H2 H3.
  rewrite (shl_mask_byte b0 0 H0 ltac:(lia) : shl_mask b0 0 255 = _).
  rewrite (shl_mask_byte b1 8 H1 ltac:(lia) : shl_mask b1 8 65280 = _).
  rewrite (shl_mask_byte b2 16 H2 ltac:(lia) : shl_mask b2 16 16711680 = _).
  rewrite (shl_mask_byte b3 24 H3 ltac:(lia) : shl_mask b3 24 4278190080 = _).
  unfold is_byte in *.
  rewrite (uint32_t_small (b0 * 2 ^ 0)) by lia.
  rewrite (uint32_t_small (b0 * 2 ^ 0 + b1 * 2 ^ 8)) by lia.
  rewrite (uint32_t_small (b0 * 2 ^ 0 + b1 * 2 ^ 8 + b2 * 2 ^ 16)) by lia.
  rewrite uint32_t_small by lia. lia.
Qed.

(** The [=] and the two [|=] statements read a little-endian 24-bit
    value. *)
Lemma decode_le24 b0 b1 b2 x :
  is_byte b0 -> is_byte b1 -> is_byte b2 ->
  or_assign b2 16 0x00FF0000 (or_assign b1 8 0x0000FF00
    (assign b0 0 0x000000FF x)) = le24 b0 b1 b2.
Proof.
  unfold or_assign, assign, le24. intros H0 H1 H2.
  rewrite (shl_mask_byte b0 0 H0 ltac:(lia) : shl_mask b0 0 255 = _).
  rewrite (shl_mask_byte b1 8 H1 ltac:(lia) : shl_mask b1 8 65280 = _).
  rewrite (shl_mask_byte b2 16 H2 ltac:(lia) : shl_mask b2 16 16711680 = _).
  unfold is_byte in *.
  rewrite (uint32_t_small (b0 * 2 ^ 0)) by lia.
  rewrite (lor_disjoint (b0 * 2 ^ 0) b1 8) by lia.
  rewrite (uint32_t_small (b0 * 2 ^ 0 + b1 * 2 ^ 8)) by lia.
  rewrite (lor_disjoint (b0 * 2 ^ 0 + b1 * 2 ^ 8) b2 16) by lia.
  rewrite uint32_t_small by lia. lia.
Qed.

Lemma le32_range b0 b1 b2 b3 :
  is_byte b0 -> is_byte b1 -> is_byte b2 -> is_byte b3 ->
  0 <= le32 b0 b1 b2 b3 < 2 ^ 32.
Proof. unfold is_byte, le32. lia. Qed.

Lemma le24_range b0 b1 b2 :
  is_byte b0 -> is_byte b1 -> is_byte b2 -> 0 <= le24 b0 b1 b2 < 2 ^ 24.
Proof. unfold is_byte, le24. lia. Qed.

(** ** Running the monad forwards *)

Section Exec.

Context {W : Type} {PF : Platform W}.
Implicit Types m : machine (W:=W).

Lemma bind_Ok {A B : Type} (c : M (W:=W) A) (k : A -> M B) m a m1 r :
  c m = Ok a m1 -> k a m1 = r -> bind c k m = r.
Proof. intros Hc Hk. unfold bind. now rewrite Hc. Qed.

Lemma next_byte_eq ind m pre rest k b :
  Buffer ind = pre ++ rest ->
  cmdIndex m = Z.of_nat (k + length pre) ->
  rest !! k = Some b ->
  (S k + length pre <= 255)%nat ->
  next_byte ind m = Ok b (set_cmdIndex (Z.of_nat (S k + length pre)) m).
Proof.
  intros HB Hc Hk Hle. unfold next_byte.
  rewrite Hc, Nat2Z.id, HB.
  rewrite lookup_app_r by lia.
  replace (k + length pre - length pre)%nat with k by lia.
  rewrite Hk. f_equal. f_equal.
  rewrite uint8_t_small by lia. lia.
Qed.

Lemma put_eq v m out x free :
  DataBuffer m = out ++ x :: free ->
  dataBufferIndex m = Z.of_nat (length out) ->
  (length out < 255)%nat ->
  put v m = Ok tt (set_dataBufferIndex (Z.of_nat (length (out ++ [uint8_t v])))
                     (set_DataBuffer ((out ++ [uint8_t v]) ++ free) m)).
Proof.
  intros HD Hi Hle. unfold put.
  rewrite Hi, HD, Nat2Z.id.
  rewrite lookup_app_r by lia. rewrite Nat.sub_diag. cbn [lookup list_lookup].
  f_equal. f_equal.
  - rewrite length_app. cbn [length]. rewrite uint8_t_small by lia. lia.
  - f_equal. rewrite insert_app_r_alt by lia. rewrite Nat.sub_diag. cbn.
    now rewrite <- app_assoc.
Qed.

Lemma modify_session_first id f m r :
  McSessionData m !! Z.to_nat id = Some r ->
  modify_session id f m
  = Ok tt (set_McSessionData (<[Z.to_nat id := f r]> (McSessionData m)) m).
Proof. intros HS. unfold modify_session. now rewrite HS. Qed.

Lemma modify_session_eq id f m l r :
  McSessionData m = <[Z.to_nat id := r]> l ->
  (Z.to_nat id < length l)%nat ->
  modify_session id f m = Ok tt (set_McSessionData (<[Z.to_nat id := f r]> l) m).
Proof.
  intros HS Hl. unfold modify_session. rewrite HS.
  rewrite list_lookup_insert_eq by done.
  now rewrite list_insert_insert_eq.
Qed.

Lemma get_session_eq id m l r :
  McSessionData m = <[Z.to_nat id := r]> l ->
  (Z.to_nat id < length l)%nat ->
  get_session id m = Ok r m.
Proof.
  intros HS Hl. unfold get_session. rewrite HS.
  now rewrite list_lookup_insert_eq by done.
Qed.

Lemma get_session_first id m r :
  McSessionData m !! Z.to_nat id = Some r -> get_session id m = Ok r m.
Proof. intros HS. unfold get_session. now rewrite HS. Qed.

Lemma platform_eq {A : Type} (f : W -> A * W) m a w :
  f (world m) = (a, w) -> platform f m = Ok a (set_world w m).
Proof. intros Hf. unfold platform. now rewrite Hf. Qed.

Lemma emit_eq c m : emit c m = Ok tt (set_calls (calls m ++ [c]) m).
Proof. reflexivity. Qed.

Lemma gets_eq {A : Type} (f : machine -> A) m : gets f m = Ok (f m) m.
Proof. reflexivity. Qed.

Lemma ret_eq {A : Type} (a : A) m : ret a m = Ok a m.
Proof. reflexivity. Qed.

Lemma decode_loop_done fuel ind m :
  BufferSize ind <= cmdIndex m -> decode_loop fuel ind m = Ok tt m.
Proof.
  intros H. destruct fuel; cbn;
    destruct (Z.ltb_spec (cmdIndex m) (BufferSize ind)); try lia; reflexivity.
Qed.

Lemma decode_loop_step fuel ind m :
  cmdIndex m < BufferSize ind ->
  decode_loop (S fuel) ind m
  = bind (process_command ind) (fun _ => decode_loop fuel ind) m.
Proof.
  intros H. cbn.
  destruct (Z.ltb_spec (cmdIndex m) (BufferSize ind)); try lia; reflexivity.
Qed.

End Exec.

(** [exec] runs a straight-line block; [step] runs its first action. *)
Ltac side :=
  first [ eassumption | reflexivity
        | (rewrite ?length_app; cbn [length group_bytes]; lia) ].

Ltac prim :=
  lazymatch goal with
  | |- next_byte _ _ = _ =>
      eapply next_byte_eq; [ eassumption | reflexivity | reflexivity | side ]
  | |- put _ _ = _ => eapply put_eq; [ reflexivity | reflexivity | side ]
  | |- modify_session _ _ _ = _ =>
      first [ eapply modify_session_eq; [ reflexivity | eassumption ]
            | eapply modify_session_first; eassumption ]
  | |- get_session _ _ = _ =>
      first [ eapply get_session_eq; [ reflexivity | eassumption ]
            | eapply get_session_first; eassumption ]
  | |- gets _ _ = _ => apply gets_eq
  | |- emit _ _ = _ => apply emit_eq
  | |- ret _ _ = _ => apply ret_eq
  end.

Ltac exec :=
  lazymatch goal with
  | |- bind _ _ _ = _ => eapply bind_Ok; [ exec | cbv beta; exec ]
  | |- _ => prim
  end.

Ltac step :=
  lazymatch goal with
  | |- bind _ _ _ = _ => eapply bind_Ok; [ exec | cbv beta ]
  | |- _ => prim
  end.

Ltac dispatch :=
  match goal with
  | |- context [SrvCmd_of_byte ?b] =>
      let v := eval vm_compute in (SrvCmd_of_byte b) in
      change (SrvCmd_of_byte b) with v; cbv beta iota
  end.

Ltac machine_eq :=
  f_equal;
  cbv beta iota delta [set_cmdIndex set_dataBufferIndex set_DataBuffer
    set_McSessionData set_world set_calls
    cmdIndex dataBufferIndex DataBuffer McSessionData world calls];
  f_equal.

Ltac if_cond c H :=
  lazymatch goal with
  | |- (if ?b then _ else _) _ = _ =>
      replace b with c by reflexivity; rewrite H
  end.

Ltac open_machine m :=
  destruct m as [?ci ?di ?buf ?sess ?w ?tr];
  cbn [cmdIndex dataBufferIndex DataBuffer McSessionData world calls] in *;
  subst.

Ltac bytes_of H :=
  repeat match type of H with
         | Forall _ (_ :: _) =>
             let Hb := fresh "Hb" in
             apply Forall_cons in H; destruct H as [Hb H]
         end.

Lemma table_slot (t : list McSessionData_t) id :
  table_wf t -> 0 <= id < 4 ->
  exists r, t !! Z.to_nat id = Some r /\
            length (McKeyEncrypted (McGroupData r)) = 16%nat.
Proof.
  intros [Hl Hk] Hid.
  destruct (lookup_lt_is_Some_2 t (Z.to_nat id)) as [r Hr].
  { rewrite Hl. unfold LORAMAC_MAX_MC_CTX. lia. }
  exists r. split; [done|].
  rewrite Forall_lookup in Hk. exact (Hk _ _ Hr).
Qed.

(** ** The class C session command *)

Section ClassC.

Context {W : Type} {PF : Platform W}.
Implicit Types m : machine (W:=W).

Lemma ClassC_fields r0 t0 t1 t2 t3 to f0 f1 f2 dr :
  is_byte t0 -> is_byte t1 -> is_byte t2 -> is_byte t3 ->
  is_byte f0 -> is_byte f1 -> is_byte f2 ->
  with_RxParams (with_Datarate dr)
   (with_RxParams (with_Frequency (fun f => uint32_t (f * 100)))
    (with_RxParams (with_Frequency (or_assign f2 16 0x00FF0000))
     (with_RxParams (with_Frequency (or_assign f1 8 0x0000FF00))
      (with_RxParams (with_Frequency (assign f0 0 0x000000FF))
       (with_SessionTimeout (Z.land to 0x0F)
        (with_SessionTime (fun t => uint32_t (t + UNIX_GPS_EPOCH_OFFSET))
         (with_SessionTime (add_assign t3 24 0xFF000000)
          (with_SessionTime (add_assign t2 16 0x00FF0000)
           (with_SessionTime (add_assign t1 8 0x0000FF00)
            (with_SessionTime (assign t0 0 0x000000FF) r0))))))))))
  = ClassC_record r0 t0 t1 t2 t3 to f0 f1 f2 dr.
Proof.
  intros.
  cbv beta iota delta [ClassC_record with_RxParams with_Datarate with_Frequency
    with_SessionTimeout with_SessionTime
    McGroupData SessionState SessionTime SessionTimeout RxParams Frequency Datarate].
  rewrite decode_le32, decode_le24 by assumption.
  rewrite (uint32_t_small (le24 f0 f1 f2 * 100))
    by (pose proof (le24_range f0 f1 f2 ltac:(assumption) ltac:(assumption) ltac:(assumption)); lia).
  reflexivity.
Qed.

Ltac ClassC_prefix id r1 Hmac :=
  unfold process_command; step; dispatch; unfold ClassCSession;
  step; cbv zeta; fold id;
  do 22 step;
  rewrite ClassC_fields by assumption; fold r1;
  eapply bind_Ok;
  [ apply platform_eq;
    cbn [world set_world set_dataBufferIndex set_DataBuffer set_McSessionData
         set_cmdIndex];
    exact Hmac
  | cbv beta; cbn [fst snd] ].

Lemma ClassCSession_exec ind m pre post idb t0 t1 t2 t3 to f0 f1 f2 dr out free r0
    st status w' :
  let cmd := [0x04; idb; t0; t1; t2; t3; to; f0; f1; f2; dr] in
  let id := Z.land idb 0x03 in
  let r1 := ClassC_record r0 t0 t1 t2 t3 to f0 f1 f2 dr in
  let tts := int32_t (SessionTime r1 - Seconds (SysTimeGet w')) in
  let ans := ClassC_answer st status tts in
  Buffer ind = pre ++ cmd ++ post ->
  Forall is_byte cmd ->
  (length pre + 11 <= 255)%nat ->
  cmdIndex m = Z.of_nat (length pre) ->
  McSessionData m !! Z.to_nat id = Some r0 ->
  DataBuffer m = out ++ free ->
  dataBufferIndex m = Z.of_nat (length out) ->
  (5 <= length free)%nat ->
  (length out + 5 <= 255)%nat ->
  LoRaMacMcChannelSetupRxParams id (RxParams r1) 0x00 (world m) = (st, status, w') ->
  process_command ind m
  = Ok tt {| cmdIndex := Z.of_nat (length pre + 11);
             dataBufferIndex := Z.of_nat (length out + length ans);
             DataBuffer := out ++ ans ++ drop (length ans) free;
             McSessionData := <[Z.to_nat id := r1]> (McSessionData m);
             world := w';
             calls := calls m ++ ClassC_calls st tts |}.
Proof.
  intros cmd id r1 tts ans HB Hbytes Hpre Hc Hr0 HD Hdi Hfree Hout Hmac.
  subst cmd. bytes_of Hbytes.
  destruct free as [|x0 [|x1 [|x2 [|x3 [|x4 free]]]]]; cbn [length] in Hfree; try lia.
  assert (Hlen : (Z.to_nat id < length (McSessionData m))%nat)
    by (eapply lookup_lt_Some; eauto).
  open_machine m.
  change (Z.of_nat (length pre)) with (Z.of_nat (0 + length pre)).
  assert (Hcases : (st = LORAMAC_STATUS_OK /\ (0 <? tts) = true) \/
                   (st = LORAMAC_STATUS_OK /\ (0 <? tts) = false) \/
                   st = LORAMAC_STATUS_NOT_OK).
  { destruct st; [destruct (0 <? tts)|]; auto. }
  subst ans. unfold ClassC_answer, ClassC_calls.
  destruct Hcases as [[-> Hlt]|[[-> Hlt]| ->]]; rewrite ?Hlt.
  - etransitivity.
    { ClassC_prefix id r1 Hmac. do 2 step. if_cond (0 <? tts) Hlt. do 5 step. step. }
    machine_eq.
    + f_equal. lia.
    + rewrite !length_app. cbn [length]. f_equal. lia.
    + rewrite <- !app_assoc. cbn [app drop length]. f_equal.
      now rewrite uint8_t_idem, !uint8_t_land_byte.
    + now rewrite <- app_assoc.
  - etransitivity.
    { ClassC_prefix id r1 Hmac. do 2 step. if_cond (0 <? tts) Hlt. step. }
    machine_eq.
    + f_equal. lia.
    + rewrite !length_app. cbn [length]. f_equal. lia.
    + rewrite <- !app_assoc. cbn [app drop length]. reflexivity.
    + now rewrite app_nil_r.
  - etransitivity.
    { ClassC_prefix id r1 Hmac. step. }
    machine_eq.
    + f_equal. lia.
    + rewrite !length_app. cbn [length]. f_equal. lia.
    + rewrite <- !app_assoc. cbn [app drop length]. f_equal.
      now rewrite uint8_t_idem.
    + now rewrite app_nil_r.
Qed.
End ClassC.

Lemma testbit4_status s : Z.testbit (uint8_t (Z.lor (uint8_t s) 0x10)) 4 = true.
Proof.
  unfold uint8_t at 1. rewrite Z.mod_pow2_bits_low by lia.
  rewrite Z.lor_spec. change (Z.testbit 16 4) with true. apply orb_true_r.
Qed.

(** ** The timer callbacks *)

Section Timers.

Context {W : Type} {PF : Platform W}.
Implicit Types m : machine (W:=W).

Lemma OnSessionStartTimer_eq m r :
  McSessionData m !! 0%nat = Some r ->
  OnSessionStartTimer m
  = Ok tt (set_calls
             (calls m ++
              [TimerStop SessionStartTimer; LmHandlerRequestClass CLASS_C;
               TimerSetValue SessionStopTimer
                 (uint32_t (Z.shiftl 1 (SessionTimeout r) * 1000));
               TimerStart SessionStopTimer]) m).
Proof.
  intros Hr. change 0%nat with (Z.to_nat 0) in Hr.
  open_machine m. unfold OnSessionStartTimer.
  etransitivity; [exec|]. machine_eq. now rewrite <- !app_assoc.
Qed.


End Timers.

(** ** The group setup command *)

Lemma key_written (k : list Z) b0 b1 b2 b3 b4 b5 b6 b7 b8 b9 b10 b11 b12 b13 b14 b15 :
  length k = 16%nat ->
  <[15%nat:=b15]> (<[14%nat:=b14]> (<[13%nat:=b13]> (<[12%nat:=b12]> (<[11%nat:=b11]>
  (<[10%nat:=b10]> (<[9%nat:=b9]> (<[8%nat:=b8]> (<[7%nat:=b7]> (<[6%nat:=b6]>
  (<[5%nat:=b5]> (<[4%nat:=b4]> (<[3%nat:=b3]> (<[2%nat:=b2]> (<[1%nat:=b1]>
  (<[0%nat:=b0]> k)))))))))))))))
  = [b0; b1; b2; b3; b4; b5; b6; b7; b8; b9; b10; b11; b12; b13; b14; b15].
Proof.
  intros H. do 16 (destruct k as [|? k]; [discriminate H|]).
  destruct k; [reflexivity | discriminate H].
Qed.

Lemma GroupSetup_status_byte idError id :
  0 <= id < 4 -> (idError = 0 \/ idError = 1) ->
  uint8_t (Z.lor (Z.shiftl idError 2) (Z.land id 0x03))
  = Z.lor (Z.shiftl idError 2) id.
Proof.
  intros Hid He.
  assert (id = 0 \/ id = 1 \/ id = 2 \/ id = 3) as [->|[->|[->| ->]]] by lia;
    destruct He as [-> | ->]; reflexivity.
Qed.

Section GroupSetupExec.

Context {W : Type} {PF : Platform W}.
Implicit Types m : machine (W:=W).

Lemma GroupSetup_fields r0 id a0 a1 a2 a3
    k0 k1 k2 k3 k4 k5 k6 k7 k8 k9 k10 k11 k12 k13 k14 k15
    n0 n1 n2 n3 x0 x1 x2 x3 :
  length (McKeyEncrypted (McGroupData r0)) = 16%nat ->
  is_byte a0 -> is_byte a1 -> is_byte a2 -> is_byte a3 ->
  is_byte n0 -> is_byte n1 -> is_byte n2 -> is_byte n3 ->
  is_byte x0 -> is_byte x1 -> is_byte x2 -> is_byte x3 ->
  with_McGroupData (with_McFCountMax (add_assign x3 24 0xFF000000))
   (with_McGroupData (with_McFCountMax (add_assign x2 16 0x00FF0000))
    (with_McGroupData (with_McFCountMax (add_assign x1 8 0x0000FF00))
     (with_McGroupData (with_McFCountMax (assign x0 0 0x000000FF))
      (with_McGroupData (with_McFCountMin (add_assign n3 24 0xFF000000))
       (with_McGroupData (with_McFCountMin (add_assign n2 16 0x00FF0000))
        (with_McGroupData (with_McFCountMin (add_assign n1 8 0x0000FF00))
         (with_McGroupData (with_McFCountMin (assign n0 0 0x000000FF))
  (with_McGroupData (with_McKeyEncrypted (fun k => <[15%nat:=k15]> k))
  (with_McGroupData (with_McKeyEncrypted (fun k => <[14%nat:=k14]> k))
  (with_McGroupData (with_McKeyEncrypted (fun k => <[13%nat:=k13]> k))
  (with_McGroupData (with_McKeyEncrypted (fun k => <[12%nat:=k12]> k))
  (with_McGroupData (with_McKeyEncrypted (fun k => <[11%nat:=k11]> k))
  (with_McGroupData (with_McKeyEncrypted (fun k => <[10%nat:=k10]> k))
  (with_McGroupData (with_McKeyEncrypted (fun k => <[9%nat:=k9]> k))
  (with_McGroupData (with_McKeyEncrypted (fun k => <[8%nat:=k8]> k))
  (with_McGroupData (with_McKeyEncrypted (fun k => <[7%nat:=k7]> k))
  (with_McGroupData (with_McKeyEncrypted (fun k => <[6%nat:=k6]> k))
  (with_McGroupData (with_McKeyEncrypted (fun k => <[5%nat:=k5]> k))
  (with_McGroupData (with_McKeyEncrypted (fun k => <[4%nat:=k4]> k))
  (with_McGroupData (with_McKeyEncrypted (fun k => <[3%nat:=k3]> k))
  (with_McGroupData (with_McKeyEncrypted (fun k => <[2%nat:=k2]> k))
  (with_McGroupData (with_McKeyEncrypted (fun k => <[1%nat:=k1]> k))
  (with_McGroupData (with_McKeyEncrypted (fun k => <[0%nat:=k0]> k))
         (with_McGroupData (with_McAddr (add_assign a3 24 0xFF000000))
          (with_McGroupData (with_McAddr (add_assign a2 16 0x00FF0000))
           (with_McGroupData (with_McAddr (add_assign a1 8 0x0000FF00))
            (with_McGroupData (with_McAddr (assign a0 0 0x000000FF))
             (with_McGroupData (with_IdHeader_Value id) r0))))))))))))))))))))))))))))
  = GroupSetup_record r0 id a0 a1 a2 a3
      [k0; k1; k2; k3; k4; k5; k6; k7; k8; k9; k10; k11; k12; k13; k14; k15]
      n0 n1 n2 n3 x0 x1 x2 x3.
Proof.
  intros Hk. intros.
  cbv beta iota delta [GroupSetup_record with_McGroupData with_McFCountMax
    with_McFCountMin with_McKeyEncrypted with_McAddr with_IdHeader_Value
    McGroupData SessionState SessionTime SessionTimeout RxParams
    IdHeader_Value McAddr McKeyEncrypted McFCountMin McFCountMax].
  rewrite !decode_le32 by assumption.
  rewrite key_written by exact Hk.
  reflexivity.
Qed.

Lemma GroupSetup_exec ind m pre post id a0 a1 a2 a3 key n0 n1 n2 n3 x0 x1 x2 x3
    out free r0 st w' :
  let cmd := 0x02 :: id :: a0 :: a1 :: a2 :: a3 ::
             key ++ [n0; n1; n2; n3; x0; x1; x2; x3] in
  let r1 := GroupSetup_record r0 id a0 a1 a2 a3 key n0 n1 n2 n3 x0 x1 x2 x3 in
  let channel := GroupSetup_channel id a0 a1 a2 a3 key n0 n1 n2 n3 x0 x1 x2 x3 in
  Buffer ind = pre ++ cmd ++ post ->
  Forall is_byte cmd ->
  length key = 16%nat ->
  (length pre + 30 <= 255)%nat ->
  cmdIndex m = Z.of_nat (length pre) ->
  id < 4 ->
  McSessionData m !! Z.to_nat id = Some r0 ->
  length (McKeyEncrypted (McGroupData r0)) = 16%nat ->
  DataBuffer m = out ++ free ->
  dataBufferIndex m = Z.of_nat (length out) ->
  (2 <= length free)%nat ->
  (length out + 2 <= 255)%nat ->
  LoRaMacMcChannelSetup channel (world m) = (st, w') ->
  process_command ind m
  = Ok tt {| cmdIndex := Z.of_nat (length pre + 30);
             dataBufferIndex := Z.of_nat (length out + 2);
             DataBuffer := out ++ [0x02; GroupSetup_status st id] ++ drop 2 free;
             McSessionData := <[Z.to_nat id := r1]> (McSessionData m);
             world := w';
             calls := calls m |}.
Proof.
  intros cmd r1 channel HB Hbytes Hkey Hpre Hc Hid Hr0 Hk0 HD Hdi Hfree Hout Hmac.
  do 16 (destruct key as [|? key]; [discriminate Hkey|]).
  destruct key; [clear Hkey|discriminate Hkey].
  subst cmd. cbn [app] in HB, Hbytes. bytes_of Hbytes.
  assert (Hid0 : 0 <= id < 4) by (unfold is_byte in *; lia).
  destruct free as [|y0 [|y1 free]]; cbn [length] in Hfree; try lia.
  assert (Hlen : (Z.to_nat id < length (McSessionData m))%nat)
    by (eapply lookup_lt_Some; eauto).
  open_machine m.
  change (Z.of_nat (length pre)) with (Z.of_nat (0 + length pre)).
  etransitivity.
  { unfold process_command. step. dispatch. unfold GroupSetup. step.
    destruct (Z.leb_spec LORAMAC_MAX_MC_CTX id) as [Hge|_];
      [unfold LORAMAC_MAX_MC_CTX in Hge; lia|].
    cbv zeta. cbn [for_each seq].
    do 27 step.
    rewrite GroupSetup_fields by assumption. fold r1.
    eapply bind_Ok.
    { apply platform_eq.
      cbn [world set_world set_dataBufferIndex set_DataBuffer set_McSessionData
           set_cmdIndex].
      change (McGroupId (McGroupData r1)) with (Z.land id 3).
      rewrite (land_3_small id Hid0).
      exact Hmac. }
    cbv beta. do 2 step. step. }
  machine_eq.
  - f_equal. lia.
  - rewrite !length_app. cbn [length]. f_equal. lia.
  - rewrite <- !app_assoc. cbn [app drop length]. f_equal. f_equal. f_equal.
    change (McGroupId (McGroupData r1)) with (Z.land id 3).
    unfold GroupSetup_status.
    destruct st; rewrite GroupSetup_status_byte by auto; [apply Z.lor_0_l | reflexivity].
Qed.

End GroupSetupExec.

(** ** The group status command *)

Lemma request_mask_all req i :
  Z.land req 0x0F = 0x0F -> 0 <= i < 4 -> Z.testbit req i = true.
Proof.
  intros Hreq Hi.
  assert (Z.testbit (Z.land req 15) i = true) as Hbit.
  { rewrite Hreq. assert (i = 0 \/ i = 1 \/ i = 2 \/ i = 3) as [->|[->|[->| ->]]] by lia;
      reflexivity. }
  rewrite Z.land_spec in Hbit. now apply andb_true_iff in Hbit.
Qed.

Section GroupStatusExec.

Context {W : Type} {PF : Platform W}.
Implicit Types m : machine (W:=W).

Lemma GroupStatusAns_0_and_2 (Ctx : nat -> McChannelParams_t) req :
  Z.land req 0x0F = 0x0F ->
  Address (Ctx 0%nat) <> 0 -> Address (Ctx 1%nat) = 0 ->
  Address (Ctx 2%nat) <> 0 -> Address (Ctx 3%nat) = 0 ->
  GroupStatusAns Ctx (TMcReqGroupMask_of_byte req)
  = {| AnsGroupMask4 := false; AnsGroupMask3 := true;
       AnsGroupMask2 := false; AnsGroupMask1 := true;
       NbTotalGroups := LORAMAC_MAX_MC_CTX; rfu := 0 |}.
Proof.
  intros Hreq H0 H1 H2 H3.
  unfold GroupStatusAns, TMcReqGroupMask_of_byte.
  cbn [ReqGroupMask1 ReqGroupMask2 ReqGroupMask3 ReqGroupMask4].
  rewrite H1, H3. cbn [Z.eqb].
  apply Z.eqb_neq in H0, H2. rewrite H0, H2.
  rewrite !(request_mask_all req) by (done || lia).
  reflexivity.
Qed.

Lemma put_group_eq c m out x0 x1 x2 x3 x4 free :
  DataBuffer m = out ++ x0 :: x1 :: x2 :: x3 :: x4 :: free ->
  dataBufferIndex m = Z.of_nat (length out) ->
  (length out + 5 <= 255)%nat ->
  put_group c m
  = Ok tt (set_dataBufferIndex (Z.of_nat (length (out ++ group_bytes c)))
             (set_DataBuffer ((out ++ group_bytes c) ++ free) m)).
Proof.
  intros HD Hi Hle. open_machine m. unfold put_group.
  etransitivity; [exec|]. unfold group_bytes. machine_eq.
  - rewrite !length_app. cbn [length]. f_equal. lia.
  - rewrite <- !app_assoc. cbn [app].
    now rewrite !uint8_t_land_byte.
Qed.

End GroupStatusExec.

(** ** What every command does to the answer buffer and to the session states *)

Section Effects.
Context {W : Type} {PF : Platform W}.
Implicit Types m : machine (W:=W).

Lemma appended_nil m m' :
  buffer_ok m ->
  DataBuffer m' = DataBuffer m -> dataBufferIndex m' = dataBufferIndex m ->
  appended [] m m'.
Proof.
  intros (H0 & H1 & H2) HD Hi. unfold appended. cbn [length app].
  rewrite Hi, HD, Nat.add_0_r, take_drop. split; [lia|]. split; [done|lia].
Qed.

Lemma appended_ok ans m m' : buffer_ok m -> appended ans m m' -> buffer_ok m'.
Proof.
  intros (H0 & H1 & H2) (Hi & HD & Hle). unfold buffer_ok.
  rewrite Hi, HD, !length_app, length_take, length_drop. lia.
Qed.

Lemma appended_app x y m m1 m2 :
  buffer_ok m -> appended x m m1 -> appended y m1 m2 -> appended (x ++ y) m m2.
Proof.
  intros (H0 & H1 & H2) (Hi & HD & Hle) (Hi2 & HD2 & Hle2).
  unfold appended in *. cbn zeta in *.
  set (i := Z.to_nat (dataBufferIndex m)) in *.
  set (D := DataBuffer m) in *.
  assert (Hi1 : Z.to_nat (dataBufferIndex m1) = (i + length x)%nat) by lia.
  rewrite Hi1 in *.
  assert (HlenD1 : length (DataBuffer m1) = length D).
  { rewrite HD, !length_app, length_take, length_drop. lia. }
  rewrite length_app. split; [lia|]. split; [|lia].
  rewrite HD2. rewrite HD.
  assert (Ht : length (take i D) = i) by (rewrite length_take; lia).
  rewrite (app_assoc (take i D) x).
  rewrite take_app_length' by (rewrite length_app; lia).
  rewrite drop_app_ge by (rewrite length_app; lia).
  rewrite length_app, Ht.
  replace (i + length x + length y - (i + length x))%nat with (length y) by lia.
  rewrite drop_drop.
  replace (i + (length x + length y))%nat with (i + length x + length y)%nat by lia.
  now rewrite <- !app_assoc.
Qed.

Lemma effect_conseq {A : Type} (c : M (W:=W) A) (P P' : A -> list Z -> Prop) :
  effect c P -> (forall a ans, P a ans -> P' a ans) -> effect c P'.
Proof.
  intros Hc HP m a m' Hrun. destruct (Hc m a m' Hrun) as [Hs Hb].
  split; [done|]. intros Hok. destruct (Hb Hok) as (ans & Ha & Hp). eauto.
Qed.

Lemma effect_bind {A B : Type} (c : M (W:=W) A) (k : A -> M B)
    (P : A -> list Z -> Prop) (Q : A -> B -> list Z -> Prop) :
  effect c P -> (forall a, effect (k a) (Q a)) ->
  effect (bind c k)
    (fun b ans => exists a x y, ans = x ++ y /\ P a x /\ Q a b y).
Proof.
  intros Hc Hk m b m2 Hrun. unfold bind in Hrun.
  destruct (c m) as [a m1|e] eqn:H1; [|discriminate].
  destruct (Hc m a m1 H1) as [Hs1 Hb1].
  destruct (Hk a m1 b m2 Hrun) as [Hs2 Hb2].
  split; [congruence|]. intros Hok.
  destruct (Hb1 Hok) as (x & Hx & Hpx).
  destruct (Hb2 (appended_ok _ _ _ Hok Hx)) as (y & Hy & Hqy).
  exists (x ++ y). split; [eapply appended_app; eauto|].
  exists a, x, y. auto.
Qed.

Lemma effect_frame {A : Type} (c : M (W:=W) A) :
  (forall m a m', c m = Ok a m' ->
     session_states m' = session_states m /\
     DataBuffer m' = DataBuffer m /\ dataBufferIndex m' = dataBufferIndex m) ->
  effect c (fun _ ans => ans = []).
Proof.
  intros H m a m' Hrun. destruct (H m a m' Hrun) as (Hs & HD & Hi).
  split; [done|]. intros Hok. exists []. split; [|done].
  now apply appended_nil.
Qed.

Lemma effect_ret {A : Type} (a : A) : effect (W:=W) (ret a) (fun _ ans => ans = []).
Proof. apply effect_frame. intros m a' m' [= _ <-]. auto. Qed.

Lemma effect_next_byte ind : effect (W:=W) (next_byte ind) (fun _ ans => ans = []).
Proof.
  apply effect_frame. intros m a m'. unfold next_byte.
  destruct (Buffer ind !! _); [|discriminate]. intros [= _ <-]. auto.
Qed.

Lemma effect_get_session id : effect (W:=W) (get_session id) (fun _ ans => ans = []).
Proof.
  apply effect_frame. intros m a m'. unfold get_session.
  destruct (McSessionData m !! _); [|discriminate]. intros [= _ <-]. auto.
Qed.

Lemma effect_modify_session id f :
  (forall r, SessionState (f r) = SessionState r) ->
  effect (W:=W) (modify_session id f) (fun _ ans => ans = []).
Proof.
  intros Hf. apply effect_frame. intros m a m'. unfold modify_session.
  destruct (McSessionData m !! _) as [r|] eqn:Hr; [|discriminate].
  intros [= _ <-]. split; [|auto].
  unfold session_states. cbn [McSessionData set_McSessionData].
  rewrite list_fmap_insert, Hf.
  apply list_insert_id. now rewrite list_lookup_fmap, Hr.
Qed.

Lemma effect_platform {A : Type} (f : W -> A * W) :
  effect (platform f) (fun _ ans => ans = []).
Proof.
  apply effect_frame. intros m a m'. unfold platform.
  destruct (f (world m)). intros [= _ <-]. auto.
Qed.

Lemma effect_gets {A : Type} (f : machine (W:=W) -> A) :
  effect (W:=W) (gets f) (fun _ ans => ans = []).
Proof. apply effect_frame. intros m a m' [= _ <-]. auto. Qed.

Lemma effect_emit c : effect (W:=W) (emit c) (fun _ ans => ans = []).
Proof. apply effect_frame. intros m a m' [= _ <-]. auto. Qed.

Lemma effect_put v : effect (W:=W) (put v) (fun _ ans => ans = [uint8_t v]).
Proof.
  intros m a m'. unfold put.
  destruct (DataBuffer m !! _) as [x|] eqn:Hx; [|discriminate].
  intros [= _ <-]. split; [reflexivity|].
  intros (H0 & H1 & H2). exists [uint8_t v]. split; [|done].
  apply lookup_lt_Some in Hx.
  unfold appended.
  cbn [dataBufferIndex DataBuffer set_dataBufferIndex set_DataBuffer length].
  split; [apply uint8_t_small; lia|]. split; [|lia].
  rewrite insert_take_drop by done. cbn [app]. do 3 f_equal. lia.
Qed.

Lemma effect_when (b : bool) (c : M (W:=W) unit) P :
  effect c P -> effect (when b c) (fun a ans => ans = [] \/ P a ans).
Proof.
  intros Hc. destruct b; cbn [when].
  - eapply effect_conseq; [exact Hc|]. auto.
  - eapply effect_conseq; [apply effect_ret|]. auto.
Qed.

Lemma effect_if {A : Type} (b : bool) (c1 c2 : M (W:=W) A) P1 P2 :
  effect c1 P1 -> effect c2 P2 ->
  effect (if b then c1 else c2) (fun a ans => P1 a ans \/ P2 a ans).
Proof.
  intros H1 H2. destruct b; (eapply effect_conseq; [eassumption|]); auto.
Qed.

Lemma effect_status {A : Type} (st : LoRaMacStatus_t) (c1 c2 : M (W:=W) A) P1 P2 :
  effect c1 P1 -> effect c2 P2 ->
  effect (match st with LORAMAC_STATUS_OK => c1 | LORAMAC_STATUS_NOT_OK => c2 end)
    (fun a ans => P1 a ans \/ P2 a ans).
Proof.
  intros H1 H2. destruct st; (eapply effect_conseq; [eassumption|]); auto.
Qed.

Lemma effect_for_each {A : Type} (l : list A) (body : A -> M (W:=W) unit) :
  (forall x, effect (body x) (fun _ ans => ans = [])) ->
  effect (for_each l body) (fun _ ans => ans = []).
Proof.
  intros Hb. induction l as [|x l IH]; cbn [for_each].
  - apply effect_ret.
  - eapply effect_conseq; [eapply effect_bind; [apply Hb | intros ?; apply IH]|].
    cbv beta. intros ? ans (? & x1 & y1 & -> & -> & ->). reflexivity.
Qed.

End Effects.

Ltac shape :=
  cbv beta; intros;
  repeat match goal with
         | H : exists _, _ |- _ => destruct H
         | H : _ /\ _ |- _ => destruct H
         | H : _ \/ _ |- _ => destruct H
         end;
  subst; cbn [app].

Ltac effect_step :=
  lazymatch goal with
  | |- effect (bind _ _) _ => eapply effect_bind; [|intros ?]
  | |- effect (ret _) _ => apply effect_ret
  | |- effect (next_byte _) _ => apply effect_next_byte
  | |- effect (put _) _ => apply effect_put
  | |- effect (get_session _) _ => apply effect_get_session
  | |- effect (modify_session _ _) _ =>
      apply effect_modify_session; intros ?; reflexivity
  | |- effect (platform _) _ => apply effect_platform
  | |- effect (gets _) _ => apply effect_gets
  | |- effect (emit _) _ => apply effect_emit
  | |- effect (when _ _) _ => eapply effect_when
  | |- effect (for_each _ _) _ =>
      apply effect_for_each; intros ?;
      eapply effect_conseq; [repeat effect_step | shape; reflexivity]
  | |- effect (match _ with LORAMAC_STATUS_OK => _ | _ => _ end) _ =>
      eapply effect_status
  | |- effect (if _ then _ else _) _ => eapply effect_if
  end.

Ltac effect_auto := cbv zeta; repeat effect_step.

Section Commands.
Context {W : Type} {PF : Platform W}.
Implicit Types m : machine (W:=W).

Lemma effect_PackageVersion :
  effect (W:=W) PackageVersion (fun _ ans => ans = [0x00; 0x02; 0x01]).
Proof.
  eapply effect_conseq; [unfold PackageVersion; effect_auto|].
  shape. reflexivity.
Qed.

Lemma effect_put_group c :
  effect (W:=W) (put_group c) (fun _ ans => length ans = 5%nat).
Proof.
  eapply effect_conseq; [unfold put_group; effect_auto|].
  shape. reflexivity.
Qed.

Lemma effect_GroupStatus ind :
  effect (W:=W) (GroupStatus ind)
    (fun _ ans => exists st groups n,
       ans = 0x01 :: st :: groups /\ length groups = (5 * n)%nat /\ (n <= 4)%nat).
Proof.
  eapply effect_conseq.
  { unfold GroupStatus. effect_auto; apply effect_put_group. }
  shape;
    repeat match goal with
           | H : length ?l = 5%nat |- _ =>
               do 5 (destruct l as [|? l]; [discriminate H|]);
               destruct l; [clear H|discriminate H]
           end;
    cbn [app];
    eexists _, _;
    first [ exists 0%nat; split; [reflexivity|split; [reflexivity|lia]]
          | exists 1%nat; split; [reflexivity|split; [reflexivity|lia]]
          | exists 2%nat; split; [reflexivity|split; [reflexivity|lia]]
          | exists 3%nat; split; [reflexivity|split; [reflexivity|lia]]
          | exists 4%nat; split; [reflexivity|split; [reflexivity|lia]] ].
Qed.

Lemma effect_GroupSetup ind :
  effect (W:=W) (GroupSetup ind)
    (fun _ ans => ans = [] \/ exists b, ans = [0x02; b]).
Proof.
  eapply effect_conseq; [unfold GroupSetup; effect_auto|].
  shape; [left; reflexivity | right; eexists; reflexivity].
Qed.

Lemma effect_GroupDelete ind :
  effect (W:=W) (GroupDelete ind) (fun _ ans => exists b, ans = [0x03; b]).
Proof.
  eapply effect_conseq; [unfold GroupDelete; effect_auto|].
  shape. eexists; reflexivity.
Qed.

Lemma effect_ClassCSession ind :
  effect (W:=W) (ClassCSession ind)
    (fun _ ans => exists s,
       ans = [0x04; s] \/ exists t0 t1 t2, ans = [0x04; s; t0; t1; t2]).
Proof.
  eapply effect_conseq; [unfold ClassCSession; effect_auto|].
  shape; eexists; first [left; reflexivity | right; do 3 eexists; reflexivity].
Qed.

End Commands.


Section Answers.
Context {W : Type} {PF : Platform W}.
Implicit Types m : machine (W:=W).

Lemma effect_keeps {A : Type} (c : M (W:=W) A) P m a m' :
  effect c P -> c m = Ok a m' -> session_states m' = session_states m.
Proof. intros Hc Hrun. exact (proj1 (Hc m a m' Hrun)). Qed.

Lemma effect_process_command ind :
  effect (W:=W) (process_command ind) (fun _ _ => True).
Proof.
  eapply effect_conseq.
  { unfold process_command.
    eapply effect_bind with (Q := fun _ _ _ => True); [apply effect_next_byte|].
    intros op.
    destruct (SrvCmd_of_byte op) as [[]|];
      (eapply effect_conseq; [|intros; exact I]).
    - apply effect_PackageVersion.
    - apply effect_GroupStatus.
    - apply effect_GroupSetup.
    - apply effect_GroupDelete.
    - apply effect_ClassCSession.
    - apply effect_ret.
    - apply effect_ret. }
  auto.
Qed.

Lemma decode_loop_keeps fuel ind m m' :
  decode_loop fuel ind m = Ok tt m' -> session_states m' = session_states m.
Proof.
  revert m. induction fuel as [|fuel IH]; intros m; cbn [decode_loop].
  - destruct (cmdIndex m <? BufferSize ind); [discriminate|]. now intros [= <-].
  - destruct (cmdIndex m <? BufferSize ind); [|now intros [= <-]].
    unfold bind. destruct (process_command ind m) as [[] m1|] eqn:H1; [|discriminate].
    intros H2. rewrite (IH _ H2).
    eapply effect_keeps; [apply effect_process_command | exact H1].
Qed.

Lemma indication_keeps fuel ind m m' :
  LmhpRemoteMcastSetupOnMcpsIndication fuel ind m = Ok tt m' ->
  session_states m' = session_states m.
Proof.
  unfold LmhpRemoteMcastSetupOnMcpsIndication, bind.
  destruct (decode_loop fuel ind _) as [[] m1|] eqn:H1; [|discriminate].
  apply decode_loop_keeps in H1.
  cbn [gets]. destruct (dataBufferIndex m1 =? 0).
  - now intros [= <-].
  - cbn [emit]. now intros [= <-].
Qed.

Lemma timers_keep m m' :
  OnSessionStartTimer m = Ok tt m' \/ OnSessionStopTimer m = Ok tt m' ->
  session_states m' = session_states m.
Proof.
  intros [H|H]; (eapply effect_keeps; [|exact H]).
  - unfold OnSessionStartTimer. effect_auto.
  - unfold OnSessionStopTimer. effect_auto.
Qed.


End Answers.

(** ** What every command keeps *)

Section KeepsRules.

Context {W : Type} {PF : Platform W}.
Implicit Types m : machine (W:=W).
Variable allowed : call -> Prop.

Lemma quiet_refl m : quiet allowed m m.
Proof.
  split; [exists []; rewrite app_nil_r; auto|].
  split; [done|]. split; [done|]. split; intros H; exact H.
Qed.

Lemma quiet_trans m1 m2 m3 :
  quiet allowed m1 m2 -> quiet allowed m2 m3 -> quiet allowed m1 m3.
Proof.
  intros ((l1 & H1 & F1) & L1 & D1 & T1 & O1) ((l2 & H2 & F2) & L2 & D2 & T2 & O2).
  split.
  { exists (l1 ++ l2). rewrite H2, H1, app_assoc.
    split; [done | apply Forall_app; auto]. }
  split; [congruence|]. split; [|auto].
  intros E. rewrite D2, D1; auto.
  destruct (DataBuffer m2); [done|]. rewrite E in L1. discriminate.
Qed.

Lemma quiet_same m m' :
  calls m' = calls m -> DataBuffer m' = DataBuffer m ->
  dataBufferIndex m' = dataBufferIndex m -> McSessionData m' = McSessionData m ->
  quiet allowed m m'.
Proof.
  intros Hc HD Hi HS. split; [exists []; rewrite app_nil_r; auto|].
  rewrite HD, HS. split; [done|]. split; [done|]. split; intros H; exact H.
Qed.

Lemma keeps_ret {A : Type} (a : A) : keeps (W:=W) allowed (ret a).
Proof. intros m. apply quiet_refl. Qed.

Lemma keeps_bind {A B : Type} (c : M (W:=W) A) (k : A -> M B) :
  keeps allowed c -> (forall a, keeps allowed (k a)) -> keeps allowed (bind c k).
Proof.
  intros Hc Hk m. unfold bind. specialize (Hc m).
  destruct (c m) as [a m1|e]; [|exact Hc].
  specialize (Hk a m1). destruct (k a m1); [eapply quiet_trans; eauto | exact Hk].
Qed.

Lemma keeps_gets {A : Type} (f : machine (W:=W) -> A) : keeps allowed (gets f).
Proof. intros m. apply quiet_refl. Qed.

Lemma keeps_next_byte ind : keeps (W:=W) allowed (next_byte ind).
Proof.
  intros m. unfold next_byte. destruct (Buffer ind !! _); [|reflexivity].
  now apply quiet_same.
Qed.

Lemma keeps_get_session id : keeps (W:=W) allowed (get_session id).
Proof.
  intros m. unfold get_session. destruct (McSessionData m !! _); [|reflexivity].
  apply quiet_refl.
Qed.

Lemma keeps_put v : keeps (W:=W) allowed (put v).
Proof.
  intros m. unfold put.
  destruct (DataBuffer m !! _) as [x|] eqn:Hx; [|reflexivity].
  split; [exists []; rewrite app_nil_r; auto|].
  cbn [DataBuffer dataBufferIndex McSessionData set_dataBufferIndex set_DataBuffer].
  split; [apply length_insert|]. split; [|auto].
  intros E. rewrite E in Hx. discriminate.
Qed.

Lemma keeps_modify_session id f :
  (forall r, length (McKeyEncrypted (McGroupData (f r)))
             = length (McKeyEncrypted (McGroupData r))) ->
  (forall r, 0 <= SessionTimeout r <= 15 -> 0 <= SessionTimeout (f r) <= 15) ->
  keeps (W:=W) allowed (modify_session id f).
Proof.
  intros Hkey Hto m. unfold modify_session.
  destruct (McSessionData m !! _) as [r|] eqn:Hr; [|reflexivity].
  split; [exists []; rewrite app_nil_r; auto|].
  cbn [DataBuffer dataBufferIndex McSessionData set_McSessionData].
  split; [done|]. split; [done|]. split.
  - intros [Hl Hk]. split; [now rewrite length_insert|].
    apply Forall_insert; [done|]. rewrite Hkey.
    rewrite Forall_lookup in Hk. exact (Hk _ _ Hr).
  - intros Ht. apply Forall_insert; [done|]. apply Hto.
    unfold timeouts_ok in Ht. rewrite Forall_lookup in Ht. exact (Ht _ _ Hr).
Qed.

Lemma keeps_platform {A : Type} (f : W -> A * W) : keeps allowed (platform f).
Proof.
  intros m. unfold platform. destruct (f (world m)). now apply quiet_same.
Qed.

Lemma keeps_emit c : allowed c -> keeps (W:=W) allowed (emit c).
Proof.
  intros Hc m. split; [exists [c]; split; [done | repeat constructor; done]|].
  split; [done|]. split; [done|]. split; intros H; exact H.
Qed.

Lemma keeps_when (b : bool) (c : M (W:=W) unit) :
  keeps allowed c -> keeps allowed (when b c).
Proof. intros Hc. destruct b; [exact Hc | apply keeps_ret]. Qed.

Lemma keeps_if {A : Type} (b : bool) (c1 c2 : M (W:=W) A) :
  keeps allowed c1 -> keeps allowed c2 -> keeps allowed (if b then c1 else c2).
Proof. now destruct b. Qed.

Lemma keeps_status {A : Type} (st : LoRaMacStatus_t) (c1 c2 : M (W:=W) A) :
  keeps allowed c1 -> keeps allowed c2 ->
  keeps allowed
    (match st with LORAMAC_STATUS_OK => c1 | LORAMAC_STATUS_NOT_OK => c2 end).
Proof. now destruct st. Qed.

Lemma keeps_for_each {A : Type} (l : list A) (body : A -> M (W:=W) unit) :
  (forall x, keeps allowed (body x)) -> keeps allowed (for_each l body).
Proof.
  intros Hb. induction l as [|x l IH]; cbn [for_each].
  - apply keeps_ret.
  - apply keeps_bind; [apply Hb | intros _; exact IH].
Qed.

End KeepsRules.

Lemma quiet_mono {W : Type} (a1 a2 : call -> Prop) (m m' : machine (W:=W)) :
  (forall c, a1 c -> a2 c) -> quiet a1 m m' -> quiet a2 m m'.
Proof.
  intros Ha ((l & Hl & Fl) & H). split; [|exact H].
  exists l. split; [done|]. eapply Forall_impl; eauto.
Qed.

Ltac keeps_fields :=
  intros [[? ? ? ? ?] ? ? ? [? ?]]; cbn; rewrite ?length_insert;
  first [ reflexivity
        | intros _; match goal with
                    | |- _ <= Z.land ?b 15 <= _ =>
                        pose proof (land_15_range b); lia
                    end
        | intros; assumption ].

Ltac keeps_step :=
  lazymatch goal with
  | |- keeps _ (bind _ _) => apply keeps_bind; [|intros ?]
  | |- keeps _ (ret _) => apply keeps_ret
  | |- keeps _ (next_byte _) => apply keeps_next_byte
  | |- keeps _ (put _) => apply keeps_put
  | |- keeps _ (get_session _) => apply keeps_get_session
  | |- keeps _ (modify_session _ _) =>
      apply keeps_modify_session; keeps_fields
  | |- keeps _ (platform _) => apply keeps_platform
  | |- keeps _ (gets _) => apply keeps_gets
  | |- keeps _ (emit _) => apply keeps_emit
  | |- keeps _ (when _ _) => apply keeps_when
  | |- keeps _ (for_each _ _) => apply keeps_for_each; intros ?
  | |- keeps _ (match _ with LORAMAC_STATUS_OK => _ | _ => _ end) =>
      apply keeps_status
  | |- keeps _ (if _ then _ else _) => apply keeps_if
  end.

Ltac keeps_auto := cbv zeta; repeat keeps_step.

Section KeepsCommands.

Context {W : Type} {PF : Platform W}.
Implicit Types m : machine (W:=W).
Variable allowed : call -> Prop.

Lemma keeps_PackageVersion : keeps (W:=W) allowed PackageVersion.
Proof. unfold PackageVersion. keeps_auto. Qed.

Lemma keeps_put_group c : keeps (W:=W) allowed (put_group c).
Proof. unfold put_group. keeps_auto. Qed.

Lemma keeps_GroupStatus ind : keeps (W:=W) allowed (GroupStatus ind).
Proof. unfold GroupStatus. keeps_auto; apply keeps_put_group. Qed.

Lemma keeps_GroupSetup ind : keeps (W:=W) allowed (GroupSetup ind).
Proof. unfold GroupSetup. keeps_auto. Qed.

Lemma keeps_GroupDelete ind : keeps (W:=W) allowed (GroupDelete ind).
Proof. unfold GroupDelete. keeps_auto. Qed.

Lemma keeps_ClassCSession ind :
  (forall c, start_timer_call c -> allowed c) ->
  keeps (W:=W) allowed (ClassCSession ind).
Proof. intros Ha. unfold ClassCSession. keeps_auto; apply Ha; exact I. Qed.

Lemma keeps_process_command ind :
  (forall c, start_timer_call c -> allowed c) ->
  keeps (W:=W) allowed (process_command ind).
Proof.
  intros Ha. unfold process_command.
  apply keeps_bind; [apply keeps_next_byte|]. intros op.
  destruct (SrvCmd_of_byte op) as [[]|].
  - apply keeps_PackageVersion.
  - apply keeps_GroupStatus.
  - apply keeps_GroupSetup.
  - apply keeps_GroupDelete.
  - now apply keeps_ClassCSession.
  - apply keeps_ret.
  - apply keeps_ret.
Qed.

End KeepsCommands.

(** ** How far every command moves in the frame *)

Section AdvanceRules.

Context {W : Type} {PF : Platform W}.
Implicit Types m : machine (W:=W).

Lemma bind_inv {A B : Type} (c : M (W:=W) A) (k : A -> M B) m b m' :
  bind c k m = Ok b m' -> exists a m1, c m = Ok a m1 /\ k a m1 = Ok b m'.
Proof.
  unfold bind. destruct (c m) as [a m1|]; [|discriminate]. eauto.
Qed.

Lemma advances_elim {A : Type} k (c : M (W:=W) A) m a m' :
  c m = Ok a m' -> advances k c -> 0 <= cmdIndex m ->
  cmdIndex m' = cmdIndex m + k.
Proof. intros Hrun [_ H] Hm. eauto. Qed.

Lemma advances_eq {A : Type} k k' (c : M (W:=W) A) :
  advances k c -> k = k' -> advances k' c.
Proof. now intros H <-. Qed.

Lemma advances_bind {A B : Type} k1 k2 (c : M (W:=W) A) (k : A -> M B) :
  advances k1 c -> (forall a, advances k2 (k a)) -> 0 <= k2 ->
  advances (k1 + k2) (bind c k).
Proof.
  intros [H1 Hc] Hk H2. split; [lia|].
  intros m b m' Hm Hrun.
  apply bind_inv in Hrun as (a & m1 & Ha & Hb).
  pose proof (Hc _ _ _ Hm Ha) as E1.
  destruct (Hk a) as [_ Hka].
  assert (Hm1 : 0 <= cmdIndex m1) by lia.
  rewrite (Hka _ _ _ Hm1 Hb). lia.
Qed.

Lemma advances_frame {A : Type} (c : M (W:=W) A) :
  (forall m a m', c m = Ok a m' -> cmdIndex m' = cmdIndex m) -> advances 0 c.
Proof. intros H. split; [lia|]. intros m a m' _ Hrun. rewrite (H _ _ _ Hrun). lia. Qed.

Lemma advances_ret {A : Type} (a : A) : advances (W:=W) 0 (ret a).
Proof. apply advances_frame. now intros m a' m' [= _ <-]. Qed.

Lemma advances_next_byte ind :
  (length (Buffer ind) <= 255)%nat -> advances (W:=W) 1 (next_byte ind).
Proof.
  intros Hlen. split; [lia|]. intros m a m' Hm. unfold next_byte.
  destruct (Buffer ind !! _) as [b|] eqn:Hb; [|discriminate].
  intros [= _ <-]. apply lookup_lt_Some in Hb.
  cbn [cmdIndex set_cmdIndex]. apply uint8_t_small. lia.
Qed.

Lemma advances_put v : advances (W:=W) 0 (put v).
Proof.
  apply advances_frame. intros m a m'. unfold put.
  destruct (DataBuffer m !! _); [|discriminate]. now intros [= _ <-].
Qed.

Lemma advances_get_session id : advances (W:=W) 0 (get_session id).
Proof.
  apply advances_frame. intros m a m'. unfold get_session.
  destruct (McSessionData m !! _); [|discriminate]. now intros [= _ <-].
Qed.

Lemma advances_modify_session id f : advances (W:=W) 0 (modify_session id f).
Proof.
  apply advances_frame. intros m a m'. unfold modify_session.
  destruct (McSessionData m !! _); [|discriminate]. now intros [= _ <-].
Qed.

Lemma advances_platform {A : Type} (f : W -> A * W) : advances 0 (platform f).
Proof.
  apply advances_frame. intros m a m'. unfold platform.
  destruct (f (world m)). now intros [= _ <-].
Qed.

Lemma advances_gets {A : Type} (f : machine (W:=W) -> A) : advances 0 (gets f).
Proof. apply advances_frame. now intros m a m' [= _ <-]. Qed.

Lemma advances_emit c : advances (W:=W) 0 (emit c).
Proof. apply advances_frame. now intros m a m' [= _ <-]. Qed.

Lemma advances_when (b : bool) (c : M (W:=W) unit) :
  advances 0 c -> advances 0 (when b c).
Proof. intros Hc. destruct b; [exact Hc | apply advances_ret]. Qed.

Lemma advances_if {A : Type} (b : bool) (c1 c2 : M (W:=W) A) k :
  advances k c1 -> advances k c2 -> advances k (if b then c1 else c2).
Proof. now destruct b. Qed.

Lemma advances_status {A : Type} (st : LoRaMacStatus_t) (c1 c2 : M (W:=W) A) k :
  advances k c1 -> advances k c2 ->
  advances k
    (match st with LORAMAC_STATUS_OK => c1 | LORAMAC_STATUS_NOT_OK => c2 end).
Proof. now destruct st. Qed.

End AdvanceRules.

(** A sequence is counted with an unknown for each of its parts; the sum is
    compared with the count asked for when the parts are known. *)
Ltac advances_leaf Hlen c :=
  lazymatch c with
  | ret _ => apply advances_ret
  | next_byte _ => apply advances_next_byte; exact Hlen
  | put _ => apply advances_put
  | get_session _ => apply advances_get_session
  | modify_session _ _ => apply advances_modify_session
  | platform _ => apply advances_platform
  | gets _ => apply advances_gets
  | emit _ => apply advances_emit
  | when _ _ => apply advances_when
  | match _ with LORAMAC_STATUS_OK => _ | _ => _ end => apply advances_status
  | if _ then _ else _ => apply advances_if
  end.

Ltac advances_step Hlen :=
  lazymatch goal with
  | |- advances ?k (bind _ _) =>
      tryif is_evar k
      then (eapply advances_bind; [ | intros ? | ])
      else (eapply advances_eq; [ eapply advances_bind; [ | intros ? | ] | ])
  | |- advances ?k ?c =>
      tryif is_evar k then advances_leaf Hlen c
      else (eapply advances_eq; [ advances_leaf Hlen c | ])
  | |- @eq Z _ _ => reflexivity
  | |- Z.le _ _ => vm_compute; discriminate
  end.

Lemma advances_put_group {W : Type} {PF : Platform W} c :
  advances (W:=W) 0 (put_group c).
Proof. unfold put_group. repeat advances_step I. Qed.

Ltac advances_auto Hlen :=
  cbv zeta; repeat first [advances_step Hlen | apply advances_put_group].

Section AdvanceCommands.

Context {W : Type} {PF : Platform W}.
Implicit Types m : machine (W:=W).
Variable ind : McpsIndication_t.
Hypothesis Hlen : (length (Buffer ind) <= 255)%nat.

Lemma advances_PackageVersion : advances (W:=W) 0 PackageVersion.
Proof. unfold PackageVersion. advances_auto Hlen. Qed.

Lemma advances_GroupStatus : advances (W:=W) 1 (GroupStatus ind).
Proof. unfold GroupStatus. advances_auto Hlen. Qed.

Lemma advances_GroupDelete : advances (W:=W) 1 (GroupDelete ind).
Proof. unfold GroupDelete. advances_auto Hlen. Qed.

Lemma advances_ClassCSession : advances (W:=W) 10 (ClassCSession ind).
Proof. unfold ClassCSession. advances_auto Hlen. Qed.

End AdvanceCommands.

Lemma command_size_pos op next : 1 <= command_size op next.
Proof.
  unfold command_size.
  destruct (SrvCmd_of_byte op) as [[]|]; try lia.
  destruct (LORAMAC_MAX_MC_CTX <=? next); lia.
Qed.

Section Frames.

Context {W : Type} {PF : Platform W}.
Implicit Types m : machine (W:=W).

Lemma next_byte_inv ind m b m' :
  next_byte ind m = Ok b m' ->
  Buffer ind !! Z.to_nat (cmdIndex m) = Some b /\
  m' = set_cmdIndex (uint8_t (cmdIndex m + 1)) m.
Proof.
  unfold next_byte. destruct (Buffer ind !! _); [|discriminate].
  now intros [= -> <-].
Qed.

(** The bytes a command takes from the frame. *)
Lemma process_command_advances ind m m' :
  (length (Buffer ind) <= 255)%nat ->
  0 <= cmdIndex m ->
  process_command ind m = Ok tt m' ->
  exists op,
    Buffer ind !! Z.to_nat (cmdIndex m) = Some op /\
    cmdIndex m'
    = cmdIndex m
      + command_size op (default 0 (Buffer ind !! Z.to_nat (cmdIndex m + 1))).
Proof.
  intros Hlen Hm Hrun. unfold process_command in Hrun.
  apply bind_inv in Hrun as (op & m1 & Hop & Hrun).
  pose proof (advances_elim _ _ _ _ _ Hop (advances_next_byte ind Hlen) Hm) as H1.
  apply next_byte_inv in Hop as [Hop _].
  assert (Hm1 : 0 <= cmdIndex m1) by lia.
  exists op. split; [exact Hop|]. unfold command_size.
  destruct (SrvCmd_of_byte op) as [[]|].
  - rewrite (advances_elim _ _ _ _ _ Hrun advances_PackageVersion Hm1). lia.
  - rewrite (advances_elim _ _ _ _ _ Hrun (advances_GroupStatus ind Hlen) Hm1). lia.
  - unfold GroupSetup in Hrun.
    apply bind_inv in Hrun as (gid & m2 & Hid & Hrun).
    pose proof (advances_elim _ _ _ _ _ Hid (advances_next_byte ind Hlen) Hm1) as H2.
    apply next_byte_inv in Hid as [Hid _].
    replace (Z.to_nat (cmdIndex m + 1)) with (Z.to_nat (cmdIndex m1))
      by (rewrite H1; reflexivity).
    rewrite Hid. change (default 0 (Some gid)) with gid.
    destruct (LORAMAC_MAX_MC_CTX <=? gid).
    + injection Hrun as <-. lia.
    + cbv zeta in Hrun. cbn [for_each seq] in Hrun.
      eapply advances_elim in Hrun; [ | advances_auto Hlen | lia ].
      rewrite Hrun. lia.
  - rewrite (advances_elim _ _ _ _ _ Hrun (advances_GroupDelete ind Hlen) Hm1). lia.
  - rewrite (advances_elim _ _ _ _ _ Hrun (advances_ClassCSession ind Hlen) Hm1). lia.
  - injection Hrun as <-. lia.
  - injection Hrun as <-. lia.
Qed.

Lemma process_command_safe ind m e :
  process_command ind m = Fault e -> e = OutOfBounds.
Proof.
  intros H.
  pose proof (keeps_process_command start_timer_call ind (fun _ H => H) m) as Hk.
  now rewrite H in Hk.
Qed.

Lemma process_command_quiet ind m m' :
  process_command ind m = Ok tt m' -> quiet start_timer_call m m'.
Proof.
  intros H.
  pose proof (keeps_process_command start_timer_call ind (fun _ H => H) m) as Hk.
  now rewrite H in Hk.
Qed.

(** With a frame memory that [cmdIndex] cannot leave by wrapping around,
    the loop ends within as many turns as the frame has bytes left. *)
Lemma decode_loop_fuel ind fuel m :
  (length (Buffer ind) <= 255)%nat ->
  0 <= cmdIndex m ->
  (Z.to_nat (BufferSize ind - cmdIndex m) <= fuel)%nat ->
  decode_loop fuel ind m <> Fault OutOfFuel.
Proof.
  intros Hlen. revert m. induction fuel as [|fuel IH]; intros m Hm Hf.
  - rewrite decode_loop_done by lia. discriminate.
  - destruct (Z.lt_ge_cases (cmdIndex m) (BufferSize ind)) as [Hlt|Hge];
      [|rewrite decode_loop_done by lia; discriminate].
    rewrite decode_loop_step by exact Hlt. unfold bind.
    destruct (process_command ind m) as [[] m1|e] eqn:Hp.
    + destruct (process_command_advances _ _ _ Hlen Hm Hp) as (op & _ & Hadv).
      pose proof (command_size_pos op
                    (default 0 (Buffer ind !! Z.to_nat (cmdIndex m + 1)))).
      apply IH; lia.
    + apply process_command_safe in Hp. now subst e.
Qed.

(** A run that has ended is the same run with more fuel. *)
Lemma decode_loop_more ind fuel fuel' m :
  decode_loop fuel ind m <> Fault OutOfFuel ->
  (fuel <= fuel')%nat ->
  decode_loop fuel' ind m = decode_loop fuel ind m.
Proof.
  revert fuel' m. induction fuel as [|fuel IH]; intros fuel' m Hne Hle.
  - destruct (Z.lt_ge_cases (cmdIndex m) (BufferSize ind)) as [Hlt|Hge].
    + exfalso. apply Hne. cbn.
      destruct (Z.ltb_spec (cmdIndex m) (BufferSize ind)); [reflexivity|lia].
    + now rewrite !decode_loop_done by lia.
  - destruct fuel' as [|fuel']; [lia|].
    destruct (Z.lt_ge_cases (cmdIndex m) (BufferSize ind)) as [Hlt|Hge];
      [|now rewrite !decode_loop_done by lia].
    rewrite decode_loop_step in Hne by exact Hlt.
    rewrite !decode_loop_step by exact Hlt. unfold bind in *.
    destruct (process_command ind m) as [[] m1|e]; [|reflexivity].
    apply IH; [exact Hne | lia].
Qed.

Lemma decode_loop_quiet ind fuel m m' :
  decode_loop fuel ind m = Ok tt m' -> quiet start_timer_call m m'.
Proof.
  revert m. induction fuel as [|fuel IH]; intros m; cbn [decode_loop].
  - destruct (cmdIndex m <? BufferSize ind); [discriminate|].
    intros [= <-]. apply quiet_refl.
  - destruct (cmdIndex m <? BufferSize ind);
      [|intros [= <-]; apply quiet_refl].
    intros H. apply bind_inv in H as ([] & m1 & H1 & H2).
    eapply quiet_trans; [eapply process_command_quiet; exact H1 | apply IH; exact H2].
Qed.

Lemma decode_loop_safe ind fuel m e :
  decode_loop fuel ind m = Fault e -> e = OutOfBounds \/ e = OutOfFuel.
Proof. destruct e; auto. Qed.

(** The handler in three steps: the two indices are reset, the loop runs,
    the answer is sent. *)
Lemma indication_inv fuel ind m m' :
  LmhpRemoteMcastSetupOnMcpsIndication fuel ind m = Ok tt m' ->
  exists m1,
    decode_loop fuel ind (set_dataBufferIndex 0 (set_cmdIndex 0 m)) = Ok tt m1 /\
    m' = (if dataBufferIndex m1 =? 0 then m1
          else set_calls
                 (calls m1 ++
                  [OnSendRequest
                     {| AppBuffer := take (Z.to_nat (dataBufferIndex m1))
                                          (DataBuffer m1);
                        AppBufferSize := dataBufferIndex m1;
                        Port := REMOTE_MCAST_SETUP_PORT |}
                     LORAMAC_HANDLER_UNCONFIRMED_MSG]) m1).
Proof.
  unfold LmhpRemoteMcastSetupOnMcpsIndication. intros H.
  apply bind_inv in H as ([] & m0 & H0 & H). injection H0 as <-.
  apply bind_inv in H as ([] & m1 & H1 & H).
  exists m1. split; [exact H1|].
  apply bind_inv in H as (n & m2 & Hn & H). injection Hn as <- <-.
  destruct (dataBufferIndex m1 =? 0).
  - now injection H as <-.
  - apply bind_inv in H as (buf & m3 & Hb & H). injection Hb as <- <-.
    now injection H as <-.
Qed.

Lemma indication_eq fuel ind m m1 :
  decode_loop fuel ind (set_dataBufferIndex 0 (set_cmdIndex 0 m)) = Ok tt m1 ->
  LmhpRemoteMcastSetupOnMcpsIndication fuel ind m
  = Ok tt (if dataBufferIndex m1 =? 0 then m1
           else set_calls
                  (calls m1 ++
                   [OnSendRequest
                      {| AppBuffer := take (Z.to_nat (dataBufferIndex m1))
                                           (DataBuffer m1);
                         AppBufferSize := dataBufferIndex m1;
                         Port := REMOTE_MCAST_SETUP_PORT |}
                      LORAMAC_HANDLER_UNCONFIRMED_MSG]) m1).
Proof.
  intros H. unfold LmhpRemoteMcastSetupOnMcpsIndication.
  eapply bind_Ok; [reflexivity|]. cbv beta.
  eapply bind_Ok; [exact H|]. cbv beta.
  eapply bind_Ok; [apply gets_eq|]. cbv beta.
  destruct (dataBufferIndex m1 =? 0); [reflexivity|].
  eapply bind_Ok; [apply gets_eq|]. reflexivity.
Qed.

Lemma indication_fault fuel ind m e :
  decode_loop fuel ind (set_dataBufferIndex 0 (set_cmdIndex 0 m)) = Fault e ->
  LmhpRemoteMcastSetupOnMcpsIndication fuel ind m = Fault e.
Proof.
  intros H. unfold LmhpRemoteMcastSetupOnMcpsIndication.
  eapply bind_Ok; [reflexivity|]. cbv beta. unfold bind at 1. now rewrite H.
Qed.

End Frames.

Section FrameLemmas.

Context {W : Type} {PF : Platform W}.
Implicit Types m : machine (W:=W).

Lemma indication_more ind fuel m :
  decode_loop (Z.to_nat (BufferSize ind)) ind
    (set_dataBufferIndex 0 (set_cmdIndex 0 m)) <> Fault OutOfFuel ->
  (Z.to_nat (BufferSize ind) <= fuel)%nat ->
  LmhpRemoteMcastSetupOnMcpsIndication fuel ind m
  = LmhpRemoteMcastSetupOnMcpsIndication (Z.to_nat (BufferSize ind)) ind m.
Proof.
  intros Hne Hle.
  pose proof (decode_loop_more ind _ fuel _ Hne Hle) as Hmore.
  destruct (decode_loop (Z.to_nat (BufferSize ind)) ind
              (set_dataBufferIndex 0 (set_cmdIndex 0 m))) as [[] m1|e] eqn:Hrun.
  - now rewrite (indication_eq _ _ _ _ Hrun), (indication_eq _ _ _ _ Hmore).
  - now rewrite (indication_fault _ _ _ _ Hrun), (indication_fault _ _ _ _ Hmore).
Qed.

Lemma indication_out_of_fuel ind fuel m :
  LmhpRemoteMcastSetupOnMcpsIndication fuel ind m = Fault OutOfFuel ->
  decode_loop fuel ind (set_dataBufferIndex 0 (set_cmdIndex 0 m)) = Fault OutOfFuel.
Proof.
  intros H.
  destruct (decode_loop fuel ind (set_dataBufferIndex 0 (set_cmdIndex 0 m)))
    as [[] m1|e] eqn:Hrun.
  - rewrite (indication_eq _ _ _ _ Hrun) in H. discriminate.
  - rewrite (indication_fault _ _ _ _ Hrun) in H. exact H.
Qed.

(** A byte that is no request of the package, or the class B session
    request, which is not implemented: the loop steps over it. *)
Lemma process_command_skip ind m b :
  Buffer ind !! Z.to_nat (cmdIndex m) = Some b ->
  5 <= b ->
  process_command ind m = Ok tt (set_cmdIndex (uint8_t (cmdIndex m + 1)) m).
Proof.
  intros Hb H5. unfold process_command, bind, next_byte. rewrite Hb.
  unfold SrvCmd_of_byte.
  repeat match goal with
         | |- context [b =? ?k] => destruct (Z.eqb_spec b k); [try lia|]
         end; reflexivity.
Qed.

(** The group setup request for a group that does not exist takes its
    opcode and the group, whatever [cmdIndex] becomes. *)
Lemma process_command_reserved_group ind m id :
  Buffer ind !! Z.to_nat (cmdIndex m) = Some 0x02 ->
  Buffer ind !! Z.to_nat (uint8_t (cmdIndex m + 1)) = Some id ->
  4 <= id ->
  process_command ind m
  = Ok tt (set_cmdIndex (uint8_t (uint8_t (cmdIndex m + 1) + 1)) m).
Proof.
  intros Hop Hid H4. unfold process_command, bind at 1, next_byte at 1.
  rewrite Hop. change (SrvCmd_of_byte 2) with (Some REMOTE_MCAST_SETUP_MC_GROUP_SETUP_REQ).
  cbv beta iota. unfold GroupSetup, bind at 1, next_byte at 1.
  cbn [cmdIndex set_cmdIndex]. rewrite Hid.
  destruct (Z.leb_spec LORAMAC_MAX_MC_CTX id) as [_|Hlt];
    [|unfold LORAMAC_MAX_MC_CTX in Hlt; lia].
  reflexivity.
Qed.

(** The timer callbacks leave the session table as it is. *)
Lemma OnSessionStartTimer_table m m' :
  OnSessionStartTimer m = Ok tt m' -> McSessionData m' = McSessionData m.
Proof.
  unfold OnSessionStartTimer, bind, emit, get_session.
  cbn [McSessionData set_calls].
  destruct (McSessionData m !! Z.to_nat 0); [|discriminate].
  now intros [= <-].
Qed.

Lemma OnSessionStopTimer_table m m' :
  OnSessionStopTimer m = Ok tt m' -> McSessionData m' = McSessionData m.
Proof. unfold OnSessionStopTimer, bind, emit. now intros [= <-]. Qed.

Lemma indication_table fuel ind m m' :
  LmhpRemoteMcastSetupOnMcpsIndication fuel ind m = Ok tt m' ->
  (table_wf (McSessionData m) -> table_wf (McSessionData m')) /\
  (timeouts_ok (McSessionData m) -> timeouts_ok (McSessionData m')).
Proof.
  intros H. apply indication_inv in H as (m1 & Hloop & ->).
  apply decode_loop_quiet in Hloop as (_ & _ & _ & Hwf & Hto).
  cbn [McSessionData set_dataBufferIndex set_cmdIndex] in Hwf, Hto.
  destruct (dataBufferIndex m1 =? 0); auto.
Qed.

Lemma package_steps_table m m' :
  rtc package_step m m' ->
  table_wf (McSessionData m) -> timeouts_ok (McSessionData m) ->
  table_wf (McSessionData m') /\ timeouts_ok (McSessionData m').
Proof.
  induction 1 as [|m m1 m2 Hstep _ IH]; [auto|]. intros Hwf Hto.
  apply IH; destruct Hstep as [fuel ind m m1 H|m m1 H|m m1 H|m w].
  - now apply (indication_table _ _ _ _ H).
  - now rewrite (OnSessionStartTimer_table _ _ H).
  - now rewrite (OnSessionStopTimer_table _ _ H).
  - exact Hwf.
  - now apply (indication_table _ _ _ _ H).
  - now rewrite (OnSessionStartTimer_table _ _ H).
  - now rewrite (OnSessionStopTimer_table _ _ H).
  - exact Hto.
Qed.

End FrameLemmas.

(** ** The group delete command *)

Lemma GroupDelete_status_byte (st : LoRaMacStatus_t) idb :
  uint8_t (match st with
           | LORAMAC_STATUS_OK => Z.land idb 3
           | LORAMAC_STATUS_NOT_OK => Z.lor (Z.land idb 3) 4
           end)
  = match st with
    | LORAMAC_STATUS_OK => Z.land idb 3
    | LORAMAC_STATUS_NOT_OK => Z.land idb 3 + 4
    end.
Proof.
  pose proof (land_3_range idb) as H.
  assert (Z.land idb 3 = 0 \/ Z.land idb 3 = 1 \/ Z.land idb 3 = 2 \/
          Z.land idb 3 = 3) as [E|[E|[E|E]]] by lia;
    rewrite E; destruct st; reflexivity.
Qed.

Section GroupDeleteExec.

Context {W : Type} {PF : Platform W}.
Implicit Types m : machine (W:=W).

Lemma GroupDelete_exec ind m pre post idb out free st w' :
  let id := Z.land idb 0x03 in
  let status := match st with
                | LORAMAC_STATUS_OK => id
                | LORAMAC_STATUS_NOT_OK => id + 4
                end in
  Buffer ind = pre ++ [0x03; idb] ++ post ->
  (length pre + 2 <= 255)%nat ->
  cmdIndex m = Z.of_nat (length pre) ->
  DataBuffer m = out ++ free ->
  dataBufferIndex m = Z.of_nat (length out) ->
  (2 <= length free)%nat ->
  (length out + 2 <= 255)%nat ->
  LoRaMacMcChannelDelete id (world m) = (st, w') ->
  process_command ind m
  = Ok tt {| cmdIndex := Z.of_nat (length pre + 2);
             dataBufferIndex := Z.of_nat (length out + 2);
             DataBuffer := out ++ [0x03; status] ++ drop 2 free;
             McSessionData := McSessionData m;
             world := w';
             calls := calls m |}.
Proof.
  intros id status HB Hpre Hc HD Hdi Hfree Hout Hmac.
  destruct free as [|y0 [|y1 free]]; cbn [length] in Hfree; try lia.
  open_machine m.
  change (Z.of_nat (length pre)) with (Z.of_nat (0 + length pre)).
  etransitivity.
  { unfold process_command. step. dispatch. unfold GroupDelete.
    step. cbv zeta. step.
    eapply bind_Ok.
    { apply platform_eq.
      cbn [world set_world set_dataBufferIndex set_DataBuffer set_McSessionData
           set_cmdIndex].
      exact Hmac. }
    cbv beta. step. }
  machine_eq.
  - f_equal. lia.
  - rewrite !length_app. cbn [length]. f_equal. lia.
  - rewrite <- !app_assoc. cbn [app drop]. do 3 f_equal.
    subst status id. apply GroupDelete_status_byte.
Qed.

End GroupDeleteExec.

(** ** The group status command, for every request *)

Lemma status_byte_bits (s1 s2 s3 s4 : bool) :
  uint8_t (TMcGroupStatusAns_to_byte
             {| AnsGroupMask4 := s4; AnsGroupMask3 := s3; AnsGroupMask2 := s2;
                AnsGroupMask1 := s1; NbTotalGroups := LORAMAC_MAX_MC_CTX;
                rfu := 0 |})
  = 64 + 8 * Z.b2z s1 + 4 * Z.b2z s2 + 2 * Z.b2z s3 + Z.b2z s4.
Proof. destruct s1, s2, s3, s4; reflexivity. Qed.

Section GroupStatusAll.

Context {W : Type} {PF : Platform W}.
Implicit Types m : machine (W:=W).

Lemma when_put_group_eq (b : bool) c m out free :
  let sel := if b then group_bytes c else [] in
  DataBuffer m = out ++ free ->
  dataBufferIndex m = Z.of_nat (length out) ->
  (5 <= length free)%nat ->
  (length out + 5 <= 255)%nat ->
  when b (put_group c) m
  = Ok tt (set_dataBufferIndex (Z.of_nat (length (out ++ sel)))
             (set_DataBuffer ((out ++ sel) ++ drop (length sel) free) m)).
Proof.
  intros sel HD Hi Hfree Hout. subst sel. destruct b; cbn [when].
  - do 5 (destruct free as [|? free]; [cbn [length] in Hfree; lia|]).
    rewrite (put_group_eq c m out _ _ _ _ _ free HD Hi Hout). reflexivity.
  - rewrite app_nil_r. cbn [length]. rewrite drop_0, <- HD, <- Hi.
    destruct m. reflexivity.
Qed.

Lemma GroupStatus_exec ind m pre post req out free :
  let Ctx := MulticastChannelList (world m) in
  let asked i := Z.testbit req (3 - Z.of_nat i) && negb (Address (Ctx i) =? 0) in
  let group i := if asked i then group_bytes (Ctx i) else [] in
  let status := 64 + 8 * Z.b2z (asked 0%nat) + 4 * Z.b2z (asked 1%nat)
                + 2 * Z.b2z (asked 2%nat) + Z.b2z (asked 3%nat) in
  let ans := [0x01; status] ++ group 0%nat ++ group 1%nat ++ group 2%nat
             ++ group 3%nat in
  Buffer ind = pre ++ [0x01; req] ++ post ->
  (length pre + 2 <= 255)%nat ->
  cmdIndex m = Z.of_nat (length pre) ->
  DataBuffer m = out ++ free ->
  dataBufferIndex m = Z.of_nat (length out) ->
  (22 <= length free)%nat ->
  (length out + 22 <= 255)%nat ->
  process_command ind m
  = Ok tt {| cmdIndex := Z.of_nat (length pre + 2);
             dataBufferIndex := Z.of_nat (length out + length ans);
             DataBuffer := out ++ ans ++ drop (length ans) free;
             McSessionData := McSessionData m;
             world := world m;
             calls := calls m |}.
Proof.
  intros Ctx asked group status ans HB Hpre Hc HD Hdi Hfree Hout.
  assert (Hans : GroupStatusAns Ctx (TMcReqGroupMask_of_byte req)
                 = {| AnsGroupMask4 := asked 3%nat; AnsGroupMask3 := asked 2%nat;
                      AnsGroupMask2 := asked 1%nat; AnsGroupMask1 := asked 0%nat;
                      NbTotalGroups := LORAMAC_MAX_MC_CTX; rfu := 0 |}).
  { unfold GroupStatusAns, TMcReqGroupMask_of_byte, asked.
    cbn [ReqGroupMask1 ReqGroupMask2 ReqGroupMask3 ReqGroupMask4].
    change (3 - Z.of_nat 0) with 3. change (3 - Z.of_nat 1) with 2.
    change (3 - Z.of_nat 2) with 1. change (3 - Z.of_nat 3) with 0.
    f_equal;
      match goal with
      | |- context [Address (Ctx ?i) =? 0] =>
          destruct (Address (Ctx i) =? 0); cbn [negb];
          rewrite ?andb_true_r, ?andb_false_r; reflexivity
      end. }
  assert (Hg : forall i, (length (group i) <= 5)%nat).
  { intros i. unfold group. destruct (asked i); cbn; lia. }
  pose proof (Hg 0%nat). pose proof (Hg 1%nat). pose proof (Hg 2%nat).
  pose proof (Hg 3%nat).
  destruct free as [|y0 [|y1 free]]; cbn [length] in Hfree; try lia.
  subst Ctx.
  open_machine m.
  change (Z.of_nat (length pre)) with (Z.of_nat (0 + length pre)).
  etransitivity.
  { unfold process_command. step. dispatch. unfold GroupStatus.
    do 2 step. cbv zeta. cbn [world set_cmdIndex] in *.
    rewrite Hans.
    cbn [AnsGroupMask1 AnsGroupMask2 AnsGroupMask3 AnsGroupMask4].
    do 2 step.
    eapply bind_Ok.
    { eapply (when_put_group_eq _ _ _ (out ++ [_; _]) free);
        [ cbn [DataBuffer set_dataBufferIndex set_DataBuffer];
          rewrite <- !app_assoc; reflexivity
        | cbn [dataBufferIndex set_dataBufferIndex]; rewrite <- !app_assoc;
          reflexivity
        | lia
        | rewrite length_app; cbn [length]; lia ]. }
    cbv beta.
    eapply bind_Ok.
    { eapply when_put_group_eq;
        [ reflexivity | reflexivity
        | rewrite length_drop; fold (group 0%nat); lia
        | rewrite !length_app; fold (group 0%nat); cbn [length]; lia ]. }
    cbv beta.
    eapply bind_Ok.
    { eapply when_put_group_eq;
        [ reflexivity | reflexivity
        | rewrite !length_drop; fold (group 0%nat) (group 1%nat); lia
        | rewrite !length_app; fold (group 0%nat) (group 1%nat);
          cbn [length]; lia ]. }
    cbv beta.
    eapply when_put_group_eq;
      [ reflexivity | reflexivity
      | rewrite !length_drop; fold (group 0%nat) (group 1%nat) (group 2%nat); lia
      | rewrite !length_app; fold (group 0%nat) (group 1%nat) (group 2%nat);
        cbn [length]; lia ]. }
  fold (group 0%nat) (group 1%nat) (group 2%nat) (group 3%nat).
  rewrite status_byte_bits. fold status.
  machine_eq.
  - f_equal. lia.
  - subst ans. rewrite !length_app. cbn [length]. f_equal. lia.
  - subst ans. rewrite <- !app_assoc. cbn [app]. do 3 f_equal.
    rewrite !drop_drop. cbn [length drop]. rewrite !length_app.
    reflexivity.
Qed.

End GroupStatusAll.

(** ** Bytes of a little-endian value *)

Lemma land_255_mod x : Z.land x 0xFF = x mod 256.
Proof. change 255 with (Z.ones 8). now rewrite Z.land_ones by lia. Qed.

Lemma le24_bytes t :
  0 <= t < 2 ^ 24 ->
  le24 (Z.land (Z.shiftr t 0) 0xFF) (Z.land (Z.shiftr t 8) 0xFF)
       (Z.land (Z.shiftr t 16) 0xFF) = t.
Proof.
  intros Ht. unfold le24. rewrite !land_255_mod, !Z.shiftr_div_pow2 by lia.
  change (2 ^ 0) with 1. change (2 ^ 8) with 256. change (2 ^ 16) with 65536.
  change (2 ^ 24) with 16777216 in Ht.
  rewrite Z.div_1_r.
  Z.div_mod_to_equations. lia.
Qed.

Lemma le32_bytes a0 a1 a2 a3 :
  is_byte a0 -> is_byte a1 -> is_byte a2 -> is_byte a3 ->
  Z.land (Z.shiftr (le32 a0 a1 a2 a3) 0) 0xFF = a0 /\
  Z.land (Z.shiftr (le32 a0 a1 a2 a3) 8) 0xFF = a1 /\
  Z.land (Z.shiftr (le32 a0 a1 a2 a3) 16) 0xFF = a2 /\
  Z.land (Z.shiftr (le32 a0 a1 a2 a3) 24) 0xFF = a3.
Proof.
  unfold is_byte, le32. intros H0 H1 H2 H3.
  rewrite !land_255_mod, !Z.shiftr_div_pow2 by lia.
  change (2 ^ 0) with 1. change (2 ^ 8) with 256. change (2 ^ 16) with 65536.
  change (2 ^ 24) with 16777216.
  rewrite Z.div_1_r.
  repeat split; Z.div_mod_to_equations; lia.
Qed.

Lemma table_wf_boot w : table_wf (McSessionData (Bench.boot w)).
Proof. split; [reflexivity | repeat constructor]. Qed.

Lemma timeouts_ok_boot w : timeouts_ok (McSessionData (Bench.boot w)).
Proof. repeat constructor; cbn; lia. Qed.

(** The request mask that asks for the group [id] alone. *)
Lemma testbit_one_hot (id : Z) (i : nat) :
  0 <= id < 4 -> (i < 4)%nat ->
  Z.testbit (Z.shiftl 1 (3 - id)) (3 - Z.of_nat i) = bool_decide (Z.of_nat i = id).
Proof.
  intros Hid Hi.
  assert (id = 0 \/ id = 1 \/ id = 2 \/ id = 3) as [->|[->|[->| ->]]] by lia;
    destruct i as [|[|[|[|i]]]]; try lia; reflexivity.
Qed.

(** ** Whole frames *)

Section WholeFrames.

Context {W : Type} {PF : Platform W}.
Implicit Types m : machine (W:=W).

Lemma set_cmdIndex_same m : set_cmdIndex (cmdIndex m) m = m.
Proof. now destruct m. Qed.

(** A frame of bytes that are no request is stepped over byte by byte. *)
Lemma decode_loop_skips ind frame rest :
  Buffer ind = frame ++ rest ->
  BufferSize ind = Z.of_nat (length frame) ->
  (length frame <= 255)%nat ->
  Forall (fun b => 5 <= b) frame ->
  forall fuel m,
    0 <= cmdIndex m <= Z.of_nat (length frame) ->
    (length frame - Z.to_nat (cmdIndex m) <= fuel)%nat ->
    decode_loop fuel ind m = Ok tt (set_cmdIndex (Z.of_nat (length frame)) m).
Proof.
  intros HB Hsize Hlen H5.
  induction fuel as [|fuel IH]; intros m Hm Hfuel.
  - rewrite decode_loop_done by lia.
    replace (Z.of_nat (length frame)) with (cmdIndex m) by lia.
    now rewrite set_cmdIndex_same.
  - destruct (Z.eq_dec (cmdIndex m) (Z.of_nat (length frame))) as [E|E].
    + rewrite decode_loop_done by lia. rewrite <- E.
      now rewrite set_cmdIndex_same.
    + rewrite decode_loop_step by lia.
      destruct (lookup_lt_is_Some_2 frame (Z.to_nat (cmdIndex m))) as [b Hb];
        [lia|].
      eapply bind_Ok.
      * apply (process_command_skip ind m b).
        -- rewrite HB, lookup_app_l by lia. exact Hb.
        -- rewrite Forall_lookup in H5. exact (H5 _ _ Hb).
      * cbv beta. rewrite IH.
        -- reflexivity.
        -- cbn [cmdIndex set_cmdIndex]. rewrite uint8_t_small by lia. lia.
        -- cbn [cmdIndex set_cmdIndex]. rewrite uint8_t_small by lia. lia.
Qed.

(** One command at the start of a frame whose announced size ends inside
    the command: the loop makes one turn. *)
Lemma decode_loop_one ind fuel m m1 :
  cmdIndex m < BufferSize ind ->
  process_command ind m = Ok tt m1 ->
  BufferSize ind <= cmdIndex m1 ->
  decode_loop (S fuel) ind m = Ok tt m1.
Proof.
  intros Hlt Hrun Hge. rewrite decode_loop_step by exact Hlt.
  eapply bind_Ok; [exact Hrun|]. cbv beta. now apply decode_loop_done.
Qed.

Lemma decode_loop_two ind fuel m m1 m2 :
  cmdIndex m < BufferSize ind ->
  process_command ind m = Ok tt m1 ->
  cmdIndex m1 < BufferSize ind ->
  process_command ind m1 = Ok tt m2 ->
  BufferSize ind <= cmdIndex m2 ->
  decode_loop (S (S fuel)) ind m = Ok tt m2.
Proof.
  intros Hlt Hrun Hlt1 Hrun1 Hge. rewrite decode_loop_step by exact Hlt.
  eapply bind_Ok; [exact Hrun|]. cbv beta.
  eapply decode_loop_one; eauto.
Qed.

End WholeFrames.

(** ** Frames of package version requests *)

Lemma length_version_answers n :
  length (concat (replicate n [0x00; 0x02; 0x01])) = (3 * n)%nat.
Proof.
  induction n as [|n IH]; [reflexivity|].
  cbn [replicate concat]. rewrite length_app, IH. cbn [length]. lia.
Qed.

Section Versions.

Context {W : Type} {PF : Platform W}.
Implicit Types m : machine (W:=W).

Lemma PackageVersion_exec ind m pre post out free :
  Buffer ind = pre ++ [0x00] ++ post ->
  (length pre + 1 <= 255)%nat ->
  cmdIndex m = Z.of_nat (length pre) ->
  DataBuffer m = out ++ free ->
  dataBufferIndex m = Z.of_nat (length out) ->
  (3 <= length free)%nat ->
  (length out + 3 <= 255)%nat ->
  process_command ind m
  = Ok tt {| cmdIndex := Z.of_nat (length pre + 1);
             dataBufferIndex := Z.of_nat (length out + 3);
             DataBuffer := out ++ [0x00; 0x02; 0x01] ++ drop 3 free;
             McSessionData := McSessionData m;
             world := world m;
             calls := calls m |}.
Proof.
  intros HB Hpre Hc HD Hdi Hfree Hout.
  destruct free as [|y0 [|y1 [|y2 free]]]; cbn [length] in Hfree; try lia.
  open_machine m.
  change (Z.of_nat (length pre)) with (Z.of_nat (0 + length pre)).
  etransitivity.
  { unfold process_command. step. dispatch. unfold PackageVersion. exec. }
  machine_eq.
  - f_equal. lia.
  - rewrite !length_app. cbn [length]. f_equal. lia.
  - now rewrite <- !app_assoc.
Qed.

Lemma put_fault v m :
  (length (DataBuffer m) <= Z.to_nat (dataBufferIndex m))%nat ->
  put v m = Fault OutOfBounds.
Proof.
  intros H. unfold put. now rewrite lookup_ge_None_2 by exact H.
Qed.

(** A package version request with less than three bytes left in the
    answer buffer. *)
Lemma PackageVersion_overflow ind m pre post out free :
  Buffer ind = pre ++ [0x00] ++ post ->
  (length pre + 1 <= 255)%nat ->
  cmdIndex m = Z.of_nat (length pre) ->
  DataBuffer m = out ++ free ->
  dataBufferIndex m = Z.of_nat (length out) ->
  (length free < 3)%nat ->
  (length out + 3 <= 255)%nat ->
  process_command ind m = Fault OutOfBounds.
Proof.
  intros HB Hpre Hc HD Hdi Hfree Hout.
  open_machine m.
  change (Z.of_nat (length pre)) with (Z.of_nat (0 + length pre)).
  unfold process_command.
  eapply bind_Ok; [prim|]. cbv beta. dispatch. unfold PackageVersion.
  destruct free as [|y0 [|y1 [|y2 free]]]; cbn [length] in Hfree; try lia.
  - unfold bind at 1. rewrite put_fault; [reflexivity|].
    cbn [DataBuffer dataBufferIndex set_cmdIndex]. rewrite app_nil_r. lia.
  - eapply bind_Ok; [prim|]. cbv beta.
    unfold bind at 1. rewrite put_fault; [reflexivity|].
    cbn [DataBuffer dataBufferIndex set_dataBufferIndex set_DataBuffer].
    rewrite !length_app. cbn [length]. lia.
  - eapply bind_Ok; [prim|]. cbv beta.
    eapply bind_Ok; [prim|]. cbv beta.
    rewrite put_fault; [reflexivity|].
    cbn [DataBuffer dataBufferIndex set_dataBufferIndex set_DataBuffer].
    rewrite !length_app. cbn [length]. lia.
Qed.

Lemma version_requests_split n k :
  (S k <= n)%nat ->
  Buffer (version_requests n)
  = replicate (n - S k) 0x00 ++ [0x00] ++ replicate k 0x00.
Proof.
  intros H. cbn [Buffer version_requests].
  replace n with ((n - S k) + (1 + k))%nat at 1 by lia.
  now rewrite !replicate_add.
Qed.

(** [k] requests are left to read, and the answer buffer has room for
    their answers. *)
Lemma decode_loop_versions n k :
  forall fuel m out free,
    (k <= n)%nat -> (n <= 255)%nat -> (k <= fuel)%nat ->
    cmdIndex m = Z.of_nat (n - k) ->
    DataBuffer m = out ++ free ->
    dataBufferIndex m = Z.of_nat (length out) ->
    (3 * k <= length free)%nat ->
    (length out + 3 * k <= 255)%nat ->
    decode_loop fuel (version_requests n) m
    = Ok tt {| cmdIndex := Z.of_nat n;
               dataBufferIndex := Z.of_nat (length out + 3 * k);
               DataBuffer := out ++ concat (replicate k [0x00; 0x02; 0x01])
                               ++ drop (3 * k) free;
               McSessionData := McSessionData m;
               world := world m;
               calls := calls m |}.
Proof.
  induction k as [|k IH]; intros fuel m out free Hk Hn Hfuel Hc HD Hdi Hfree Hout.
  - rewrite decode_loop_done by (cbn [BufferSize version_requests]; lia).
    destruct m. cbn in *. subst. do 2 f_equal; [lia | f_equal; lia].
  - destruct fuel as [|fuel]; [lia|].
    rewrite decode_loop_step by (cbn [BufferSize version_requests]; lia).
    eapply bind_Ok.
    { eapply (PackageVersion_exec _ m (replicate (n - S k) 0x00)
                (replicate k 0x00) out free);
        rewrite ?length_replicate; try eassumption; try lia.
      now apply version_requests_split. }
    cbv beta.
    rewrite (IH fuel _ (out ++ [0x00; 0x02; 0x01]) (drop 3 free));
      rewrite ?length_replicate, ?length_app, ?length_drop;
      cbn [cmdIndex DataBuffer dataBufferIndex McSessionData world calls length];
      try lia.
    + f_equal. f_equal.
      * f_equal. lia.
      * rewrite <- !app_assoc. f_equal. cbn [replicate concat].
        rewrite <- !app_assoc. cbn [app]. do 4 f_equal.
        rewrite drop_drop. f_equal. lia.
    + now rewrite <- app_assoc.
Qed.

(** [k] requests are left to read, and the answer buffer has no room for
    their answers. *)
Lemma decode_loop_versions_overflow n k :
  forall fuel m out free,
    (1 <= k <= n)%nat -> (n <= 255)%nat -> (k <= fuel)%nat ->
    cmdIndex m = Z.of_nat (n - k) ->
    DataBuffer m = out ++ free ->
    dataBufferIndex m = Z.of_nat (length out) ->
    (length free < 3 * k)%nat ->
    (length out + 3 * k <= 255)%nat ->
    decode_loop fuel (version_requests n) m = Fault OutOfBounds.
Proof.
  induction k as [|k IH]; intros fuel m out free Hk Hn Hfuel Hc HD Hdi Hfree Hout;
    [lia|].
  destruct fuel as [|fuel]; [lia|].
  rewrite decode_loop_step by (cbn [BufferSize version_requests]; lia).
  destruct (le_lt_dec 3 (length free)) as [Hroom|Hfull].
  - eapply bind_Ok.
    { eapply (PackageVersion_exec _ m (replicate (n - S k) 0x00)
                (replicate k 0x00) out free);
        rewrite ?length_replicate; try eassumption; try lia.
      now apply version_requests_split. }
    cbv beta.
    apply (IH fuel _ (out ++ [0x00; 0x02; 0x01]) (drop 3 free));
      rewrite ?length_replicate, ?length_app, ?length_drop;
      cbn [cmdIndex DataBuffer dataBufferIndex length];
      try lia.
    now rewrite <- app_assoc.
  - unfold bind.
    rewrite (PackageVersion_overflow _ m (replicate (n - S k) 0x00)
               (replicate k 0x00) out free);
      rewrite ?length_replicate; try eassumption; try lia; try reflexivity.
    now apply version_requests_split.
Qed.

End Versions.

(** ** The package and its host *)

Section Host.

Context {W : Type} {PF : Platform W}.
Implicit Types m : machine (W:=W).
Implicit Types p : package (W:=W).

Lemma host_invariant_static (w : W) : host_invariant (package_static w).
Proof.
  split; [reflexivity|]. split; [discriminate|]. split; [cbn; lia|].
  split; [split; [reflexivity | repeat constructor]|].
  repeat constructor; cbn; lia.
Qed.

Lemma host_invariant_step p p' :
  host_step p p' -> host_invariant p -> host_invariant p'.
Proof.
  intros Hstep (Hrun & Htimers & Hsize & Hwf & Hto).
  destruct Hstep as [[buffer|] size p|p|p g Hg].
  - split; [reflexivity|]. split.
    { intros _. cbn [TimerInit LmhpRemoteMcastSetupInit].
      split; apply in_or_app; right; cbn; auto. }
    split.
    { cbn [LmhpRemoteMcastSetupInit LmhpRemoteMcastSetupState DataBufferMaxSize].
      pose proof (uint8_t_range size). lia. }
    split; assumption.
  - split; [reflexivity|]. split; [discriminate|]. auto.
  - exact (conj Hrun (conj Htimers (conj Hsize (conj Hwf Hto)))).
  - split; [exact Hrun|]. split; [exact Htimers|]. split; [exact Hsize|].
    cbn [globals set_globals].
    apply (package_steps_table (globals p) g); [|assumption|assumption].
    now apply rtc_once.
Qed.

Lemma host_invariant_steps p p' :
  rtc host_step p p' -> host_invariant p -> host_invariant p'.
Proof.
  induction 1 as [|p p1 p2 Hstep _ IH]; [auto|].
  intros Hinv. apply IH. eapply host_invariant_step; eauto.
Qed.

(** ** The handler without an answer buffer *)

Lemma no_room m ans m' :
  DataBuffer m = [] -> dataBufferIndex m = 0 ->
  appended ans m m' -> ans = [].
Proof.
  intros HD Hi (_ & _ & Hle). rewrite HD, Hi in Hle. cbn in Hle.
  destruct ans; [reflexivity | cbn in Hle; lia].
Qed.

Lemma buffer_ok_empty m :
  DataBuffer m = [] -> dataBufferIndex m = 0 -> buffer_ok m.
Proof. intros HD Hi. unfold buffer_ok. rewrite HD, Hi. cbn. lia. Qed.

(** A request that is answered does not return when there is no answer
    buffer. *)
Lemma process_command_needs_buffer ind m op :
  DataBuffer m = [] -> dataBufferIndex m = 0 ->
  Buffer ind !! Z.to_nat (cmdIndex m) = Some op ->
  op = 0x00 \/ op = 0x01 \/ op = 0x03 \/ op = 0x04 ->
  process_command ind m = Fault OutOfBounds.
Proof.
  intros HD Hi Hop Hcases.
  destruct (process_command ind m) as [[] m'|e] eqn:Hrun;
    [|now rewrite (process_command_safe _ _ _ Hrun)].
  exfalso. unfold process_command in Hrun.
  apply bind_inv in Hrun as (op' & m1 & Hnext & Hrun).
  apply next_byte_inv in Hnext as [Hop' ->].
  rewrite Hop in Hop'. injection Hop' as <-.
  assert (Hok : buffer_ok (set_cmdIndex (uint8_t (cmdIndex m + 1)) m))
    by now apply buffer_ok_empty.
  assert (Hnil : forall ans, appended ans (set_cmdIndex (uint8_t (cmdIndex m + 1)) m) m'
                             -> ans = []).
  { intros ans. now apply no_room. }
  destruct Hcases as [->|[->|[->| ->]]]; cbn in Hrun.
  - destruct (effect_PackageVersion _ _ _ Hrun) as [_ H].
    destruct (H Hok) as (ans & Ha & ->). now apply Hnil in Ha.
  - destruct (effect_GroupStatus ind _ _ _ Hrun) as [_ H].
    destruct (H Hok) as (ans & Ha & st & groups & n & -> & _). now apply Hnil in Ha.
  - destruct (effect_GroupDelete ind _ _ _ Hrun) as [_ H].
    destruct (H Hok) as (ans & Ha & b & ->). now apply Hnil in Ha.
  - destruct (effect_ClassCSession ind _ _ _ Hrun) as [_ H].
    destruct (H Hok) as (ans & Ha & s & [-> | (t0 & t1 & t2 & ->)]);
      now apply Hnil in Ha.
Qed.

End Host.

(** ** Frames of well-formed requests *)




Section Requests.

Context {W : Type} {PF : Platform W}.
Implicit Types m : machine (W:=W).


Lemma length_group_bytes Ctx req i :
  (length (GroupStatus_group Ctx req i) <= 5)%nat.
Proof.
  unfold GroupStatus_group. destruct (GroupStatus_asked Ctx req i); cbn; lia.
Qed.

Lemma length_answer_bytes c t (w : W) :
  (length (answer_bytes (run c t w)) <= 22)%nat.
Proof.
  destruct c; cbn [run answer_bytes length]; try lia.
  - unfold GroupStatus_answer. rewrite !length_app. cbn [length].
    pose proof (length_group_bytes (MulticastChannelList w) req 0).
    pose proof (length_group_bytes (MulticastChannelList w) req 1).
    pose proof (length_group_bytes (MulticastChannelList w) req 2).
    pose proof (length_group_bytes (MulticastChannelList w) req 3).
    lia.
  - unfold ClassC_answer.
    repeat match goal with
           | |- context [match ?x with _ => _ end] => destruct x
           end; cbn [length]; lia.
Qed.




End Requests.


(** * The properties *)

(** ** C1: the answer to a group status request *)

(** C1, as the source has it. With groups 0 and 2 set up in the MAC
    (addresses not 0) and groups 1 and 3 not (addresses 0), a group status
    request whose mask is 1111 is answered by the opcode 0x01, the status
    byte 0x4A and exactly two groups of five bytes, group id and address
    low byte first, slot 0 then slot 2. The status byte holds
    [NbTotalGroups] = 4 in bits 4 to 6 and the answer mask in its low four
    bits: slot 0 is [AnsGroupMask1], bit 3, and slot 2 is [AnsGroupMask3],
    bit 1, so that the mask reads 1010. The session table, the world and
    the calls are left as they were. *)
Theorem GroupStatus_groups_0_and_2 {W : Type} {PF : Platform W}
    ind (m : machine (W:=W)) pre post req out free :
  let Ctx := MulticastChannelList (world m) in
  Buffer ind = pre ++ [0x01; req] ++ post ->
  (length pre + 2 <= 255)%nat ->
  cmdIndex m = Z.of_nat (length pre) ->
  Z.land req 0x0F = 0x0F ->
  Address (Ctx 0%nat) <> 0 -> Address (Ctx 1%nat) = 0 ->
  Address (Ctx 2%nat) <> 0 -> Address (Ctx 3%nat) = 0 ->
  DataBuffer m = out ++ free ->
  dataBufferIndex m = Z.of_nat (length out) ->
  (12 <= length free)%nat ->
  (length out + 12 <= 255)%nat ->
  exists m',
    process_command ind m = Ok tt m' /\
    DataBuffer m'
    = out ++ [0x01; 0x4A] ++ group_bytes (Ctx 0%nat) ++ group_bytes (Ctx 2%nat)
          ++ drop 12 free /\
    dataBufferIndex m' = Z.of_nat (length out + 12) /\
    Z.land 0x4A 0x0F = 0x0A /\
    McSessionData m' = McSessionData m /\
    world m' = world m /\
    calls m' = calls m.
Proof.
  intros Ctx HB Hpre Hc Hreq H0 H1 H2 H3 HD Hdi Hfree Hout.
  do 12 (destruct free as [|? free]; [cbn [length] in Hfree; lia|]).
  pose proof (GroupStatusAns_0_and_2 Ctx req Hreq H0 H1 H2 H3) as Hans.
  subst Ctx.
  open_machine m.
  change (Z.of_nat (length pre)) with (Z.of_nat (0 + length pre)).
  eexists. split.
  { unfold process_command. step. dispatch. unfold GroupStatus.
    do 2 step. cbv zeta.
    cbn [world set_cmdIndex] in *.
    rewrite Hans.
    cbn [AnsGroupMask1 AnsGroupMask2 AnsGroupMask3 AnsGroupMask4 when].
    do 2 step.
    eapply bind_Ok. { eapply put_group_eq; [reflexivity | reflexivity | side]. }
    cbv beta.
    eapply bind_Ok. { apply ret_eq. } cbv beta.
    eapply bind_Ok. { eapply put_group_eq; [reflexivity | reflexivity | side]. }
    cbv beta. apply ret_eq. }
  cbn [DataBuffer dataBufferIndex McSessionData world calls set_dataBufferIndex
       set_DataBuffer set_cmdIndex].
  repeat split.
  - rewrite <- !app_assoc. reflexivity.
  - rewrite !length_app. cbn [length group_bytes]. f_equal. lia.
Qed.

(** C1, the theorem at work: the request [0x01; 0x0F] on a machine whose
    MAC holds group 0 at 0x11223344 and group 2 at 0x55667788. *)
Lemma GroupStatus_groups_0_and_2_witness :
  exists m',
    process_command status_request_all (Bench.boot groups_0_and_2) = Ok tt m' /\
    DataBuffer m'
    = [0x01; 0x4A] ++ [0; 0x44; 0x33; 0x22; 0x11] ++ [2; 0x88; 0x77; 0x66; 0x55]
        ++ replicate 230 0 /\
    dataBufferIndex m' = 12 /\
    Z.land 0x4A 0x0F = 0x0A /\
    McSessionData m' = McSessionData (Bench.boot groups_0_and_2) /\
    world m' = groups_0_and_2 /\
    calls m' = [].
Proof.
  refine (GroupStatus_groups_0_and_2 status_request_all
            (Bench.boot groups_0_and_2) [] [] 0x0F [] (replicate 242 0)
            _ _ _ _ _ _ _ _ _ _ _ _).
  - reflexivity.
  - cbn; lia.
  - reflexivity.
  - reflexivity.
  - vm_compute; discriminate.
  - reflexivity.
  - vm_compute; discriminate.
  - reflexivity.
  - reflexivity.
  - reflexivity.
  - cbn; lia.
  - cbn; lia.
Defined.

(** C1 fails as it is stated. One frame sets up group 0 and group 2 and
    then asks for the status of all groups with the mask 1111: the answers
    to the two setups are [0x02; 0] and [0x02; 2], and in the status answer
    that follows them the low four bits of the status byte are 1010 (bits 1
    and 3), not 0101 (bits 0 and 2). *)
Lemma GroupStatus_mask_is_not_0101 :
  exists m' st pairs,
    LmhpRemoteMcastSetupOnMcpsIndication 3 setup_0_and_2_then_status booted
    = Ok tt m' /\
    Bench.answer m' = [0x02; 0; 0x02; 2] ++ 0x01 :: st :: pairs /\
    pairs = [0; 0x44; 0x33; 0x22; 0x11; 2; 0x88; 0x77; 0x66; 0x55] /\
    Z.land st 0x0F = 0x0A /\
    Z.land st 0x0F <> 0x05.
Proof.
  eexists. eexists. eexists.
  split; [vm_compute; reflexivity|].
  split; [vm_compute; reflexivity|].
  split; [reflexivity|].
  split; [reflexivity | discriminate].
Qed.

(** ** C2: a class C session that starts in 50 seconds *)

(** C2. A class C session request is at [cmdIndex]; the MAC accepts its
    receive parameters, the current GPS time is [T] and the Unix session
    time of the request is [T - UNIX_GPS_EPOCH_OFFSET + 50]. Then the
    command sets the start timer to 50000 ms and starts it, and appends to
    the answer buffer the opcode 0x04 followed by [status; 50; 0; 0]: the
    status byte and the time to start in three bytes, low byte first. *)
Theorem ClassCSession_future_start {W : Type} {PF : Platform W}
    ind (m : machine (W:=W)) pre post idb t0 t1 t2 t3 to f0 f1 f2 dr out free
    status w' T :
  let cmd := [0x04; idb; t0; t1; t2; t3; to; f0; f1; f2; dr] in
  let id := Z.land idb 0x03 in
  Buffer ind = pre ++ cmd ++ post ->
  Forall is_byte cmd ->
  (length pre + 11 <= 255)%nat ->
  cmdIndex m = Z.of_nat (length pre) ->
  table_wf (McSessionData m) ->
  DataBuffer m = out ++ free ->
  dataBufferIndex m = Z.of_nat (length out) ->
  (5 <= length free)%nat ->
  (length out + 5 <= 255)%nat ->
  LoRaMacMcChannelSetupRxParams id
    {| Frequency := le24 f0 f1 f2 * 100; Datarate := dr |} 0x00 (world m)
  = (LORAMAC_STATUS_OK, status, w') ->
  Seconds (SysTimeGet w') = T ->
  le32 t0 t1 t2 t3 = T - UNIX_GPS_EPOCH_OFFSET + 50 ->
  exists m',
    process_command ind m = Ok tt m' /\
    calls m' = calls m ++ [TimerSetValue SessionStartTimer 50000;
                           TimerStart SessionStartTimer] /\
    DataBuffer m' = out ++ [0x04; uint8_t status; 50; 0; 0] ++ drop 5 free /\
    dataBufferIndex m' = Z.of_nat (length out + 5).
Proof.
  intros cmd id HB Hbytes Hpre Hc Hwf HD Hdi Hfree Hout Hmac HT Hle.
  destruct (table_slot _ id Hwf (land_3_range idb)) as (r0 & Hr0 & _).
  pose proof (ClassCSession_exec ind m pre post idb t0 t1 t2 t3 to f0 f1 f2 dr
                out free r0 LORAMAC_STATUS_OK status w'
                HB Hbytes Hpre Hc Hr0 HD Hdi Hfree Hout Hmac) as Hrun.
  cbn zeta in Hrun.
  assert (Htts : int32_t (SessionTime (ClassC_record r0 t0 t1 t2 t3 to f0 f1 f2 dr)
                          - Seconds (SysTimeGet w')) = 50).
  { cbn [ClassC_record SessionTime]. rewrite HT, Hle, int32_t_uint32_t_sub.
    replace (T - UNIX_GPS_EPOCH_OFFSET + 50 + UNIX_GPS_EPOCH_OFFSET - T)
      with 50 by lia.
    reflexivity. }
  rewrite Htts in Hrun.
  eexists. split; [exact Hrun|].
  cbn [calls DataBuffer dataBufferIndex ClassC_answer ClassC_calls Z.ltb
       Z.compare length].
  repeat split; reflexivity.
Qed.

(** C2, the theorem at work: at GPS time 1000000000 a request for group 1
    with the Unix start time 684035250. *)
Lemma ClassCSession_future_start_witness :
  exists m',
    process_command session_request_future booted = Ok tt m' /\
    calls m' = [TimerSetValue SessionStartTimer 50000;
                TimerStart SessionStartTimer] /\
    DataBuffer m' = [0x04; 0; 50; 0; 0] ++ replicate 237 0 /\
    dataBufferIndex m' = 5.
Proof.
  refine (ClassCSession_future_start session_request_future booted
            [] [] 1 178 140 197 40 5 210 173 132 0 [] (replicate 242 0) 0
            (Bench.script_at 1000000000 LORAMAC_STATUS_OK 0) 1000000000
            _ _ _ _ _ _ _ _ _ _ _ _).
  - reflexivity.
  - repeat constructor; unfold is_byte; lia.
  - cbn; lia.
  - reflexivity.
  - split; [reflexivity | repeat constructor].
  - reflexivity.
  - reflexivity.
  - cbn; lia.
  - cbn; lia.
  - reflexivity.
  - reflexivity.
  - reflexivity.
Defined.

(** ** C3: a group setup request for a group that does not exist *)

(** What the guard [if( id >= LORAMAC_MAX_MC_CTX ) break;] does by itself:
    with an id of 4 or more the command reads the opcode and the id, and
    leaves the rest of the machine as it was. The 28 bytes that follow the
    id in the request are still in front of [cmdIndex]. *)
Lemma GroupSetup_reserved_group_guard {W : Type} {PF : Platform W}
    ind (m : machine (W:=W)) pre post id :
  Buffer ind = pre ++ [0x02; id] ++ post ->
  (length pre + 2 <= 255)%nat ->
  cmdIndex m = Z.of_nat (length pre) ->
  4 <= id ->
  process_command ind m = Ok tt (set_cmdIndex (Z.of_nat (length pre + 2)) m).
Proof.
  intros HB Hpre Hc Hid. open_machine m.
  change (Z.of_nat (length pre)) with (Z.of_nat (0 + length pre)).
  etransitivity.
  { unfold process_command. step. dispatch. unfold GroupSetup. step.
    destruct (Z.leb_spec LORAMAC_MAX_MC_CTX id) as [_|Hlt];
      [|unfold LORAMAC_MAX_MC_CTX in Hlt; lia].
    apply ret_eq. }
  machine_eq. f_equal. lia.
Qed.

(** C3 does not hold of the source. The frame is one group setup request
    of 30 bytes for group 4 with the address 0x00000104. The loop goes on
    at the first byte of the address: the byte 0x04 is run as a class C
    session request for group 1, which writes the session data of slot 1
    and appends the answer [0x04; 0x10], and the answer is sent. *)
Lemma GroupSetup_reserved_group_resumes_in_payload :
  exists m' r,
    LmhpRemoteMcastSetupOnMcpsIndication 30 setup_request_group_4 booted
    = Ok tt m' /\
    Bench.answer m' = [0x04; 0x10] /\
    calls m' = [OnSendRequest
                  {| AppBuffer := [0x04; 0x10]; AppBufferSize := 2;
                     Port := 200 |}
                  LORAMAC_HANDLER_UNCONFIRMED_MSG] /\
    McSessionData m' !! 1%nat = Some r /\
    SessionTimeout r = 10 /\
    RxParams r = {| Frequency := 1118481000; Datarate := 0xAA |} /\
    McSessionData m' <> McSessionData booted.
Proof.
  eexists. eexists.
  split; [vm_compute; reflexivity|].
  split; [vm_compute; reflexivity|].
  split; [reflexivity|].
  split; [reflexivity|].
  split; [reflexivity|].
  split; [reflexivity|].
  vm_compute. discriminate.
Qed.

(** ** C4: a group setup request for one of the four groups *)

(** C4, as the source has it. A group setup request for a group below 4 is
    at [cmdIndex] and the MAC accepts the channel. Then the record of the
    slot holds the id, the address (four bytes, low byte first), the key
    of 16 bytes and the two frame counter bounds (four bytes each, low byte
    first) of the request, and the answer is [0x02; id]. The slot is
    configured exactly when the address of the request is not 0: the
    address 0 is the mark of a slot that is not configured. *)
Theorem GroupSetup_stores_request {W : Type} {PF : Platform W}
    ind (m : machine (W:=W)) pre post id a0 a1 a2 a3 key n0 n1 n2 n3 x0 x1 x2 x3
    out free w' :
  let cmd := 0x02 :: id :: a0 :: a1 :: a2 :: a3 ::
             key ++ [n0; n1; n2; n3; x0; x1; x2; x3] in
  Buffer ind = pre ++ cmd ++ post ->
  Forall is_byte cmd ->
  length key = 16%nat ->
  (length pre + 30 <= 255)%nat ->
  cmdIndex m = Z.of_nat (length pre) ->
  id < 4 ->
  table_wf (McSessionData m) ->
  DataBuffer m = out ++ free ->
  dataBufferIndex m = Z.of_nat (length out) ->
  (2 <= length free)%nat ->
  (length out + 2 <= 255)%nat ->
  LoRaMacMcChannelSetup
    (GroupSetup_channel id a0 a1 a2 a3 key n0 n1 n2 n3 x0 x1 x2 x3) (world m)
  = (LORAMAC_STATUS_OK, w') ->
  exists m' r,
    process_command ind m = Ok tt m' /\
    McSessionData m' !! Z.to_nat id = Some r /\
    isConfigured (McSessionData m') id = negb (le32 a0 a1 a2 a3 =? 0) /\
    IdHeader_Value (McGroupData r) = id /\
    McAddr (McGroupData r) = le32 a0 a1 a2 a3 /\
    McKeyEncrypted (McGroupData r) = key /\
    McFCountMin (McGroupData r) = le32 n0 n1 n2 n3 /\
    McFCountMax (McGroupData r) = le32 x0 x1 x2 x3 /\
    DataBuffer m' = out ++ [0x02; id] ++ drop 2 free.
Proof.
  intros cmd HB Hbytes Hkey Hpre Hc Hid Hwf HD Hdi Hfree Hout Hmac.
  assert (Hid0 : 0 <= id < 4).
  { subst cmd. inversion Hbytes as [|? ? _ Hb1]; subst.
    inversion Hb1 as [|? ? Hb _]. unfold is_byte in Hb. lia. }
  destruct (table_slot _ id Hwf Hid0) as (r0 & Hr0 & Hk0).
  pose proof (GroupSetup_exec ind m pre post id a0 a1 a2 a3 key n0 n1 n2 n3
                x0 x1 x2 x3 out free r0 LORAMAC_STATUS_OK w'
                HB Hbytes Hkey Hpre Hc Hid Hr0 Hk0 HD Hdi Hfree Hout Hmac)
    as Hrun.
  cbn zeta in Hrun.
  assert (Hslot : <[Z.to_nat id :=
                      GroupSetup_record r0 id a0 a1 a2 a3 key n0 n1 n2 n3
                        x0 x1 x2 x3]> (McSessionData m) !! Z.to_nat id
                  = Some (GroupSetup_record r0 id a0 a1 a2 a3 key n0 n1 n2 n3
                            x0 x1 x2 x3)).
  { apply list_lookup_insert_eq. eapply lookup_lt_Some; eauto. }
  eexists. eexists. split; [exact Hrun|].
  cbn [McSessionData DataBuffer].
  split; [exact Hslot|].
  split; [unfold isConfigured; rewrite Hslot; reflexivity|].
  repeat split; reflexivity.
Qed.

(** C4, the theorem at work: group 1 is set up with the address
    0x11223344, the key 1, ..., 16 and the bounds 0 and 65535. *)
Lemma GroupSetup_stores_request_witness :
  exists m' r,
    process_command setup_request booted = Ok tt m' /\
    McSessionData m' !! 1%nat = Some r /\
    isConfigured (McSessionData m') 1 = true /\
    IdHeader_Value (McGroupData r) = 1 /\
    McAddr (McGroupData r) = 0x11223344 /\
    McKeyEncrypted (McGroupData r) = setup_key /\
    McFCountMin (McGroupData r) = 0 /\
    McFCountMax (McGroupData r) = 65535 /\
    DataBuffer m' = [0x02; 1] ++ replicate 240 0.
Proof.
  refine (GroupSetup_stores_request setup_request booted [] []
            1 0x44 0x33 0x22 0x11 setup_key 0 0 0 0 0xFF 0xFF 0 0
            [] (replicate 242 0)
            (snd (LoRaMacMcChannelSetup
                    (GroupSetup_channel 1 0x44 0x33 0x22 0x11 setup_key
                       0 0 0 0 0xFF 0xFF 0 0) (world booted)))
            _ _ _ _ _ _ _ _ _ _ _ _).
  - reflexivity.
  - repeat constructor; unfold is_byte; lia.
  - reflexivity.
  - cbn; lia.
  - reflexivity.
  - lia.
  - split; [reflexivity | repeat constructor].
  - reflexivity.
  - reflexivity.
  - cbn; lia.
  - cbn; lia.
  - reflexivity.
Defined.

(** C4 fails as it is stated. The MAC accepts a setup of group 1 whose
    address is 0 (the answer is [0x02; 1], without the error bit), the slot
    holds the fields of the request, and the slot is not configured. *)
Lemma GroupSetup_address_0_is_not_configured :
  exists m' r,
    process_command setup_request_address_0 booted = Ok tt m' /\
    Bench.answer m' = [0x02; 1] /\
    McSessionData m' !! 1%nat = Some r /\
    McAddr (McGroupData r) = 0 /\
    McKeyEncrypted (McGroupData r) = setup_key /\
    isConfigured (McSessionData m') 1 = false.
Proof.
  eexists. eexists.
  split; [vm_compute; reflexivity|].
  split; [vm_compute; reflexivity|].
  split; [reflexivity|].
  split; [reflexivity|].
  split; reflexivity.
Qed.

(** ** C5: a class C session whose start time has passed *)

(** C5. A class C session request is at [cmdIndex], the MAC accepts its
    receive parameters, and the time to the start of the session, the
    stored GPS session time minus the current GPS time as an [int32_t], is
    0 or less. Then the answer is the opcode 0x04 and one status byte, the
    status of the MAC with the bit 0x10 set, and no call is made: no timer
    is set and none is started. *)
Theorem ClassCSession_past_start {W : Type} {PF : Platform W}
    ind (m : machine (W:=W)) pre post idb t0 t1 t2 t3 to f0 f1 f2 dr out free
    status w' :
  let cmd := [0x04; idb; t0; t1; t2; t3; to; f0; f1; f2; dr] in
  let id := Z.land idb 0x03 in
  let sessionTimeGps := uint32_t (le32 t0 t1 t2 t3 + UNIX_GPS_EPOCH_OFFSET) in
  Buffer ind = pre ++ cmd ++ post ->
  Forall is_byte cmd ->
  (length pre + 11 <= 255)%nat ->
  cmdIndex m = Z.of_nat (length pre) ->
  table_wf (McSessionData m) ->
  DataBuffer m = out ++ free ->
  dataBufferIndex m = Z.of_nat (length out) ->
  (5 <= length free)%nat ->
  (length out + 5 <= 255)%nat ->
  LoRaMacMcChannelSetupRxParams id
    {| Frequency := le24 f0 f1 f2 * 100; Datarate := dr |} 0x00 (world m)
  = (LORAMAC_STATUS_OK, status, w') ->
  int32_t (sessionTimeGps - Seconds (SysTimeGet w')) <= 0 ->
  exists m' s,
    process_command ind m = Ok tt m' /\
    calls m' = calls m /\
    DataBuffer m' = out ++ [0x04; s] ++ drop 2 free /\
    dataBufferIndex m' = Z.of_nat (length out + 2) /\
    s = uint8_t (Z.lor (uint8_t status) 0x10) /\
    Z.testbit s 4 = true.
Proof.
  intros cmd id gps HB Hbytes Hpre Hc Hwf HD Hdi Hfree Hout Hmac Hpast.
  destruct (table_slot _ id Hwf (land_3_range idb)) as (r0 & Hr0 & _).
  pose proof (ClassCSession_exec ind m pre post idb t0 t1 t2 t3 to f0 f1 f2 dr
                out free r0 LORAMAC_STATUS_OK status w'
                HB Hbytes Hpre Hc Hr0 HD Hdi Hfree Hout Hmac) as Hrun.
  cbn zeta in Hrun. cbn [ClassC_record SessionTime] in Hrun. fold gps in Hrun.
  unfold ClassC_answer, ClassC_calls in Hrun.
  destruct (Z.ltb_spec 0 (int32_t (gps - Seconds (SysTimeGet w')))) as [Hlt|_];
    [lia|].
  eexists. eexists. split; [exact Hrun|].
  cbn [calls DataBuffer dataBufferIndex length].
  rewrite app_nil_r. repeat split; try reflexivity.
  apply testbit4_status.
Qed.

(** C5, the theorem at work: at GPS time 1000000000 a request whose
    session started at GPS time 999999950. *)
Lemma ClassCSession_past_start_witness :
  exists m' s,
    process_command session_request_past booted = Ok tt m' /\
    calls m' = [] /\
    DataBuffer m' = [0x04; s] ++ replicate 240 0 /\
    dataBufferIndex m' = 2 /\
    s = 0x10 /\
    Z.testbit s 4 = true.
Proof.
  refine (ClassCSession_past_start session_request_past booted
            [] [] 1 78 140 197 40 5 210 173 132 0 [] (replicate 242 0) 0
            (Bench.script_at 1000000000 LORAMAC_STATUS_OK 0)
            _ _ _ _ _ _ _ _ _ _ _).
  - reflexivity.
  - repeat constructor; unfold is_byte; lia.
  - cbn; lia.
  - reflexivity.
  - split; [reflexivity | repeat constructor].
  - reflexivity.
  - reflexivity.
  - cbn; lia.
  - cbn; lia.
  - reflexivity.
  - vm_compute. discriminate.
Defined.


(** ** C6: the state of a session record *)

(** C6, as the source has it. The field [SessionState] is declared and
    never written: whatever the package does, handling an indication (a
    class C session request included), the start timer firing, the stop
    timer firing, in any number and order, every record of the session
    table keeps the state it had. The records start as zeros, that is
    [SESSION_STOPED], and so they stay. *)
Theorem session_state_never_changes {W : Type} {PF : Platform W}
    (m m' : machine (W:=W)) :
  rtc package_step m m' ->
  session_states m' = session_states m.
Proof.
  induction 1 as [|m m1 m2 Hstep _ IH]; [reflexivity|].
  rewrite IH. destruct Hstep as [fuel ind m m1 H|m m1 H|m m1 H|m w].
  - eapply indication_keeps; eauto.
  - apply timers_keep; auto.
  - apply timers_keep; auto.
  - reflexivity.
Qed.

(** C6, the theorem at work: a class C session request for group 1 is
    handled, the start timer fires, the stop timer fires. *)
Lemma session_state_never_changes_witness :
  session_states
    (after OnSessionStopTimer
       (after OnSessionStartTimer
          (after (LmhpRemoteMcastSetupOnMcpsIndication 1 session_request_future)
             booted)))
  = [SESSION_STOPED; SESSION_STOPED; SESSION_STOPED; SESSION_STOPED].
Proof.
  refine (session_state_never_changes booted _ _).
  eapply rtc_l;
    [apply (indication_step 1 session_request_future); vm_compute; reflexivity|].
  eapply rtc_l; [apply start_timer_step; vm_compute; reflexivity|].
  eapply rtc_l; [apply stop_timer_step; vm_compute; reflexivity|].
  vm_compute. apply rtc_refl.
Defined.

(** C6 fails as it is stated. A class C session request for group 1 arms
    the start timer; when the timer fires the device is asked to switch to
    class C, and no record of the table is in the state [SESSION_STARTED]. *)
Lemma start_timer_leaves_session_stopped :
  exists m1 m2,
    LmhpRemoteMcastSetupOnMcpsIndication 1 session_request_future booted
    = Ok tt m1 /\
    In (TimerStart SessionStartTimer) (calls m1) /\
    OnSessionStartTimer m1 = Ok tt m2 /\
    In (LmHandlerRequestClass CLASS_C) (calls m2) /\
    session_states m2
    = [SESSION_STOPED; SESSION_STOPED; SESSION_STOPED; SESSION_STOPED] /\
    ~ In SESSION_STARTED (session_states m2).
Proof.
  eexists. eexists.
  split; [vm_compute; reflexivity|].
  split; [cbn; auto|].
  split; [vm_compute; reflexivity|].
  split; [cbn; auto 10|].
  split; [reflexivity|].
  cbn. intros [H|[H|[H|[H|[]]]]]; discriminate H.
Qed.

(** ** C7: the two timers of a session *)




(** ** C8: the answer to a package version request *)

(** C8. The frame is the one byte 0x00. Handling it writes [0x00; 0x02;
    0x01] at the start of the answer buffer, answer opcode, package
    identifier 2 and package version 1, and sends these three bytes as one
    unconfirmed message on port 200. The session table and the world are
    left as they were. The answer buffer must hold three bytes, and the
    loop needs one iteration. *)
Theorem PackageVersion_answer {W : Type} {PF : Platform W}
    (m : machine (W:=W)) (fuel : nat) :
  (1 <= fuel)%nat ->
  (3 <= length (DataBuffer m))%nat ->
  exists m',
    LmhpRemoteMcastSetupOnMcpsIndication fuel
      {| Buffer := [0x00]; BufferSize := 1 |} m = Ok tt m' /\
    calls m' = calls m ++
               [OnSendRequest
                  {| AppBuffer := [0x00; 0x02; 0x01]; AppBufferSize := 3;
                     Port := 200 |}
                  LORAMAC_HANDLER_UNCONFIRMED_MSG] /\
    DataBuffer m' = [0x00; 0x02; 0x01] ++ drop 3 (DataBuffer m) /\
    dataBufferIndex m' = 3 /\
    McSessionData m' = McSessionData m /\
    world m' = world m.
Proof.
  intros Hf Hl. destruct fuel as [|fuel]; [lia|].
  open_machine m.
  destruct buf as [|d0 [|d1 [|d2 rest]]]; cbn [length] in Hl; try lia.
  eexists. split.
  { unfold LmhpRemoteMcastSetupOnMcpsIndication.
    eapply bind_Ok; [reflexivity|]. cbv beta.
    eapply bind_Ok.
    { rewrite decode_loop_step by (cbn; lia).
      eapply bind_Ok.
      { unfold process_command.
        eapply bind_Ok.
        { eapply (next_byte_eq _ _ [] [0] 0%nat);
            [reflexivity|reflexivity|reflexivity|cbn; lia]. }
        cbv beta. dispatch. unfold PackageVersion.
        eapply bind_Ok.
        { eapply (put_eq _ _ []); [reflexivity | reflexivity | cbn; lia]. }
        cbv beta. exec. }
      cbv beta. apply decode_loop_done. cbn. lia. }
    cbv beta. eapply bind_Ok; [apply gets_eq|]. cbv beta.
    lazymatch goal with
    | |- (if ?c then _ else _) _ = _ => replace c with false by reflexivity
    end.
    exec. }
  cbn. repeat split; reflexivity.
Qed.

(** C8, the theorem at work: the machine after start-up, one iteration. *)
Lemma PackageVersion_answer_witness :
  exists m',
    LmhpRemoteMcastSetupOnMcpsIndication 1
      {| Buffer := [0x00]; BufferSize := 1 |} booted = Ok tt m' /\
    calls m' = [OnSendRequest
                  {| AppBuffer := [0x00; 0x02; 0x01]; AppBufferSize := 3;
                     Port := 200 |}
                  LORAMAC_HANDLER_UNCONFIRMED_MSG] /\
    DataBuffer m' = [0x00; 0x02; 0x01] ++ replicate 239 0 /\
    dataBufferIndex m' = 3 /\
    McSessionData m' = replicate 4 Bench.zero_session /\
    world m' = Bench.script_at 1000000000 LORAMAC_STATUS_OK 0.
Proof.
  refine (PackageVersion_answer booted 1 _ _).
  - lia.
  - cbn; lia.
Defined.

(** ** C9: every answer begins with its opcode *)



(** ** C10: the session data is stored before the MAC is asked *)



(** * Further properties of the source *)

(** ** The decode loop *)

(** X1. Every command takes a fixed number of bytes of the frame. With a
    frame memory of at most 255 bytes, a turn of the loop that returns
    has moved [cmdIndex] by 1 for the package version request, 2 for the
    group status request, 30 for a group setup request for one of the four
    groups and 2 for one for a reserved group, 2 for the group delete
    request, 11 for the class C session request, and 1 for the class B
    session request, which is not implemented, and for every other byte. *)
Theorem command_sizes {W : Type} {PF : Platform W}
    ind (m m' : machine (W:=W)) :
  (length (Buffer ind) <= 255)%nat ->
  0 <= cmdIndex m ->
  process_command ind m = Ok tt m' ->
  exists op,
    Buffer ind !! Z.to_nat (cmdIndex m) = Some op /\
    cmdIndex m'
    = cmdIndex m
      + command_size op (default 0 (Buffer ind !! Z.to_nat (cmdIndex m + 1))) /\
    1 <= command_size op (default 0 (Buffer ind !! Z.to_nat (cmdIndex m + 1)))
      <= 30.
Proof.
  intros Hlen Hm Hrun.
  destruct (process_command_advances ind m m' Hlen Hm Hrun) as (op & Hop & Hadv).
  exists op. split; [exact Hop|]. split; [exact Hadv|].
  split; [apply command_size_pos|].
  unfold command_size.
  destruct (SrvCmd_of_byte op) as [[]|]; try lia.
  destruct (LORAMAC_MAX_MC_CTX <=? _); lia.
Qed.

(** X1, the theorem at work: the group setup request for group 1. *)
Lemma command_sizes_witness :
  exists op,
    Buffer setup_request !! Z.to_nat (cmdIndex booted) = Some op /\
    cmdIndex (after (process_command setup_request) booted)
    = cmdIndex booted
      + command_size op
          (default 0 (Buffer setup_request !! Z.to_nat (cmdIndex booted + 1))) /\
    1 <= command_size op
           (default 0 (Buffer setup_request !! Z.to_nat (cmdIndex booted + 1)))
      <= 30.
Proof.
  refine (command_sizes setup_request booted
            (after (process_command setup_request) booted) _ _ _).
  - cbn. lia.
  - cbn. lia.
  - vm_compute. reflexivity.
Defined.

(** X2. The loop ends. With a frame memory of at most 255 bytes the
    handler never runs out of turns when it is given as many as the frame
    has bytes, and more turns do not change what it does: it returns, or
    it stops at an access out of bounds. *)
Theorem indication_terminates {W : Type} {PF : Platform W}
    fuel ind (m : machine (W:=W)) :
  (length (Buffer ind) <= 255)%nat ->
  (Z.to_nat (BufferSize ind) <= fuel)%nat ->
  LmhpRemoteMcastSetupOnMcpsIndication fuel ind m <> Fault OutOfFuel /\
  LmhpRemoteMcastSetupOnMcpsIndication fuel ind m
  = LmhpRemoteMcastSetupOnMcpsIndication (Z.to_nat (BufferSize ind)) ind m.
Proof.
  intros Hlen Hfuel.
  assert (Hne : decode_loop (Z.to_nat (BufferSize ind)) ind
                  (set_dataBufferIndex 0 (set_cmdIndex 0 m)) <> Fault OutOfFuel).
  { apply decode_loop_fuel; [exact Hlen | cbn; lia |].
    cbn [cmdIndex set_dataBufferIndex set_cmdIndex]. rewrite Z.sub_0_r. lia. }
  pose proof (indication_more ind fuel m Hne Hfuel) as Hmore.
  split; [|exact Hmore].
  rewrite Hmore. intros H. apply indication_out_of_fuel in H. contradiction.
Qed.

(** X2, the theorem at work: the class C session request of 11 bytes,
    with 20 turns. *)
Lemma indication_terminates_witness :
  LmhpRemoteMcastSetupOnMcpsIndication 20 session_request_future booted
    <> Fault OutOfFuel /\
  LmhpRemoteMcastSetupOnMcpsIndication 20 session_request_future booted
  = LmhpRemoteMcastSetupOnMcpsIndication
      (Z.to_nat (BufferSize session_request_future)) session_request_future booted.
Proof.
  refine (indication_terminates 20 session_request_future booted _ _).
  - cbn. lia.
  - cbn. lia.
Defined.

(** X3. The loop need not end. [cmdIndex] is a [uint8_t]: when the frame
    has 255 bytes in a memory of 256 or more, its bytes 0 to 253 are
    stepped over (5 or more each), its last byte is the opcode of a group
    setup request and the byte behind the frame is a reserved group (4 or
    more), then the request takes the byte behind the frame, [cmdIndex]
    wraps to 0 and the loop starts again: no number of turns is enough. *)
Theorem indication_never_ends {W : Type} {PF : Platform W}
    fuel ind (m : machine (W:=W)) front id rest :
  Buffer ind = front ++ [0x02; id] ++ rest ->
  length front = 254%nat ->
  Forall (fun b => 5 <= b) front ->
  4 <= id ->
  BufferSize ind = 255 ->
  LmhpRemoteMcastSetupOnMcpsIndication fuel ind m = Fault OutOfFuel.
Proof.
  intros HB Hfront H5 Hid Hsize.
  apply indication_fault.
  assert (Hloop : forall fuel m, 0 <= cmdIndex m <= 254 ->
                    decode_loop fuel ind m = Fault OutOfFuel).
  { clear fuel m. induction fuel as [|fuel IH]; intros m Hm.
    - cbn. rewrite Hsize.
      destruct (Z.ltb_spec (cmdIndex m) 255); [reflexivity|lia].
    - rewrite decode_loop_step by lia.
      destruct (Z.eq_dec (cmdIndex m) 254) as [E|E].
      + eapply bind_Ok.
        * apply (process_command_reserved_group ind m id).
          -- rewrite HB, E, lookup_app_r by lia. now rewrite Hfront.
          -- rewrite HB, E. change (Z.to_nat (uint8_t (254 + 1))) with 255%nat.
             rewrite lookup_app_r by lia. now rewrite Hfront.
          -- exact Hid.
        * cbv beta. apply IH. cbn [cmdIndex set_cmdIndex]. rewrite E.
          change (uint8_t (uint8_t (254 + 1) + 1)) with 0. lia.
      + destruct (lookup_lt_is_Some_2 front (Z.to_nat (cmdIndex m))) as [b Hb];
          [lia|].
        eapply bind_Ok.
        * apply (process_command_skip ind m b).
          -- rewrite HB, lookup_app_l by lia. exact Hb.
          -- rewrite Forall_lookup in H5. exact (H5 _ _ Hb).
        * cbv beta. apply IH. cbn [cmdIndex set_cmdIndex].
          rewrite uint8_t_small by lia. lia. }
  apply Hloop. cbn. lia.
Qed.

(** X3, the theorem at work: 254 class B session requests, the opcode
    0x02 and the group 4, with a thousand turns. *)
Lemma indication_never_ends_witness :
  LmhpRemoteMcastSetupOnMcpsIndication 1000 frame_wrapping booted
  = Fault OutOfFuel.
Proof.
  refine (indication_never_ends 1000 frame_wrapping booted
            (replicate 254 0x05) 4 [] _ _ _ _ _).
  - reflexivity.
  - reflexivity.
  - apply Forall_replicate. lia.
  - lia.
  - reflexivity.
Defined.

(** X4. The handler sends at most one answer, and it sends it last. In a
    run that returns, the calls made are calls that set and start the
    session start timer, followed, when [dataBufferIndex] is not 0, by
    one [OnSendRequest] of the first [dataBufferIndex] bytes of the answer
    buffer on port 200, unconfirmed; no answer is sent when
    [dataBufferIndex] is 0. The answer buffer keeps its size. *)
Theorem indication_sends_once {W : Type} {PF : Platform W}
    fuel ind (m m' : machine (W:=W)) :
  LmhpRemoteMcastSetupOnMcpsIndication fuel ind m = Ok tt m' ->
  exists timers,
    Forall start_timer_call timers /\
    calls m'
    = calls m ++ timers ++
      (if dataBufferIndex m' =? 0 then []
       else [OnSendRequest
               {| AppBuffer := take (Z.to_nat (dataBufferIndex m')) (DataBuffer m');
                  AppBufferSize := dataBufferIndex m';
                  Port := 200 |}
               LORAMAC_HANDLER_UNCONFIRMED_MSG]) /\
    length (DataBuffer m') = length (DataBuffer m).
Proof.
  intros H. apply indication_inv in H as (m1 & Hloop & ->).
  apply decode_loop_quiet in Hloop as ((l & Hl & Fl) & Hlen & _).
  cbn [calls DataBuffer set_dataBufferIndex set_cmdIndex] in Hl, Hlen.
  exists l. split; [exact Fl|].
  destruct (dataBufferIndex m1 =? 0) eqn:E.
  - rewrite E, app_nil_r. auto.
  - cbn [calls DataBuffer dataBufferIndex set_calls]. rewrite E, Hl, app_assoc.
    auto.
Qed.

(** X4, the theorem at work: the class C session request for group 1
    arms the start timer, and its answer of five bytes is sent. *)
Lemma indication_sends_once_witness :
  exists timers,
    Forall start_timer_call timers /\
    calls (after (LmhpRemoteMcastSetupOnMcpsIndication 11 session_request_future)
             booted)
    = calls booted ++ timers ++
      [OnSendRequest
         {| AppBuffer := [0x04; 0; 50; 0; 0]; AppBufferSize := 5; Port := 200 |}
         LORAMAC_HANDLER_UNCONFIRMED_MSG] /\
    length (DataBuffer
              (after (LmhpRemoteMcastSetupOnMcpsIndication 11 session_request_future)
                 booted))
    = length (DataBuffer booted).
Proof.
  refine (indication_sends_once 11 session_request_future booted
            (after (LmhpRemoteMcastSetupOnMcpsIndication 11 session_request_future)
               booted) _).
  vm_compute. reflexivity.
Defined.

(** ** The session table *)

(** X5. The session table stays well formed. Whatever the package does
    (indications, the two timers, in any number and order), a table of
    four records whose keys have 16 bytes and whose timeouts are of four
    bits, as the zero-initialised one is, is still such a table. *)
Theorem session_table_stays_well_formed {W : Type} {PF : Platform W}
    (m m' : machine (W:=W)) :
  rtc package_step m m' ->
  table_wf (McSessionData m) ->
  timeouts_ok (McSessionData m) ->
  table_wf (McSessionData m') /\ timeouts_ok (McSessionData m').
Proof. apply package_steps_table. Qed.

(** X5, the theorem at work: the class C session request for group 0
    with the timeout exponent 9 is handled, and the start timer fires. *)
Lemma session_table_stays_well_formed_witness :
  table_wf
    (McSessionData
       (after OnSessionStartTimer
          (after (LmhpRemoteMcastSetupOnMcpsIndication 11 session_request_in_an_hour)
             booted))) /\
  timeouts_ok
    (McSessionData
       (after OnSessionStartTimer
          (after (LmhpRemoteMcastSetupOnMcpsIndication 11 session_request_in_an_hour)
             booted))).
Proof.
  refine (session_table_stays_well_formed booted
            (after OnSessionStartTimer
               (after (LmhpRemoteMcastSetupOnMcpsIndication 11
                         session_request_in_an_hour) booted)) _ _ _).
  - eapply rtc_l.
    { apply (indication_step 11 session_request_in_an_hour booted
               (after (LmhpRemoteMcastSetupOnMcpsIndication 11
                         session_request_in_an_hour) booted)).
      vm_compute. reflexivity. }
    apply rtc_once. apply start_timer_step. vm_compute. reflexivity.
  - apply table_wf_boot.
  - apply timeouts_ok_boot.
Defined.

(** X6. In every state the package can reach from a well-formed table,
    the start timer callback returns, and the stop timer it arms runs for
    2^k seconds with k, the timeout of slot 0, from 0 to 15: between one
    second and 32768 seconds, with no wrap of the 32-bit value in
    milliseconds. *)
Theorem stop_timer_duration {W : Type} {PF : Platform W}
    (m m' : machine (W:=W)) :
  rtc package_step m m' ->
  table_wf (McSessionData m) ->
  timeouts_ok (McSessionData m) ->
  exists r m'',
    McSessionData m' !! 0%nat = Some r /\
    0 <= SessionTimeout r <= 15 /\
    OnSessionStartTimer m' = Ok tt m'' /\
    calls m'' = calls m' ++
                [TimerStop SessionStartTimer; LmHandlerRequestClass CLASS_C;
                 TimerSetValue SessionStopTimer (2 ^ SessionTimeout r * 1000);
                 TimerStart SessionStopTimer] /\
    1000 <= 2 ^ SessionTimeout r * 1000 <= 32768000.
Proof.
  intros Hsteps Hwf Hto.
  destruct (package_steps_table m m' Hsteps Hwf Hto) as [Hwf' Hto'].
  destruct (table_slot _ 0 Hwf' ltac:(lia)) as (r & Hr & _).
  change (Z.to_nat 0) with 0%nat in Hr.
  assert (Hk : 0 <= SessionTimeout r <= 15).
  { unfold timeouts_ok in Hto'. rewrite Forall_lookup in Hto'. exact (Hto' _ _ Hr). }
  assert (Hpow : 1 <= 2 ^ SessionTimeout r <= 2 ^ 15).
  { split; [apply (Z.pow_le_mono_r 2 0); lia | apply Z.pow_le_mono_r; lia]. }
  exists r. eexists.
  split; [exact Hr|]. split; [exact Hk|].
  split; [apply OnSessionStartTimer_eq; exact Hr|].
  split; [|lia].
  cbn [calls set_calls].
  rewrite Z.shiftl_mul_pow2, Z.mul_1_l by lia.
  rewrite uint32_t_small by lia. reflexivity.
Qed.

(** X6, the theorem at work: after the class C session request for group
    0 with the timeout exponent 9. *)
Lemma stop_timer_duration_witness :
  exists r m'',
    McSessionData
      (after (LmhpRemoteMcastSetupOnMcpsIndication 11 session_request_in_an_hour)
         booted) !! 0%nat = Some r /\
    0 <= SessionTimeout r <= 15 /\
    OnSessionStartTimer
      (after (LmhpRemoteMcastSetupOnMcpsIndication 11 session_request_in_an_hour)
         booted) = Ok tt m'' /\
    calls m''
    = calls (after (LmhpRemoteMcastSetupOnMcpsIndication 11
                      session_request_in_an_hour) booted) ++
      [TimerStop SessionStartTimer; LmHandlerRequestClass CLASS_C;
       TimerSetValue SessionStopTimer (2 ^ SessionTimeout r * 1000);
       TimerStart SessionStopTimer] /\
    1000 <= 2 ^ SessionTimeout r * 1000 <= 32768000.
Proof.
  refine (stop_timer_duration booted
            (after (LmhpRemoteMcastSetupOnMcpsIndication 11
                      session_request_in_an_hour) booted) _ _ _).
  - apply rtc_once.
    apply (indication_step 11 session_request_in_an_hour).
    vm_compute. reflexivity.
  - apply table_wf_boot.
  - apply timeouts_ok_boot.
Defined.

(** ** The commands *)

(** X7. The group delete request. The group is the low two bits of the
    byte that follows the opcode, so that a byte from 4 to 255 names one
    of the four groups; the MAC is asked to delete that group, and the
    answer is the opcode 0x03 and one byte, the group, with the bit 0x04
    set when the MAC refuses. The session table of the package is left as
    it was, also when the MAC has deleted the group; no call is made. *)
Theorem GroupDelete_answer {W : Type} {PF : Platform W}
    ind (m : machine (W:=W)) pre post idb out free st w' :
  let id := Z.land idb 0x03 in
  Buffer ind = pre ++ [0x03; idb] ++ post ->
  (length pre + 2 <= 255)%nat ->
  cmdIndex m = Z.of_nat (length pre) ->
  DataBuffer m = out ++ free ->
  dataBufferIndex m = Z.of_nat (length out) ->
  (2 <= length free)%nat ->
  (length out + 2 <= 255)%nat ->
  LoRaMacMcChannelDelete id (world m) = (st, w') ->
  exists m',
    process_command ind m = Ok tt m' /\
    DataBuffer m'
    = out ++ [0x03; match st with
                    | LORAMAC_STATUS_OK => id
                    | LORAMAC_STATUS_NOT_OK => id + 4
                    end] ++ drop 2 free /\
    dataBufferIndex m' = Z.of_nat (length out + 2) /\
    cmdIndex m' = Z.of_nat (length pre + 2) /\
    world m' = w' /\
    McSessionData m' = McSessionData m /\
    calls m' = calls m.
Proof.
  intros id HB Hpre Hc HD Hdi Hfree Hout Hmac.
  eexists. split.
  { eapply GroupDelete_exec; eauto. }
  cbn [DataBuffer dataBufferIndex cmdIndex world McSessionData calls].
  repeat split; reflexivity.
Qed.

(** X7, the theorem at work: the group byte 7 deletes group 3, and the
    MAC that refuses every request is answered by [0x03; 7]. *)
Lemma GroupDelete_answer_witness :
  exists m',
    process_command delete_request_7 booted_refusing = Ok tt m' /\
    DataBuffer m' = [0x03; 7] ++ replicate 240 0 /\
    dataBufferIndex m' = 2 /\
    cmdIndex m' = 2 /\
    world m' = world booted_refusing /\
    McSessionData m' = McSessionData booted_refusing /\
    calls m' = calls booted_refusing.
Proof.
  refine (GroupDelete_answer delete_request_7 booted_refusing [] [] 7
            [] (replicate 242 0) LORAMAC_STATUS_NOT_OK (world booted_refusing)
            _ _ _ _ _ _ _ _).
  - reflexivity.
  - cbn; lia.
  - reflexivity.
  - reflexivity.
  - reflexivity.
  - cbn; lia.
  - cbn; lia.
  - reflexivity.
Defined.

(** X8. The group status request, for every request mask and every
    channel list of the MAC, with room for 22 bytes in the answer buffer.
    Slot [i] is answered when bit [3 - i] of the
    request byte is set and the address of the MAC's channel [i] is not 0;
    the high four bits of the request byte are not read. The answer is the
    opcode 0x01, the status byte (4 groups in bits 4 to 6, the answered
    slots 0, 1, 2, 3 in bits 3, 2, 1, 0) and, slot 0 first, the five bytes
    of every answered slot: 2 + 5n bytes for n answered slots. The session
    table, the world and the calls are left as they were. *)
Theorem GroupStatus_answer_any_request {W : Type} {PF : Platform W}
    ind (m : machine (W:=W)) pre post req out free :
  let Ctx := MulticastChannelList (world m) in
  let asked i := Z.testbit req (3 - Z.of_nat i) && negb (Address (Ctx i) =? 0) in
  let group i := if asked i then group_bytes (Ctx i) else [] in
  let status := 64 + 8 * Z.b2z (asked 0%nat) + 4 * Z.b2z (asked 1%nat)
                + 2 * Z.b2z (asked 2%nat) + Z.b2z (asked 3%nat) in
  let ans := [0x01; status] ++ group 0%nat ++ group 1%nat ++ group 2%nat
             ++ group 3%nat in
  Buffer ind = pre ++ [0x01; req] ++ post ->
  (length pre + 2 <= 255)%nat ->
  cmdIndex m = Z.of_nat (length pre) ->
  DataBuffer m = out ++ free ->
  dataBufferIndex m = Z.of_nat (length out) ->
  (22 <= length free)%nat ->
  (length out + 22 <= 255)%nat ->
  exists m',
    process_command ind m = Ok tt m' /\
    DataBuffer m' = out ++ ans ++ drop (length ans) free /\
    dataBufferIndex m' = Z.of_nat (length out + length ans) /\
    length ans
    = (2 + 5 * length (filter (fun i => asked i = true) [0; 1; 2; 3]))%nat /\
    McSessionData m' = McSessionData m /\
    world m' = world m /\
    calls m' = calls m.
Proof.
  intros Ctx asked group status ans HB Hpre Hc HD Hdi Hfree Hout.
  eexists. split.
  { eapply GroupStatus_exec; eauto. }
  cbn [DataBuffer dataBufferIndex world McSessionData calls].
  fold Ctx. fold asked. fold group. fold status. fold ans.
  repeat split; try reflexivity.
  subst ans group. rewrite !length_app. cbn [length].
  rewrite !filter_cons, filter_nil.
  destruct (asked 0%nat), (asked 1%nat), (asked 2%nat), (asked 3%nat);
    reflexivity.
Qed.

(** X8, the theorem at work: groups 0 and 2 are set up in the MAC, the
    request asks for groups 0 and 1 and has a reserved bit set; group 0
    alone is answered. *)
Lemma GroupStatus_answer_any_request_witness :
  exists m',
    process_command status_request_0_and_1 (Bench.boot groups_0_and_2)
    = Ok tt m' /\
    DataBuffer m' = [0x01; 0x48; 0; 0x44; 0x33; 0x22; 0x11] ++ replicate 235 0 /\
    dataBufferIndex m' = 7 /\
    length [0x01; 0x48; 0; 0x44; 0x33; 0x22; 0x11] = 7%nat /\
    McSessionData m' = McSessionData (Bench.boot groups_0_and_2) /\
    world m' = groups_0_and_2 /\
    calls m' = [].
Proof.
  refine (GroupStatus_answer_any_request status_request_0_and_1
            (Bench.boot groups_0_and_2) [] [] 0x8C [] (replicate 242 0)
            _ _ _ _ _ _ _).
  - reflexivity.
  - cbn; lia.
  - reflexivity.
  - reflexivity.
  - reflexivity.
  - cbn; lia.
  - cbn; lia.
Defined.

(** X9. The group setup request that the MAC refuses. The answer is the
    opcode 0x02 and the group with the bit 0x04 set, and the fields of the
    request stay in the slot of the group: they are written before the MAC
    is asked and are not taken back. *)
Theorem GroupSetup_refused_keeps_request {W : Type} {PF : Platform W}
    ind (m : machine (W:=W)) pre post id a0 a1 a2 a3 key n0 n1 n2 n3 x0 x1 x2 x3
    out free w' :
  let cmd := 0x02 :: id :: a0 :: a1 :: a2 :: a3 ::
             key ++ [n0; n1; n2; n3; x0; x1; x2; x3] in
  Buffer ind = pre ++ cmd ++ post ->
  Forall is_byte cmd ->
  length key = 16%nat ->
  (length pre + 30 <= 255)%nat ->
  cmdIndex m = Z.of_nat (length pre) ->
  id < 4 ->
  table_wf (McSessionData m) ->
  DataBuffer m = out ++ free ->
  dataBufferIndex m = Z.of_nat (length out) ->
  (2 <= length free)%nat ->
  (length out + 2 <= 255)%nat ->
  LoRaMacMcChannelSetup
    (GroupSetup_channel id a0 a1 a2 a3 key n0 n1 n2 n3 x0 x1 x2 x3) (world m)
  = (LORAMAC_STATUS_NOT_OK, w') ->
  exists m' r,
    process_command ind m = Ok tt m' /\
    DataBuffer m' = out ++ [0x02; id + 4] ++ drop 2 free /\
    McSessionData m' !! Z.to_nat id = Some r /\
    IdHeader_Value (McGroupData r) = id /\
    McAddr (McGroupData r) = le32 a0 a1 a2 a3 /\
    McKeyEncrypted (McGroupData r) = key /\
    McFCountMin (McGroupData r) = le32 n0 n1 n2 n3 /\
    McFCountMax (McGroupData r) = le32 x0 x1 x2 x3 /\
    calls m' = calls m.
Proof.
  intros cmd HB Hbytes Hkey Hpre Hc Hid Hwf HD Hdi Hfree Hout Hmac.
  assert (Hid0 : 0 <= id < 4).
  { subst cmd. inversion Hbytes as [|? ? _ Hb1]; subst.
    inversion Hb1 as [|? ? Hb _]. unfold is_byte in Hb. lia. }
  destruct (table_slot _ id Hwf Hid0) as (r0 & Hr0 & Hk0).
  pose proof (GroupSetup_exec ind m pre post id a0 a1 a2 a3 key n0 n1 n2 n3
                x0 x1 x2 x3 out free r0 LORAMAC_STATUS_NOT_OK w'
                HB Hbytes Hkey Hpre Hc Hid Hr0 Hk0 HD Hdi Hfree Hout Hmac)
    as Hrun.
  cbn zeta in Hrun.
  eexists. eexists. split; [exact Hrun|].
  cbn [McSessionData DataBuffer calls GroupSetup_status].
  split.
  { do 3 f_equal.
    assert (id = 0 \/ id = 1 \/ id = 2 \/ id = 3) as [->|[->|[->| ->]]] by lia;
      reflexivity. }
  split; [apply list_lookup_insert_eq; eapply lookup_lt_Some; eauto|].
  repeat split; reflexivity.
Qed.

(** X9, the theorem at work: the MAC refuses the setup of group 1; the
    answer is [0x02; 5] and slot 1 holds the address and the key. *)
Lemma GroupSetup_refused_keeps_request_witness :
  exists m' r,
    process_command setup_request booted_refusing = Ok tt m' /\
    DataBuffer m' = [0x02; 5] ++ replicate 240 0 /\
    McSessionData m' !! 1%nat = Some r /\
    IdHeader_Value (McGroupData r) = 1 /\
    McAddr (McGroupData r) = 0x11223344 /\
    McKeyEncrypted (McGroupData r) = setup_key /\
    McFCountMin (McGroupData r) = 0 /\
    McFCountMax (McGroupData r) = 65535 /\
    calls m' = [].
Proof.
  refine (GroupSetup_refused_keeps_request setup_request booted_refusing [] []
            1 0x44 0x33 0x22 0x11 setup_key 0 0 0 0 0xFF 0xFF 0 0
            [] (replicate 242 0) (world booted_refusing)
            _ _ _ _ _ _ _ _ _ _ _ _).
  - reflexivity.
  - repeat constructor; unfold is_byte; lia.
  - reflexivity.
  - cbn; lia.
  - reflexivity.
  - lia.
  - apply table_wf_boot.
  - reflexivity.
  - reflexivity.
  - cbn; lia.
  - cbn; lia.
  - reflexivity.
Defined.

(** X10. The group setup request writes the group data of its slot and
    nothing else of the table: whatever the MAC answers, the other three
    records are the ones from before, and the record of the group keeps
    its session state, session time, timeout and receive parameters. *)
Theorem GroupSetup_writes_group_data_only {W : Type} {PF : Platform W}
    ind (m : machine (W:=W)) pre post id a0 a1 a2 a3 key n0 n1 n2 n3 x0 x1 x2 x3
    out free :
  let cmd := 0x02 :: id :: a0 :: a1 :: a2 :: a3 ::
             key ++ [n0; n1; n2; n3; x0; x1; x2; x3] in
  Buffer ind = pre ++ cmd ++ post ->
  Forall is_byte cmd ->
  length key = 16%nat ->
  (length pre + 30 <= 255)%nat ->
  cmdIndex m = Z.of_nat (length pre) ->
  id < 4 ->
  table_wf (McSessionData m) ->
  DataBuffer m = out ++ free ->
  dataBufferIndex m = Z.of_nat (length out) ->
  (2 <= length free)%nat ->
  (length out + 2 <= 255)%nat ->
  exists m' r0 r,
    process_command ind m = Ok tt m' /\
    McSessionData m !! Z.to_nat id = Some r0 /\
    McSessionData m' !! Z.to_nat id = Some r /\
    SessionState r = SessionState r0 /\
    SessionTime r = SessionTime r0 /\
    SessionTimeout r = SessionTimeout r0 /\
    RxParams r = RxParams r0 /\
    (forall j, j <> Z.to_nat id ->
               McSessionData m' !! j = McSessionData m !! j) /\
    length (McSessionData m') = length (McSessionData m).
Proof.
  intros cmd HB Hbytes Hkey Hpre Hc Hid Hwf HD Hdi Hfree Hout.
  assert (Hid0 : 0 <= id < 4).
  { subst cmd. inversion Hbytes as [|? ? _ Hb1]; subst.
    inversion Hb1 as [|? ? Hb _]. unfold is_byte in Hb. lia. }
  destruct (table_slot _ id Hwf Hid0) as (r0 & Hr0 & Hk0).
  destruct (LoRaMacMcChannelSetup
              (GroupSetup_channel id a0 a1 a2 a3 key n0 n1 n2 n3 x0 x1 x2 x3)
              (world m)) as [st w'] eqn:Hmac.
  pose proof (GroupSetup_exec ind m pre post id a0 a1 a2 a3 key n0 n1 n2 n3
                x0 x1 x2 x3 out free r0 st w'
                HB Hbytes Hkey Hpre Hc Hid Hr0 Hk0 HD Hdi Hfree Hout Hmac)
    as Hrun.
  cbn zeta in Hrun.
  eexists. exists r0. eexists. split; [exact Hrun|].
  cbn [McSessionData].
  split; [exact Hr0|].
  split; [apply list_lookup_insert_eq; eapply lookup_lt_Some; eauto|].
  cbn [GroupSetup_record SessionState SessionTime SessionTimeout RxParams].
  repeat split; try reflexivity.
  - intros j Hj. apply list_lookup_insert_ne. congruence.
  - apply length_insert.
Qed.

(** X10, the theorem at work: the setup of group 1 on the machine after
    start-up. *)
Lemma GroupSetup_writes_group_data_only_witness :
  exists m' r0 r,
    process_command setup_request booted = Ok tt m' /\
    McSessionData booted !! 1%nat = Some r0 /\
    McSessionData m' !! 1%nat = Some r /\
    SessionState r = SessionState r0 /\
    SessionTime r = SessionTime r0 /\
    SessionTimeout r = SessionTimeout r0 /\
    RxParams r = RxParams r0 /\
    (forall j, j <> 1%nat ->
               McSessionData m' !! j = McSessionData booted !! j) /\
    length (McSessionData m') = length (McSessionData booted).
Proof.
  refine (GroupSetup_writes_group_data_only setup_request booted [] []
            1 0x44 0x33 0x22 0x11 setup_key 0 0 0 0 0xFF 0xFF 0 0
            [] (replicate 242 0) _ _ _ _ _ _ _ _ _ _ _).
  - reflexivity.
  - repeat constructor; unfold is_byte; lia.
  - reflexivity.
  - cbn; lia.
  - reflexivity.
  - lia.
  - apply table_wf_boot.
  - reflexivity.
  - reflexivity.
  - cbn; lia.
  - cbn; lia.
Defined.

(** X11. The class C session request that the MAC refuses. The answer is
    the opcode 0x04 and the status the MAC has written, one byte; no
    timer is set or started, whatever the session time of the request. *)
Theorem ClassCSession_refused {W : Type} {PF : Platform W}
    ind (m : machine (W:=W)) pre post idb t0 t1 t2 t3 to f0 f1 f2 dr out free
    status w' :
  let cmd := [0x04; idb; t0; t1; t2; t3; to; f0; f1; f2; dr] in
  let id := Z.land idb 0x03 in
  Buffer ind = pre ++ cmd ++ post ->
  Forall is_byte cmd ->
  (length pre + 11 <= 255)%nat ->
  cmdIndex m = Z.of_nat (length pre) ->
  table_wf (McSessionData m) ->
  DataBuffer m = out ++ free ->
  dataBufferIndex m = Z.of_nat (length out) ->
  (5 <= length free)%nat ->
  (length out + 5 <= 255)%nat ->
  LoRaMacMcChannelSetupRxParams id
    {| Frequency := le24 f0 f1 f2 * 100; Datarate := dr |} 0x00 (world m)
  = (LORAMAC_STATUS_NOT_OK, status, w') ->
  exists m',
    process_command ind m = Ok tt m' /\
    DataBuffer m' = out ++ [0x04; uint8_t status] ++ drop 2 free /\
    dataBufferIndex m' = Z.of_nat (length out + 2) /\
    calls m' = calls m /\
    world m' = w'.
Proof.
  intros cmd id HB Hbytes Hpre Hc Hwf HD Hdi Hfree Hout Hmac.
  destruct (table_slot _ id Hwf (land_3_range idb)) as (r0 & Hr0 & _).
  pose proof (ClassCSession_exec ind m pre post idb t0 t1 t2 t3 to f0 f1 f2 dr
                out free r0 LORAMAC_STATUS_NOT_OK status w'
                HB Hbytes Hpre Hc Hr0 HD Hdi Hfree Hout Hmac) as Hrun.
  cbn zeta in Hrun.
  eexists. split; [exact Hrun|].
  cbn [DataBuffer dataBufferIndex calls world ClassC_answer ClassC_calls length].
  rewrite app_nil_r. repeat split; reflexivity.
Qed.

(** X11, the theorem at work: the MAC refuses the request whose start is
    50 s ahead and writes the status 0x1D. *)
Lemma ClassCSession_refused_witness :
  exists m',
    process_command session_request_future booted_refusing = Ok tt m' /\
    DataBuffer m' = [0x04; 0x1D] ++ replicate 240 0 /\
    dataBufferIndex m' = 2 /\
    calls m' = [] /\
    world m' = world booted_refusing.
Proof.
  refine (ClassCSession_refused session_request_future booted_refusing [] []
            1 178 140 197 40 5 210 173 132 0 [] (replicate 242 0)
            0x1D (world booted_refusing) _ _ _ _ _ _ _ _ _ _).
  - reflexivity.
  - repeat constructor; unfold is_byte; lia.
  - cbn; lia.
  - reflexivity.
  - apply table_wf_boot.
  - reflexivity.
  - reflexivity.
  - cbn; lia.
  - cbn; lia.
  - reflexivity.
Defined.

(** X12. The time to the start of a session, for every start that is
    ahead. When the MAC accepts the request and the time to start [tts],
    the GPS session time minus the GPS time of the system as an
    [int32_t], is from 1 s to 2147483 s (the product in milliseconds fits
    an [int]), the start timer is set to [tts * 1000] ms and started, and
    the answer is the opcode 0x04, the status byte and three bytes that
    are [tts], low byte first. *)
Theorem ClassCSession_time_to_start {W : Type} {PF : Platform W}
    ind (m : machine (W:=W)) pre post idb t0 t1 t2 t3 to f0 f1 f2 dr out free
    status w' :
  let cmd := [0x04; idb; t0; t1; t2; t3; to; f0; f1; f2; dr] in
  let id := Z.land idb 0x03 in
  let sessionTimeGps := uint32_t (le32 t0 t1 t2 t3 + UNIX_GPS_EPOCH_OFFSET) in
  let tts := int32_t (sessionTimeGps - Seconds (SysTimeGet w')) in
  Buffer ind = pre ++ cmd ++ post ->
  Forall is_byte cmd ->
  (length pre + 11 <= 255)%nat ->
  cmdIndex m = Z.of_nat (length pre) ->
  table_wf (McSessionData m) ->
  DataBuffer m = out ++ free ->
  dataBufferIndex m = Z.of_nat (length out) ->
  (5 <= length free)%nat ->
  (length out + 5 <= 255)%nat ->
  LoRaMacMcChannelSetupRxParams id
    {| Frequency := le24 f0 f1 f2 * 100; Datarate := dr |} 0x00 (world m)
  = (LORAMAC_STATUS_OK, status, w') ->
  0 < tts <= 2147483 ->
  exists m' b0 b1 b2,
    process_command ind m = Ok tt m' /\
    calls m' = calls m ++ [TimerSetValue SessionStartTimer (tts * 1000);
                           TimerStart SessionStartTimer] /\
    DataBuffer m' = out ++ [0x04; uint8_t status; b0; b1; b2] ++ drop 5 free /\
    is_byte b0 /\ is_byte b1 /\ is_byte b2 /\
    le24 b0 b1 b2 = tts.
Proof.
  intros cmd id gps tts HB Hbytes Hpre Hc Hwf HD Hdi Hfree Hout Hmac Htts.
  destruct (table_slot _ id Hwf (land_3_range idb)) as (r0 & Hr0 & _).
  pose proof (ClassCSession_exec ind m pre post idb t0 t1 t2 t3 to f0 f1 f2 dr
                out free r0 LORAMAC_STATUS_OK status w'
                HB Hbytes Hpre Hc Hr0 HD Hdi Hfree Hout Hmac) as Hrun.
  cbn zeta in Hrun. cbn [ClassC_record SessionTime] in Hrun.
  fold gps in Hrun. fold tts in Hrun.
  unfold ClassC_answer, ClassC_calls in Hrun.
  destruct (Z.ltb_spec 0 tts) as [_|Hle]; [|lia].
  eexists. exists (Z.land (Z.shiftr tts 0) 0xFF), (Z.land (Z.shiftr tts 8) 0xFF),
    (Z.land (Z.shiftr tts 16) 0xFF).
  split; [exact Hrun|].
  cbn [calls DataBuffer length].
  rewrite uint32_t_small by lia.
  split; [reflexivity|]. split; [reflexivity|].
  split; [apply land_byte_range|]. split; [apply land_byte_range|].
  split; [apply land_byte_range|].
  apply le24_bytes. lia.
Qed.

(** X12, the theorem at work: at GPS time 1000000000 a request for group
    0 whose start is an hour ahead; the three bytes are 3600, low byte
    first. *)
Lemma ClassCSession_time_to_start_witness :
  exists m' b0 b1 b2,
    process_command session_request_in_an_hour booted = Ok tt m' /\
    calls m' = calls booted ++ [TimerSetValue SessionStartTimer (3600 * 1000);
                                TimerStart SessionStartTimer] /\
    DataBuffer m' = [] ++ [0x04; uint8_t 0; b0; b1; b2]
                       ++ drop 5 (replicate 242 0) /\
    is_byte b0 /\ is_byte b1 /\ is_byte b2 /\
    le24 b0 b1 b2 = 3600.
Proof.
  refine (ClassCSession_time_to_start session_request_in_an_hour booted [] []
            0 144 154 197 40 9 210 173 132 0 [] (replicate 242 0)
            0 (world booted) _ _ _ _ _ _ _ _ _ _ _).
  - reflexivity.
  - repeat constructor; unfold is_byte; lia.
  - cbn; lia.
  - reflexivity.
  - apply table_wf_boot.
  - reflexivity.
  - reflexivity.
  - cbn; lia.
  - cbn; lia.
  - reflexivity.
  - vm_compute. split; [reflexivity | discriminate].
Defined.

(** X13. The class C session request writes the session data of its slot
    and nothing else of the table: whatever the MAC answers, the other
    three records are the ones from before, and the record of the group
    keeps its group data (group, address, key, frame counters) and its
    session state. *)
Theorem ClassCSession_writes_session_data_only {W : Type} {PF : Platform W}
    ind (m : machine (W:=W)) pre post idb t0 t1 t2 t3 to f0 f1 f2 dr out free :
  let cmd := [0x04; idb; t0; t1; t2; t3; to; f0; f1; f2; dr] in
  let id := Z.land idb 0x03 in
  Buffer ind = pre ++ cmd ++ post ->
  Forall is_byte cmd ->
  (length pre + 11 <= 255)%nat ->
  cmdIndex m = Z.of_nat (length pre) ->
  table_wf (McSessionData m) ->
  DataBuffer m = out ++ free ->
  dataBufferIndex m = Z.of_nat (length out) ->
  (5 <= length free)%nat ->
  (length out + 5 <= 255)%nat ->
  exists m' r0 r,
    process_command ind m = Ok tt m' /\
    McSessionData m !! Z.to_nat id = Some r0 /\
    McSessionData m' !! Z.to_nat id = Some r /\
    McGroupData r = McGroupData r0 /\
    SessionState r = SessionState r0 /\
    (forall j, j <> Z.to_nat id ->
               McSessionData m' !! j = McSessionData m !! j) /\
    length (McSessionData m') = length (McSessionData m).
Proof.
  intros cmd id HB Hbytes Hpre Hc Hwf HD Hdi Hfree Hout.
  destruct (table_slot _ id Hwf (land_3_range idb)) as (r0 & Hr0 & _).
  destruct (LoRaMacMcChannelSetupRxParams id
              {| Frequency := le24 f0 f1 f2 * 100; Datarate := dr |} 0x00
              (world m)) as [[st status] w'] eqn:Hmac.
  pose proof (ClassCSession_exec ind m pre post idb t0 t1 t2 t3 to f0 f1 f2 dr
                out free r0 st status w'
                HB Hbytes Hpre Hc Hr0 HD Hdi Hfree Hout Hmac) as Hrun.
  cbn zeta in Hrun.
  eexists. exists r0. eexists. split; [exact Hrun|].
  cbn [McSessionData].
  split; [exact Hr0|].
  split; [apply list_lookup_insert_eq; eapply lookup_lt_Some; eauto|].
  cbn [ClassC_record McGroupData SessionState].
  repeat split; try reflexivity.
  - intros j Hj. apply list_lookup_insert_ne. intros E. apply Hj. now rewrite <- E.
  - apply length_insert.
Qed.

(** X13, the theorem at work: the session request for group 0 on the
    machine after start-up. *)
Lemma ClassCSession_writes_session_data_only_witness :
  exists m' r0 r,
    process_command session_request_in_an_hour booted = Ok tt m' /\
    McSessionData booted !! 0%nat = Some r0 /\
    McSessionData m' !! 0%nat = Some r /\
    McGroupData r = McGroupData r0 /\
    SessionState r = SessionState r0 /\
    (forall j, j <> 0%nat ->
               McSessionData m' !! j = McSessionData booted !! j) /\
    length (McSessionData m') = length (McSessionData booted).
Proof.
  refine (ClassCSession_writes_session_data_only session_request_in_an_hour
            booted [] [] 0 144 154 197 40 9 210 173 132 0
            [] (replicate 242 0) _ _ _ _ _ _ _ _ _).
  - reflexivity.
  - repeat constructor; unfold is_byte; lia.
  - cbn; lia.
  - reflexivity.
  - apply table_wf_boot.
  - reflexivity.
  - reflexivity.
  - cbn; lia.
  - cbn; lia.
Defined.

(** ** Whole frames *)

(** X14. Bytes that are no request are stepped over. A frame all of whose
    bytes are 5 or more (the class B session request 0x05, which is not
    implemented, and the bytes that are no opcode), the empty frame
    included, is read to its end one byte at a time; nothing is written
    to the answer buffer, no answer is sent, and the session table, the
    world and the calls are as before: only the two indices of the
    handler have changed. *)
Theorem unknown_requests_are_skipped {W : Type} {PF : Platform W}
    fuel ind (m : machine (W:=W)) frame rest :
  Buffer ind = frame ++ rest ->
  BufferSize ind = Z.of_nat (length frame) ->
  (length frame <= 255)%nat ->
  Forall (fun b => 5 <= b) frame ->
  (length frame <= fuel)%nat ->
  LmhpRemoteMcastSetupOnMcpsIndication fuel ind m
  = Ok tt (set_dataBufferIndex 0 (set_cmdIndex (Z.of_nat (length frame)) m)).
Proof.
  intros HB Hsize Hlen H5 Hfuel.
  rewrite (indication_eq fuel ind m
             (set_cmdIndex (Z.of_nat (length frame))
                (set_dataBufferIndex 0 (set_cmdIndex 0 m)))).
  - reflexivity.
  - apply (decode_loop_skips ind frame rest HB Hsize Hlen H5); cbn; lia.
Qed.

(** X14, the theorem at work: a class B session request and two bytes
    that are no opcode. *)
Lemma unknown_requests_are_skipped_witness :
  LmhpRemoteMcastSetupOnMcpsIndication 3 frame_unknown booted
  = Ok tt (set_dataBufferIndex 0 (set_cmdIndex 3 booted)).
Proof.
  refine (unknown_requests_are_skipped 3 frame_unknown booted
            [0x05; 0x80; 0xFF] [] _ _ _ _ _).
  - reflexivity.
  - reflexivity.
  - cbn; lia.
  - repeat constructor; lia.
  - cbn; lia.
Defined.

(** X15. The size of the frame is compared with [cmdIndex] before the
    opcode is read, and not again: the bytes of a request are read from
    the memory of the frame whether they are inside [BufferSize] or not.
    A group setup request of 30 bytes in a frame announced with any size
    from 1 to 30 is handled in full: its fields are stored, the MAC is
    called, and the answer is sent. *)
Theorem payload_is_read_past_BufferSize {W : Type} {PF : Platform W}
    fuel ind (m : machine (W:=W)) post id a0 a1 a2 a3 key
    n0 n1 n2 n3 x0 x1 x2 x3 st w' :
  let cmd := 0x02 :: id :: a0 :: a1 :: a2 :: a3 ::
             key ++ [n0; n1; n2; n3; x0; x1; x2; x3] in
  Buffer ind = cmd ++ post ->
  1 <= BufferSize ind <= 30 ->
  (1 <= fuel)%nat ->
  Forall is_byte cmd ->
  length key = 16%nat ->
  id < 4 ->
  table_wf (McSessionData m) ->
  (2 <= length (DataBuffer m))%nat ->
  LoRaMacMcChannelSetup
    (GroupSetup_channel id a0 a1 a2 a3 key n0 n1 n2 n3 x0 x1 x2 x3) (world m)
  = (st, w') ->
  exists m' r,
    LmhpRemoteMcastSetupOnMcpsIndication fuel ind m = Ok tt m' /\
    cmdIndex m' = 30 /\
    McSessionData m' !! Z.to_nat id = Some r /\
    McAddr (McGroupData r) = le32 a0 a1 a2 a3 /\
    McKeyEncrypted (McGroupData r) = key /\
    McFCountMin (McGroupData r) = le32 n0 n1 n2 n3 /\
    McFCountMax (McGroupData r) = le32 x0 x1 x2 x3 /\
    world m' = w' /\
    calls m' = calls m ++
               [OnSendRequest
                  {| AppBuffer := [0x02; GroupSetup_status st id];
                     AppBufferSize := 2; Port := 200 |}
                  LORAMAC_HANDLER_UNCONFIRMED_MSG].
Proof.
  intros cmd HB Hsize Hfuel Hbytes Hkey Hid Hwf Hbuf Hmac.
  assert (Hid0 : 0 <= id < 4).
  { subst cmd. inversion Hbytes as [|? ? _ Hb1]; subst.
    inversion Hb1 as [|? ? Hb _]. unfold is_byte in Hb. lia. }
  destruct (table_slot _ id Hwf Hid0) as (r0 & Hr0 & Hk0).
  destruct fuel as [|fuel]; [lia|].
  pose proof (GroupSetup_exec ind (set_dataBufferIndex 0 (set_cmdIndex 0 m))
                [] post id a0 a1 a2 a3 key n0 n1 n2 n3
                x0 x1 x2 x3 [] (DataBuffer m) r0 st w'
                HB Hbytes Hkey ltac:(cbn; lia) eq_refl Hid Hr0 Hk0 eq_refl eq_refl
                Hbuf ltac:(cbn; lia) Hmac) as Hrun.
  cbn zeta in Hrun.
  eexists. eexists. split.
  { apply indication_eq. eapply decode_loop_one; [cbn; lia | exact Hrun | cbn; lia]. }
  cbn [dataBufferIndex length Nat.add Z.of_nat Pos.of_succ_nat Pos.succ Z.eqb].
  cbn [cmdIndex McSessionData world calls DataBuffer set_calls app
       set_dataBufferIndex set_cmdIndex dataBufferIndex Z.to_nat Pos.to_nat
       Pos.iter_op Nat.add take].
  split; [reflexivity|].
  split; [apply list_lookup_insert_eq; eapply lookup_lt_Some; eauto|].
  repeat split; reflexivity.
Qed.

(** X15, the theorem at work: the request for group 1 in a frame
    announced with one byte. *)
Lemma payload_is_read_past_BufferSize_witness :
  exists m' r,
    LmhpRemoteMcastSetupOnMcpsIndication 1 setup_request_size_1 booted
    = Ok tt m' /\
    cmdIndex m' = 30 /\
    McSessionData m' !! 1%nat = Some r /\
    McAddr (McGroupData r) = 0x11223344 /\
    McKeyEncrypted (McGroupData r) = setup_key /\
    McFCountMin (McGroupData r) = 0 /\
    McFCountMax (McGroupData r) = 65535 /\
    world m' = snd (LoRaMacMcChannelSetup
                      (GroupSetup_channel 1 0x44 0x33 0x22 0x11 setup_key
                         0 0 0 0 0xFF 0xFF 0 0) (world booted)) /\
    calls m' = [OnSendRequest
                  {| AppBuffer := [0x02; 1]; AppBufferSize := 2; Port := 200 |}
                  LORAMAC_HANDLER_UNCONFIRMED_MSG].
Proof.
  refine (payload_is_read_past_BufferSize 1 setup_request_size_1 booted []
            1 0x44 0x33 0x22 0x11 setup_key 0 0 0 0 0xFF 0xFF 0 0
            LORAMAC_STATUS_OK
            (snd (LoRaMacMcChannelSetup
                    (GroupSetup_channel 1 0x44 0x33 0x22 0x11 setup_key
                       0 0 0 0 0xFF 0xFF 0 0) (world booted)))
            _ _ _ _ _ _ _ _ _).
  - reflexivity.
  - cbn; lia.
  - lia.
  - repeat constructor; unfold is_byte; lia.
  - reflexivity.
  - lia.
  - apply table_wf_boot.
  - cbn; lia.
  - reflexivity.
Defined.

(** X16. A group that is set up is reported with the address it was set
    up with. One frame holds a group setup request for a group below 4
    with an address that is not 0, and a group status request for that
    group alone; the MAC accepts the setup and holds the channel it was
    given. Then both answers are sent as one message, setup answer first,
    and the four address bytes of the status answer are the four address
    bytes of the setup request: reading them low byte first and writing
    them by shifts gives them back. *)
Theorem GroupSetup_then_GroupStatus {W : Type} {PF : Platform W}
    fuel ind (m : machine (W:=W)) post id a0 a1 a2 a3 key
    n0 n1 n2 n3 x0 x1 x2 x3 w' :
  let setup := 0x02 :: id :: a0 :: a1 :: a2 :: a3 ::
               key ++ [n0; n1; n2; n3; x0; x1; x2; x3] in
  let req := Z.shiftl 1 (3 - id) in
  let channel := GroupSetup_channel id a0 a1 a2 a3 key n0 n1 n2 n3 x0 x1 x2 x3 in
  Buffer ind = (setup ++ [0x01; req]) ++ post ->
  BufferSize ind = 32 ->
  (2 <= fuel)%nat ->
  Forall is_byte setup ->
  length key = 16%nat ->
  id < 4 ->
  le32 a0 a1 a2 a3 <> 0 ->
  table_wf (McSessionData m) ->
  (24 <= length (DataBuffer m) <= 255)%nat ->
  LoRaMacMcChannelSetup channel (world m) = (LORAMAC_STATUS_OK, w') ->
  MulticastChannelList w' (Z.to_nat id) = channel ->
  exists m',
    LmhpRemoteMcastSetupOnMcpsIndication fuel ind m = Ok tt m' /\
    calls m' = calls m ++
               [OnSendRequest
                  {| AppBuffer := [0x02; id; 0x01; 64 + req; id; a0; a1; a2; a3];
                     AppBufferSize := 9; Port := 200 |}
                  LORAMAC_HANDLER_UNCONFIRMED_MSG].
Proof.
  intros setup req channel HB Hsize Hfuel Hbytes Hkey Hid Haddr Hwf Hbuf Hmac Hchan.
  assert (Hid0 : 0 <= id < 4).
  { subst setup. inversion Hbytes as [|? ? _ Hb1]; subst.
    inversion Hb1 as [|? ? Hb _]. unfold is_byte in Hb. lia. }
  assert (Haddrs : is_byte a0 /\ is_byte a1 /\ is_byte a2 /\ is_byte a3).
  { subst setup. bytes_of Hbytes. auto. }
  destruct Haddrs as (Ha0 & Ha1 & Ha2 & Ha3).
  destruct (table_slot _ id Hwf Hid0) as (r0 & Hr0 & Hk0).
  destruct fuel as [|[|fuel]]; [lia|lia|].
  assert (HB1 : Buffer ind = [] ++ setup ++ ([0x01; req] ++ post)).
  { rewrite HB. cbn [app]. now rewrite <- app_assoc. }
  pose proof (GroupSetup_exec ind (set_dataBufferIndex 0 (set_cmdIndex 0 m))
                [] ([0x01; req] ++ post) id a0 a1 a2 a3 key n0 n1 n2 n3
                x0 x1 x2 x3 [] (DataBuffer m) r0 LORAMAC_STATUS_OK w'
                HB1 Hbytes Hkey ltac:(cbn; lia) eq_refl Hid Hr0 Hk0 eq_refl eq_refl
                ltac:(lia) ltac:(cbn; lia) Hmac) as Hrun1.
  cbn zeta in Hrun1. cbn [GroupSetup_status length Nat.add app] in Hrun1.
  set (m1 := {| cmdIndex := Z.of_nat 30 |}) in Hrun1.
  assert (Hlen_setup : length setup = 30%nat).
  { subst setup. cbn [length]. rewrite length_app, Hkey. reflexivity. }
  pose proof (GroupStatus_exec ind m1 setup post req [0x02; id]
                (drop 2 (DataBuffer m))
                ltac:(rewrite HB; now rewrite <- app_assoc)
                ltac:(rewrite Hlen_setup; lia)
                ltac:(subst m1; cbn [cmdIndex]; now rewrite Hlen_setup)
                eq_refl eq_refl
                ltac:(rewrite length_drop; lia)
                ltac:(cbn [length]; lia)) as Hrun2.
  cbn zeta in Hrun2. subst m1. cbn [world] in Hrun2.
  assert (Hasked : forall i, (i < 4)%nat ->
            Z.testbit req (3 - Z.of_nat i)
            && negb (Address (MulticastChannelList w' i) =? 0)
            = bool_decide (Z.of_nat i = id)).
  { intros i Hi. subst req. rewrite testbit_one_hot by (done || lia).
    destruct (bool_decide_reflect (Z.of_nat i = id)) as [E|E]; [|reflexivity].
    replace i with (Z.to_nat id) by lia. rewrite Hchan.
    cbn [channel GroupSetup_channel Address].
    apply Z.eqb_neq in Haddr. now rewrite Haddr. }
  rewrite !Hasked in Hrun2 by lia.
  assert (Hgroup : group_bytes (MulticastChannelList w' (Z.to_nat id))
                   = [id; a0; a1; a2; a3]).
  { rewrite Hchan. unfold group_bytes. cbn [channel GroupSetup_channel GroupID Address].
    destruct (le32_bytes a0 a1 a2 a3 Ha0 Ha1 Ha2 Ha3) as (-> & -> & -> & ->).
    rewrite uint8_t_small by lia. reflexivity. }
  assert (Hans :
    [1; 64 + 8 * Z.b2z (bool_decide (Z.of_nat 0 = id))
          + 4 * Z.b2z (bool_decide (Z.of_nat 1 = id))
          + 2 * Z.b2z (bool_decide (Z.of_nat 2 = id))
          + Z.b2z (bool_decide (Z.of_nat 3 = id))]
    ++ (if bool_decide (Z.of_nat 0 = id)
        then group_bytes (MulticastChannelList w' 0) else [])
    ++ (if bool_decide (Z.of_nat 1 = id)
        then group_bytes (MulticastChannelList w' 1) else [])
    ++ (if bool_decide (Z.of_nat 2 = id)
        then group_bytes (MulticastChannelList w' 2) else [])
    ++ (if bool_decide (Z.of_nat 3 = id)
        then group_bytes (MulticastChannelList w' 3) else [])
    = [1; 64 + req; id; a0; a1; a2; a3]).
  { subst req.
    assert (id = 0 \/ id = 1 \/ id = 2 \/ id = 3) as [E|[E|[E|E]]] by lia;
      rewrite E in Hgroup |- *;
      match type of Hgroup with
      | context [Z.to_nat ?k] =>
          let n := eval vm_compute in (Z.to_nat k) in
          change (Z.to_nat k) with n in Hgroup
      end;
      repeat match goal with
             | |- context [bool_decide ?P] =>
                 let b := eval vm_compute in (bool_decide P) in
                 change (bool_decide P) with b
             end;
      cbn [Z.b2z app]; rewrite Hgroup; reflexivity. }
  rewrite Hans in Hrun2. cbn [length] in Hrun2.
  eexists. split.
  { apply indication_eq.
    eapply decode_loop_two; [| exact Hrun1 | | exact Hrun2 |];
      cbn [cmdIndex set_dataBufferIndex set_cmdIndex]; rewrite ?Hlen_setup; lia. }
  cbn [dataBufferIndex].
  change (Z.of_nat 9 =? 0) with false. cbv iota.
  cbn [calls set_calls DataBuffer dataBufferIndex set_dataBufferIndex set_cmdIndex].
  change (Z.to_nat (Z.of_nat 9)) with 9%nat. reflexivity.
Qed.

(** X16, the theorem at work: group 1 is set up with the address
    0x11223344 and asked for in the same frame. *)
Lemma GroupSetup_then_GroupStatus_witness :
  exists m',
    LmhpRemoteMcastSetupOnMcpsIndication 2 setup_1_then_status booted
    = Ok tt m' /\
    calls m' = [OnSendRequest
                  {| AppBuffer := [0x02; 1; 0x01; 0x44; 1; 0x44; 0x33; 0x22; 0x11];
                     AppBufferSize := 9; Port := 200 |}
                  LORAMAC_HANDLER_UNCONFIRMED_MSG].
Proof.
  refine (GroupSetup_then_GroupStatus 2 setup_1_then_status booted []
            1 0x44 0x33 0x22 0x11 setup_key 0 0 0 0 0xFF 0xFF 0 0
            (snd (LoRaMacMcChannelSetup
                    (GroupSetup_channel 1 0x44 0x33 0x22 0x11 setup_key
                       0 0 0 0 0xFF 0xFF 0 0) (world booted)))
            _ _ _ _ _ _ _ _ _ _ _).
  - reflexivity.
  - reflexivity.
  - lia.
  - repeat constructor; unfold is_byte; lia.
  - reflexivity.
  - lia.
  - vm_compute. discriminate.
  - apply table_wf_boot.
  - cbn; lia.
  - reflexivity.
  - reflexivity.
Defined.

(** ** The answer buffer *)

(** X17. The answers to the requests of one frame follow one another in
    the answer buffer and are sent together. A frame of [n] package
    version requests, with room for [3 * n] bytes in the answer buffer,
    is answered by [n] times [0x00; 0x02; 0x01], sent as one unconfirmed
    message of [3 * n] bytes on port 200; the session table and the world
    are as before. *)
Theorem version_requests_are_answered_in_turn {W : Type} {PF : Platform W}
    fuel n (m : machine (W:=W)) :
  (1 <= n)%nat ->
  (3 * n <= length (DataBuffer m))%nat ->
  (3 * n <= 255)%nat ->
  (n <= fuel)%nat ->
  exists m',
    LmhpRemoteMcastSetupOnMcpsIndication fuel (version_requests n) m = Ok tt m' /\
    DataBuffer m'
    = concat (replicate n [0x00; 0x02; 0x01]) ++ drop (3 * n) (DataBuffer m) /\
    calls m' = calls m ++
               [OnSendRequest
                  {| AppBuffer := concat (replicate n [0x00; 0x02; 0x01]);
                     AppBufferSize := Z.of_nat (3 * n); Port := 200 |}
                  LORAMAC_HANDLER_UNCONFIRMED_MSG] /\
    McSessionData m' = McSessionData m /\
    world m' = world m.
Proof.
  intros Hn Hroom H255 Hfuel.
  pose proof (decode_loop_versions n n fuel
                (set_dataBufferIndex 0 (set_cmdIndex 0 m)) [] (DataBuffer m)
                ltac:(lia) ltac:(lia) Hfuel
                ltac:(cbn; f_equal; lia) eq_refl eq_refl Hroom ltac:(cbn; lia))
    as Hloop.
  cbn [length Nat.add app] in Hloop.
  eexists. split; [apply indication_eq; exact Hloop|].
  cbn [dataBufferIndex].
  destruct (Z.eqb_spec (Z.of_nat (3 * n)) 0) as [E|_]; [lia|].
  cbn [DataBuffer calls McSessionData world set_calls set_dataBufferIndex
       set_cmdIndex].
  split; [reflexivity|]. split; [|split; reflexivity].
  rewrite Nat2Z.id, take_app_length' by (symmetry; apply length_version_answers).
  reflexivity.
Qed.

(** X17, the theorem at work: three requests on the machine after
    start-up. *)
Lemma version_requests_are_answered_in_turn_witness :
  exists m',
    LmhpRemoteMcastSetupOnMcpsIndication 3 (version_requests 3) booted
    = Ok tt m' /\
    DataBuffer m' = [0; 2; 1; 0; 2; 1; 0; 2; 1] ++ drop 9 (DataBuffer booted) /\
    calls m' = [OnSendRequest
                  {| AppBuffer := [0; 2; 1; 0; 2; 1; 0; 2; 1];
                     AppBufferSize := 9; Port := 200 |}
                  LORAMAC_HANDLER_UNCONFIRMED_MSG] /\
    McSessionData m' = McSessionData booted /\
    world m' = world booted.
Proof.
  refine (version_requests_are_answered_in_turn 3 3 booted _ _ _ _).
  - lia.
  - cbn; lia.
  - lia.
  - lia.
Defined.

(** X18. The handler does not compare [dataBufferIndex] with
    [DataBufferMaxSize]. After the package is initialised with a buffer,
    whatever size is given with it, a frame of [n] package version
    requests whose [3 * n] answer bytes are more than the buffer holds
    makes the handler write behind the buffer: the run stops at an access
    out of bounds. *)
Theorem answers_overflow_the_buffer {W : Type} {PF : Platform W}
    fuel n (p : package (W:=W)) buffer dataBufferMaxSize :
  (length buffer < 3 * n)%nat ->
  (3 * n <= 255)%nat ->
  (n <= fuel)%nat ->
  LmhpRemoteMcastSetupOnMcpsIndication fuel (version_requests n)
    (globals (LmhpRemoteMcastSetupInit (Some buffer) dataBufferMaxSize p))
  = Fault OutOfBounds.
Proof.
  intros Hsmall H255 Hfuel.
  apply indication_fault.
  apply (decode_loop_versions_overflow n n fuel _ [] buffer);
    try lia; try reflexivity.
  - cbn. f_equal. lia.
  - cbn [length]. lia.
Qed.

(** X18, the theorem at work: a buffer of 242 bytes, given with its size,
    and 81 requests. *)
Lemma answers_overflow_the_buffer_witness :
  LmhpRemoteMcastSetupOnMcpsIndication 81 (version_requests 81)
    (globals (LmhpRemoteMcastSetupInit (Some (replicate 242 0)) 242
                (package_static (Bench.script_at 0 LORAMAC_STATUS_OK 0))))
  = Fault OutOfBounds.
Proof.
  refine (answers_overflow_the_buffer 81 81
            (package_static (Bench.script_at 0 LORAMAC_STATUS_OK 0))
            (replicate 242 0) 242 _ _ _).
  - cbn; lia.
  - lia.
  - lia.
Defined.

(** ** The package object *)

(** X19. What the package reports of itself. From the statics of the
    file, after any number of initialisations (with a buffer or with
    [NULL]), calls of [Process], indications and timer callbacks,
    [IsRunning()] is [IsInitialized()]; when the package is initialised
    both timers have been given their callbacks; [DataBufferMaxSize] is a
    byte; and the session table has four records with keys of 16 bytes
    and timeouts of four bits. *)
Theorem package_reports_its_state {W : Type} {PF : Platform W}
    (w : W) (p : package (W:=W)) :
  rtc host_step (package_static w) p ->
  LmhpRemoteMcastSetupIsRunning p = LmhpRemoteMcastSetupIsInitialized p /\
  (LmhpRemoteMcastSetupIsInitialized p = true ->
   In (SessionStartTimer, OnSessionStartTimer) (TimerInit p) /\
   In (SessionStopTimer, OnSessionStopTimer) (TimerInit p)) /\
  0 <= DataBufferMaxSize (LmhpRemoteMcastSetupState p) <= 255 /\
  table_wf (McSessionData (globals p)) /\
  timeouts_ok (McSessionData (globals p)).
Proof.
  intros Hsteps.
  destruct (host_invariant_steps _ _ Hsteps (host_invariant_static w))
    as (Hrun & Htimers & Hsize & Hwf & Hto).
  split.
  { unfold LmhpRemoteMcastSetupIsRunning, LmhpRemoteMcastSetupIsInitialized.
    rewrite Hrun. now destruct (Initialized (LmhpRemoteMcastSetupState p)). }
  auto.
Qed.

(** X19, the theorem at work: the package is initialised with a buffer
    of 242 bytes, then with [NULL]. *)
Lemma package_reports_its_state_witness :
  LmhpRemoteMcastSetupIsRunning
    (LmhpRemoteMcastSetupInit None 0 package_booted)
  = LmhpRemoteMcastSetupIsInitialized
      (LmhpRemoteMcastSetupInit None 0 package_booted) /\
  (LmhpRemoteMcastSetupIsInitialized
     (LmhpRemoteMcastSetupInit None 0 package_booted) = true ->
   In (SessionStartTimer, OnSessionStartTimer)
      (TimerInit (LmhpRemoteMcastSetupInit None 0 package_booted)) /\
   In (SessionStopTimer, OnSessionStopTimer)
      (TimerInit (LmhpRemoteMcastSetupInit None 0 package_booted))) /\
  0 <= DataBufferMaxSize
         (LmhpRemoteMcastSetupState
            (LmhpRemoteMcastSetupInit None 0 package_booted)) <= 255 /\
  table_wf (McSessionData (globals (LmhpRemoteMcastSetupInit None 0 package_booted))) /\
  timeouts_ok
    (McSessionData (globals (LmhpRemoteMcastSetupInit None 0 package_booted))).
Proof.
  refine (package_reports_its_state
            (Bench.script_at 1000000000 LORAMAC_STATUS_OK 0)
            (LmhpRemoteMcastSetupInit None 0 package_booted) _).
  eapply rtc_l.
  { exact (host_Init (Some (replicate 242 0)) 242
             (package_static (Bench.script_at 1000000000 LORAMAC_STATUS_OK 0))). }
  apply rtc_once. exact (host_Init None 0 package_booted).
Defined.

(** X20. The handler does not test [Initialized]. On a package that has
    no answer buffer, as before its initialisation, a frame that starts
    with a request that is answered (package version, group status,
    group delete, class C session) makes the handler write through the
    null pointer: the run stops at an access out of bounds. *)
Theorem requests_need_the_answer_buffer {W : Type} {PF : Platform W}
    fuel ind (m : machine (W:=W)) op :
  DataBuffer m = [] ->
  Buffer ind !! 0%nat = Some op ->
  op = 0x00 \/ op = 0x01 \/ op = 0x03 \/ op = 0x04 ->
  1 <= BufferSize ind ->
  (1 <= fuel)%nat ->
  LmhpRemoteMcastSetupOnMcpsIndication fuel ind m = Fault OutOfBounds.
Proof.
  intros HD Hop Hcases Hsize Hfuel.
  destruct fuel as [|fuel]; [lia|].
  apply indication_fault.
  rewrite decode_loop_step by (cbn; lia).
  unfold bind.
  rewrite (process_command_needs_buffer ind _ op); auto.
Qed.

(** X20, the theorem at work: a package version request handled on the
    statics of the file. *)
Lemma requests_need_the_answer_buffer_witness :
  LmhpRemoteMcastSetupOnMcpsIndication 1 (version_requests 1)
    (globals (package_static (Bench.script_at 0 LORAMAC_STATUS_OK 0)))
  = Fault OutOfBounds.
Proof.
  refine (requests_need_the_answer_buffer 1 (version_requests 1)
            (globals (package_static (Bench.script_at 0 LORAMAC_STATUS_OK 0)))
            0 _ _ _ _ _).
  - reflexivity.
  - reflexivity.
  - left. reflexivity.
  - cbn; lia.
  - lia.
Defined.

(** ** Frames of requests *)



